(** * Data Transform Agent: the conversation state machine

    A shallow embedding of [src/agents/transform_agent.py] (the
    [TransformAgent] class) and of the plan parsing of
    [src/services/llm_service.py], with the properties of the session
    state machine, the intent classifier, the table resolver and the
    target-layer policy.

    Python [str] values are embedded as [string]; the text is taken over
    the ASCII alphabet: a character above 127 has no case and is no
    white space. Floating point JSON numbers are outside the model. *)

From Stdlib Require Import Bool Arith ZArith List Ascii String Lia.
From Stdlib Require Import DecimalString.
Import ListNotations.

Local Open Scope string_scope.
Local Open Scope bool_scope.

(** ** Python string methods *)

Module Str.

Definition emp : string := EmptyString.

Definition str1 (c : ascii) : string := String c emp.

(** The double quote and the line feed, for texts that contain them. *)
Definition dq : string := str1 (ascii_of_nat 34).
Definition nl : string := str1 (ascii_of_nat 10).

Definition between (lo hi : nat) (c : ascii) : bool :=
  (lo <=? nat_of_ascii c)%nat && (nat_of_ascii c <=? hi)%nat.

Definition is_upper (c : ascii) : bool := between 65 90 c.
Definition is_lower (c : ascii) : bool := between 97 122 c.
Definition is_digit (c : ascii) : bool := between 48 57 c.

(** [str.isspace] on one character: TAB LF VT FF CR, FS GS RS US, space. *)
Definition is_space (c : ascii) : bool :=
  between 9 13 c || between 28 31 c || (nat_of_ascii c =? 32)%nat.

(** A word character of [\w]. *)
Definition is_word (c : ascii) : bool :=
  is_upper c || is_lower c || is_digit c || (nat_of_ascii c =? 95)%nat.

Definition lower_char (c : ascii) : ascii :=
  if is_upper c then ascii_of_nat (nat_of_ascii c + 32) else c.

Definition upper_char (c : ascii) : ascii :=
  if is_lower c then ascii_of_nat (nat_of_ascii c - 32) else c.

Fixpoint map_str (f : ascii -> ascii) (s : string) : string :=
  match s with
  | EmptyString => EmptyString
  | String c r => String (f c) (map_str f r)
  end.

(** [s.lower()] and [s.upper()] on the letters of ASCII: a character
    outside A-Z, or a-z, stays as it is. That is what Python does to a
    text of ASCII characters; where a property needs the case mapping
    of Python beyond them, it is stated for such texts only. *)
Definition lower : string -> string := map_str lower_char.
Definition upper : string -> string := map_str upper_char.

Fixpoint all_str (p : ascii -> bool) (s : string) : bool :=
  match s with
  | EmptyString => true
  | String c r => p c && all_str p r
  end.

Fixpoint lstrip (s : string) : string :=
  match s with
  | EmptyString => EmptyString
  | String c r => if is_space c then lstrip r else s
  end.

Fixpoint rstrip (s : string) : string :=
  match s with
  | EmptyString => EmptyString
  | String c r =>
      match rstrip r with
      | EmptyString => if is_space c then EmptyString else str1 c
      | r' => String c r'
      end
  end.

(** [s.strip()] *)
Definition strip (s : string) : string := rstrip (lstrip s).

(** [s.startswith(p)] *)
Fixpoint startswith (p s : string) : bool :=
  match p, s with
  | EmptyString, _ => true
  | String a p', String b s' => Ascii.eqb a b && startswith p' s'
  | String _ _, EmptyString => false
  end.

(** [s.endswith(p)], for a one-character [p] *)
Fixpoint endswith_char (c : ascii) (s : string) : bool :=
  match s with
  | EmptyString => false
  | String a EmptyString => Ascii.eqb a c
  | String _ r => endswith_char c r
  end.

(** [sub in s] *)
Fixpoint contains (sub s : string) : bool :=
  startswith sub s ||
  match s with
  | EmptyString => false
  | String _ r => contains sub r
  end.

(** [x in [w1, w2, ...]] for strings *)
Definition mem (x : string) (l : list string) : bool :=
  existsb (String.eqb x) l.

(** [any(w in s for w in words)] *)
Definition any_in (words : list string) (s : string) : bool :=
  existsb (fun w => contains w s) words.

(** [s.replace(old, new)] for a non-empty [old]: occurrences are taken
    from the left and do not overlap. [skip] counts the characters of
    an occurrence that are still to be dropped. *)
Fixpoint replace_go (old new : string) (skip : nat) (s : string) : string :=
  match s with
  | EmptyString => EmptyString
  | String c r =>
      match skip with
      | S k => replace_go old new k r
      | O =>
          if startswith old s
          then new ++ replace_go old new (String.length old - 1) r
          else String c (replace_go old new 0 r)
      end
  end.

Definition replace (old new s : string) : string := replace_go old new 0 s.

(** [s.split(sep)] for a one-character separator *)
Fixpoint split_char (sep : ascii) (s : string) : list string :=
  match s with
  | EmptyString => [EmptyString]
  | String c r =>
      if Ascii.eqb c sep then EmptyString :: split_char sep r
      else match split_char sep r with
           | [] => [str1 c]
           | p :: ps => String c p :: ps
           end
  end.

(** [s.split(" ", 1)[1]]: the text after the first space; [None] stands
    for the [IndexError] of a text without space. *)
Fixpoint after_first_space (s : string) : option string :=
  match s with
  | EmptyString => None
  | String c r => if Ascii.eqb c " " then Some r else after_first_space r
  end.

(** [len(s.split())]: the number of maximal runs without white space.
    [inword] tells whether the previous character was part of a run. *)
Fixpoint count_words_go (inword : bool) (s : string) : nat :=
  match s with
  | EmptyString => 0
  | String c r =>
      if is_space c then count_words_go false r
      else (if inword then 0 else 1) + count_words_go true r
  end.

Definition count_words (s : string) : nat := count_words_go false s.

(** [sep.join(parts)] *)
Fixpoint join (sep : string) (parts : list string) : string :=
  match parts with
  | [] => EmptyString
  | [p] => p
  | p :: ps => p ++ sep ++ join sep ps
  end.

(** [s[:n]] *)
Fixpoint take (n : nat) (s : string) : string :=
  match n, s with
  | S k, String c r => String c (take k r)
  | _, _ => EmptyString
  end.

(** [c * n] for a one-character text *)
Fixpoint repeat_char (c : ascii) (n : nat) : string :=
  match n with
  | O => EmptyString
  | S k => String c (repeat_char c k)
  end.

(** The last component of [s.split(".")], as in [s.split('.')[-1]]. *)
Definition last_part (sep : ascii) (s : string) : string :=
  List.last (split_char sep s) EmptyString.

(** Decimal digits of an integer, [str(n)]. *)
Definition of_Z (n : Z) : string := NilZero.string_of_int (Z.to_int n).

(** Thousands separators, from the right: the digits arrive reversed. *)
Fixpoint group3 (k : nat) (rev_digits : list ascii) : list ascii :=
  match rev_digits with
  | [] => []
  | d :: ds =>
      match k, ds with
      | 2, _ :: _ => d :: ","%char :: group3 0 ds
      | _, _ => d :: group3 (S k) ds
      end
  end.

(** [format(n, ",")] for an integer *)
Definition commas (n : Z) : string :=
  let digits := list_ascii_of_string (of_Z (Z.abs n)) in
  let body := string_of_list_ascii (rev (group3 0 (rev digits))) in
  if (n <? 0)%Z then "-" ++ body else body.

End Str.

(** ** Regular expressions

    The fragment of [re] patterns that the agent uses: literals,
    character classes, sequence, alternation, option, the anchors, and
    iteration of a single character class (every [*] and [+] of the
    source is over [.] or [\w]). *)

Module Re.

Inductive cclass : Type :=
  | CAny      (* .   any character but the line feed *)
  | CSpace    (* \s *)
  | CWord.    (* \w *)

Definition in_class (k : cclass) (c : ascii) : bool :=
  match k with
  | CAny => negb (Ascii.eqb c (ascii_of_nat 10))
  | CSpace => Str.is_space c
  | CWord => Str.is_word c
  end.

Inductive re : Type :=
  | Eps
  | Lit (s : string)
  | Cls (k : cclass)
  | Seq (a b : re)
  | Alt (a b : re)
  | Opt (a : re)
  | Star (k : cclass)
  | Bol       (* ^ *)
  | Eol.      (* $ *)

Definition cat (l : list re) : re := fold_right Seq Eps l.

Definition alt (l : list string) : re :=
  match l with
  | [] => Eps
  | x :: xs => fold_left (fun acc y => Alt acc (Lit y)) xs (Lit x)
  end.

(** The text after the prefix [p], when [s] starts with [p]. *)
Fixpoint drop_prefix (p s : string) : option string :=
  match p, s with
  | EmptyString, _ => Some s
  | String a p', String b s' => if Ascii.eqb a b then drop_prefix p' s' else None
  | String _ _, EmptyString => None
  end.

(** [star_from k cont bol s]: the continuation holds after some number
    of characters of class [k]. *)
Fixpoint star_from (k : cclass) (cont : string -> bool -> bool)
         (bol : bool) (s : string) : bool :=
  cont s bol ||
  match s with
  | EmptyString => false
  | String c r => in_class k c && star_from k cont false r
  end.

(** [matches_at r s bol cont]: [r] matches a prefix of [s] and [cont]
    accepts what is left; [bol] tells whether [s] is the whole subject. *)
Fixpoint matches_at (r : re) (s : string) (bol : bool)
         (cont : string -> bool -> bool) : bool :=
  match r with
  | Eps => cont s bol
  | Lit p =>
      match drop_prefix p s with
      | Some rest =>
          cont rest (match p with EmptyString => bol | _ => false end)
      | None => false
      end
  | Cls k =>
      match s with
      | String c rest => in_class k c && cont rest false
      | EmptyString => false
      end
  | Seq a b => matches_at a s bol (fun s' bol' => matches_at b s' bol' cont)
  | Alt a b => matches_at a s bol cont || matches_at b s bol cont
  | Opt a => matches_at a s bol cont || cont s bol
  | Star k => star_from k cont bol s
  | Bol => bol && cont s bol
  | Eol =>
      match s with
      | EmptyString => cont s bol
      | String c EmptyString => Ascii.eqb c (ascii_of_nat 10) && cont s bol
      | _ => false
      end
  end.

Fixpoint search_from (r : re) (bol : bool) (s : string) : bool :=
  matches_at r s bol (fun _ _ => true) ||
  match s with
  | EmptyString => false
  | String _ rest => search_from r false rest
  end.

(** [re.search(r, s)] as a truth value. *)
Definition search (r : re) (s : string) : bool := search_from r true s.

(** The longest prefix of word characters, and the rest. *)
Fixpoint span_word (s : string) : string * string :=
  match s with
  | EmptyString => (EmptyString, EmptyString)
  | String c r =>
      if Str.is_word c
      then let '(w, rest) := span_word r in (String c w, rest)
      else (EmptyString, s)
  end.

Definition dotted_at (s : string) : option (string * string) :=
  match span_word s with
  | (EmptyString, _) => None
  | (w1, String c r) =>
      if Ascii.eqb c "." then
        match span_word r with
        | (EmptyString, _) => None
        | (w2, _) => Some (w1, w2)
        end
      else None
  | (_, EmptyString) => None
  end.

(** [re.search(r'(\w+)\.(\w+)', s)] with its two groups: the leftmost
    match; a dot is no word character, so the first group is a whole
    run of word characters and both groups are as long as possible. *)
Fixpoint search_dotted (s : string) : option (string * string) :=
  match dotted_at s with
  | Some g => Some g
  | None =>
      match s with
      | EmptyString => None
      | String _ r => search_dotted r
      end
  end.

End Re.

(** ** Python values

    What [json.loads] returns and what a warehouse cell holds: the
    dataclasses of the source do not check their field types, so a plan
    carries whatever the decoder produced. *)

Inductive result (A : Type) : Type :=
  | Ok (a : A)
  | Raise (msg : string).   (* an exception, with its [str(e)] *)

Arguments Ok {A} a.
Arguments Raise {A} msg.

Inductive pyval : Type :=
  | PNone
  | PBool (b : bool)
  | PInt (n : Z)
  | PStr (s : string)
  | PList (l : list pyval)
  | PDict (d : list (string * pyval)).

Module Py.

Definition hex_digit (n : nat) : ascii :=
  if (n <? 10)%nat then ascii_of_nat (48 + n) else ascii_of_nat (87 + n).

Definition repr_char (quote c : ascii) : string :=
  let n := nat_of_ascii c in
  if Ascii.eqb c "\" then "\\"
  else if Ascii.eqb c quote then String "\" (Str.str1 c)
  else if (n =? 10)%nat then "\n"
  else if (n =? 13)%nat then "\r"
  else if (n =? 9)%nat then "\t"
  else if (n <? 32)%nat || (n =? 127)%nat
       then "\x" ++ String (hex_digit (n / 16)) (Str.str1 (hex_digit (n mod 16)))
  else Str.str1 c.

Fixpoint concat_map (f : ascii -> string) (s : string) : string :=
  match s with
  | EmptyString => EmptyString
  | String c r => f c ++ concat_map f r
  end.

(** [repr(s)] of a text: single quotes, unless the text has a single
    quote and no double quote. *)
Definition repr_str (s : string) : string :=
  let quote : ascii :=
    if Str.contains "'" s && negb (Str.contains Str.dq s)
    then ascii_of_nat 34 else "'"%char in
  String quote (concat_map (repr_char quote) s) ++ Str.str1 quote.

Fixpoint repr (v : pyval) : string :=
  match v with
  | PNone => "None"
  | PBool true => "True"
  | PBool false => "False"
  | PInt n => Str.of_Z n
  | PStr s => repr_str s
  | PList l => "[" ++ Str.join ", " (map repr l) ++ "]"
  | PDict d =>
      "{" ++ Str.join ", "
               (map (fun kv => let '(k, x) := kv in repr_str k ++ ": " ++ repr x) d)
          ++ "}"
  end.

(** [str(v)] *)
Definition str (v : pyval) : string :=
  match v with
  | PStr s => s
  | _ => repr v
  end.

(** [bool(v)] *)
Definition truthy (v : pyval) : bool :=
  match v with
  | PNone => false
  | PBool b => b
  | PInt n => negb (n =? 0)%Z
  | PStr s => negb (String.eqb s EmptyString)
  | PList l => match l with [] => false | _ => true end
  | PDict d => match d with [] => false | _ => true end
  end.

Definition type_name (v : pyval) : string :=
  match v with
  | PNone => "NoneType"
  | PBool _ => "bool"
  | PInt _ => "int"
  | PStr _ => "str"
  | PList _ => "list"
  | PDict _ => "dict"
  end.

(** [format(v, ",")], the [{v:,}] of an f-string: integers only. *)
Definition format_comma (v : pyval) : result string :=
  match v with
  | PInt n => Ok (Str.commas n)
  | PBool b => Ok (if b then "1" else "0")
  | PStr _ => Raise "Cannot specify ',' with 's'."
  | _ => Raise ("unsupported format string passed to " ++ type_name v ++ ".__format__")
  end.

(** [for t in v]: the elements of a list, the characters of a text,
    the keys of a dict. *)
Definition iterate (v : pyval) : result (list pyval) :=
  match v with
  | PList l => Ok l
  | PStr s => Ok (map (fun c => PStr (Str.str1 c)) (list_ascii_of_string s))
  | PDict d => Ok (map (fun kv => PStr (fst kv)) d)
  | _ => Raise ("'" ++ type_name v ++ "' object is not iterable")
  end.

Fixpoint assoc (k : string) (d : list (string * pyval)) : option pyval :=
  match d with
  | [] => None
  | (k', x) :: r => if String.eqb k k' then Some x else assoc k r
  end.

(** [k in v] *)
Definition has_key (k : string) (v : pyval) : result bool :=
  match v with
  | PDict d => Ok (match assoc k d with Some _ => true | None => false end)
  | PList l =>
      Ok (existsb (fun x => match x with PStr s => String.eqb s k | _ => false end) l)
  | PStr s => Ok (Str.contains k s)
  | _ => Raise ("argument of type '" ++ type_name v ++ "' is not iterable")
  end.

(** [v[k]] for a text key *)
Definition getitem (k : string) (v : pyval) : result pyval :=
  match v with
  | PDict d =>
      match assoc k d with
      | Some x => Ok x
      | None => Raise (repr_str k)          (* KeyError *)
      end
  | PList _ => Raise "list indices must be integers or slices, not str"
  | PStr _ => Raise "string indices must be integers, not 'str'"
  | _ => Raise ("'" ++ type_name v ++ "' object is not subscriptable")
  end.

(** [v.get(k, default)] *)
Definition get (k : string) (default : pyval) (v : pyval) : result pyval :=
  match v with
  | PDict d =>
      Ok (match assoc k d with Some x => x | None => default end)
  | _ => Raise ("'" ++ type_name v ++ "' object has no attribute 'get'")
  end.

End Py.

(** ** Data classes *)

Inductive AgentState : Type := IDLE | AWAITING_CONFIRMATION | EXECUTING.

Inductive UserIntent : Type := QUESTION | TRANSFORM | COMMAND | UNCLEAR.

Definition state_value (s : AgentState) : string :=
  match s with
  | IDLE => "idle"
  | AWAITING_CONFIRMATION => "awaiting"
  | EXECUTING => "executing"
  end.

Definition AgentState_eqb (x y : AgentState) : bool :=
  match x, y with
  | IDLE, IDLE | AWAITING_CONFIRMATION, AWAITING_CONFIRMATION
  | EXECUTING, EXECUTING => true
  | _, _ => false
  end.

Record TableColumn : Type := {
  col_name : string;
  data_type : string;
  nullable : bool;
  comment : option string
}.

Record TableSchema : Type := {
  catalog : string;
  schema : string;
  table : string;
  columns : list TableColumn;
  row_count : option Z
}.

Definition full_name (ts : TableSchema) : string :=
  catalog ts ++ "." ++ schema ts ++ "." ++ table ts.

Record QueryResult : Type := {
  qr_columns : list string;
  rows : list (list pyval);
  qr_row_count : nat
}.

(** The fields hold what [json.loads] gave: nothing checks them against
    the annotations of the dataclass. [None] is [PNone]. *)
Record TransformPlan : Type := {
  target_table : pyval;
  sql : pyval;
  transformations_applied : pyval;
  explanation : pyval;
  estimated_rows_after : pyval;
  columns_modified : pyval
}.

Record PendingTransform : Type := {
  plan : TransformPlan;
  source_table : string;
  source_schema : TableSchema;
  user_request : string
}.

Record TransformResult : Type := {
  success : bool;
  tr_target_table : pyval;
  rows_created : pyval;
  message : string;
  sql_executed : pyval
}.

(** ** The services

    [DatabricksService] and the Claude client, at the methods the agent
    calls: each takes the state [W] of the outside world and returns a
    value or raises. [json_loads] is the decoder of the standard
    library, and [build_transform_prompt] the template formatting of
    [prompts/templates.py]. *)

(** What [json.loads] does with a text: it returns the value, raises
    [json.JSONDecodeError], or raises something else ([RecursionError]
    on a text nested too deep), which no handler of [LLMService]
    names. *)
Inductive decoded : Type :=
  | Decoded (value : pyval)
  | JSONDecodeError (msg : string)
  | DecoderRaised (msg : string).

Record Services (W : Type) : Type := {
  list_tables : string -> W -> result (list string) * W;
  get_table_schema : string -> string -> W -> result TableSchema * W;
  get_sample_data : string -> string -> nat -> W -> result QueryResult * W;
  execute_command : pyval -> W -> result unit * W;
  execute_query : string -> W -> result QueryResult * W;
  call_claude : string -> W -> result string * W;
  json_loads : string -> decoded;
  build_transform_prompt :
    string -> TableSchema -> QueryResult -> string -> string -> string;
  settings_host : string;
  settings_catalog : string
}.

Arguments list_tables {W}.
Arguments get_table_schema {W}.
Arguments get_sample_data {W}.
Arguments execute_command {W}.
Arguments execute_query {W}.
Arguments call_claude {W}.
Arguments json_loads {W}.
Arguments build_transform_prompt {W}.
Arguments settings_host {W}.
Arguments settings_catalog {W}.

(** A call that left the agent for a service. *)
Inductive Call : Type :=
  | CallListTables (schema : string)
  | CallGetTableSchema (table schema : string)
  | CallGetSampleData (table schema : string) (limit : nat)
  | CallExecuteCommand (sql : pyval)
  | CallExecuteQuery (sql : string)
  | CallClaude (prompt : string).

Definition is_execute_command (c : Call) : bool :=
  match c with CallExecuteCommand _ => true | _ => false end.

(** The attributes of a [TransformAgent], the world its services talk
    to, and the calls made so far (latest first). *)
Record Agent (W : Type) : Type := {
  state : AgentState;
  pending_transform : option PendingTransform;
  last_result : option TransformResult;
  last_mentioned_table : option (string * string);   (* (table, schema) *)
  world : W;
  calls : list Call
}.

Arguments state {W}.
Arguments pending_transform {W}.
Arguments last_result {W}.
Arguments last_mentioned_table {W}.
Arguments world {W}.
Arguments calls {W}.

(** [TransformAgent.__init__] *)
Definition init {W : Type} (w : W) : Agent W :=
  {| state := IDLE; pending_transform := None; last_result := None;
     last_mentioned_table := None; world := w; calls := [] |}.

(** ** Methods as state transformers that may raise *)

Definition M (W A : Type) : Type := Agent W -> result A * Agent W.

Definition ret {W A} (x : A) : M W A := fun a => (Ok x, a).

Definition raise {W A} (msg : string) : M W A := fun a => (Raise msg, a).

Definition bind {W A B} (m : M W A) (f : A -> M W B) : M W B :=
  fun a =>
    match m a with
    | (Ok x, a') => f x a'
    | (Raise e, a') => (Raise e, a')
    end.

(** [try: m  except Exception as e: h e] *)
Definition try_except {W A} (m : M W A) (h : string -> M W A) : M W A :=
  fun a =>
    match m a with
    | (Ok x, a') => (Ok x, a')
    | (Raise e, a') => h e a'
    end.

(** The outcome of [m] as a value: never raises. *)
Definition attempt {W A} (m : M W A) : M W (result A) :=
  fun a => let '(r, a') := m a in (Ok r, a').

Definition lift {W A} (r : result A) : M W A := fun a => (r, a).

Declare Scope agent_scope.
Delimit Scope agent_scope with agent.
Notation "x <- m ;; k" := (bind m (fun x => k))
  (at level 61, m at next level, right associativity) : agent_scope.
Notation "m ;;; k" := (bind m (fun _ => k))
  (at level 61, right associativity) : agent_scope.
Local Open Scope agent_scope.

(** Concatenation of lists of lines, next to [++] on texts. *)
Notation "l +++ m" := (@List.app string l m)
  (at level 65, right associativity) : agent_scope.

Definition set_state {W} (s : AgentState) : M W unit :=
  fun a =>
    (Ok tt,
     {| state := s; pending_transform := pending_transform a;
        last_result := last_result a;
        last_mentioned_table := last_mentioned_table a;
        world := world a; calls := calls a |}).

Definition set_pending_transform {W} (p : option PendingTransform) : M W unit :=
  fun a =>
    (Ok tt,
     {| state := state a; pending_transform := p;
        last_result := last_result a;
        last_mentioned_table := last_mentioned_table a;
        world := world a; calls := calls a |}).

Definition set_last_result {W} (r : option TransformResult) : M W unit :=
  fun a =>
    (Ok tt,
     {| state := state a; pending_transform := pending_transform a;
        last_result := r;
        last_mentioned_table := last_mentioned_table a;
        world := world a; calls := calls a |}).

Definition set_last_mentioned_table {W} (t : string * string) : M W unit :=
  fun a =>
    (Ok tt,
     {| state := state a; pending_transform := pending_transform a;
        last_result := last_result a;
        last_mentioned_table := Some t;
        world := world a; calls := calls a |}).

(** One service call: the world moves on and the call is recorded. *)
Definition service {W A} (c : Call) (f : W -> result A * W) : M W A :=
  fun a =>
    let '(r, w') := f (world a) in
    (r,
     {| state := state a; pending_transform := pending_transform a;
        last_result := last_result a;
        last_mentioned_table := last_mentioned_table a;
        world := w'; calls := c :: calls a |}).

Definition get {W} : M W (Agent W) := fun a => (Ok a, a).

(** More string helpers, for [llm_service.py]. *)

Module Cut.

(** The text before and after the first occurrence of [sep]. *)
Fixpoint split_at (sep s : string) : option (string * string) :=
  match Re.drop_prefix sep s with
  | Some rest => Some (EmptyString, rest)
  | None =>
      match s with
      | EmptyString => None
      | String c r =>
          match split_at sep r with
          | Some (b, a) => Some (String c b, a)
          | None => None
          end
      end
  end.

(** [s.split(sep)[0]] *)
Definition part0 (sep s : string) : string :=
  match split_at sep s with
  | Some (b, _) => b
  | None => s
  end.

(** [s.split(sep)[1]]; [None] stands for the [IndexError]. *)
Definition part1 (sep s : string) : option string :=
  match split_at sep s with
  | Some (_, a) => Some (part0 sep a)
  | None => None
  end.

(** [text[m.start():]] for the first opening brace, when there is one. *)
Fixpoint from_first_open (s : string) : option string :=
  match s with
  | EmptyString => None
  | String c r => if Ascii.eqb c "{" then Some s else from_first_open r
  end.

(** Some closing brace stands before the next line feed. *)
Fixpoint close_on_line (s : string) : bool :=
  match s with
  | EmptyString => false
  | String c r =>
      if Ascii.eqb c (ascii_of_nat 10) then false
      else Ascii.eqb c "}" || close_on_line r
  end.

(** [text[:m.end()]] for the leftmost match of [\}(?!.*\})]: the first
    closing brace that has no other one after it on its line. *)
Fixpoint upto_close (s : string) : option string :=
  match s with
  | EmptyString => None
  | String c r =>
      if Ascii.eqb c "}" && negb (close_on_line r) then Some "}"
      else match upto_close r with
           | Some t => Some (String c t)
           | None => None
           end
  end.

End Cut.

Definition fence_json : string := "```json".
Definition fence : string := "```".

Definition bronze_silver_gold : list string := ["bronze"; "silver"; "gold"].

(** The patterns of [_detect_intent], in the order of the source. *)
Definition question_patterns : list Re.re :=
  let sp := Re.Cls Re.CSpace in
  let any := Re.Star Re.CAny in
  [ Re.cat [Re.Bol; Re.Lit "what"; sp];                       (* ^what\s *)
    Re.cat [Re.Bol; Re.Lit "which"; sp];                      (* ^which\s *)
    Re.cat [Re.Bol; Re.Lit "how"; sp];                        (* ^how\s *)
    Re.cat [Re.Bol; Re.Lit "can you ";
            Re.alt ["tell"; "show"; "list"; "explain"]];
                                     (* ^can you (tell|show|list|explain) *)
    Re.cat [Re.Bol; Re.Lit "tell me"];                        (* ^tell me *)
    Re.cat [Re.Bol; Re.Lit "show me"];                        (* ^show me *)
    Re.cat [Re.Bol; Re.Lit "list"; sp];                       (* ^list\s *)
    Re.cat [Re.Bol; Re.Lit "do"; Re.Opt (Re.Lit "es"); sp; any; Re.Lit "?"];
                                                              (* ^do(es)?\s.*\? *)
    Re.cat [Re.Bol; Re.Lit "is"; sp; any; Re.Lit "?"];        (* ^is\s.*\? *)
    Re.cat [Re.Bol; Re.Lit "are"; sp; any; Re.Lit "?"];       (* ^are\s.*\? *)
    Re.cat [Re.Lit "?"; Re.Eol];                              (* \?$ *)
    Re.cat [Re.Lit "what "; Re.alt ["are"; "is"]; Re.Lit " ";
            Re.alt ["the"; "in"]];                (* what (are|is) (the|in) *)
    Re.Lit "how many";
    Re.Lit "tell me about";
    Re.Lit "explain";
    Re.Lit "describe" ].

Definition transform_patterns : list Re.re :=
  let sp := Re.Cls Re.CSpace in
  let any := Re.Star Re.CAny in
  [ Re.cat [Re.Lit "clean"; sp];                              (* clean\s *)
    Re.cat [Re.Lit "transform"; sp];                          (* transform\s *)
    Re.cat [Re.Lit "convert"; sp];                            (* convert\s *)
    Re.cat [Re.Lit "create"; sp];                             (* create\s *)
    Re.cat [Re.Lit "remove"; sp; any;
            Re.alt ["null"; "duplicate"; "dupe"]];
                                        (* remove\s.*(null|duplicate|dupe) *)
    Re.Lit "dedupe";
    Re.Lit "deduplicate";
    Re.Lit "standardize";
    Re.Lit "normalize";
    Re.Lit "aggregate";
    Re.cat [Re.Lit "save "; Re.alt ["to"; "into"]];           (* save (to|into) *)
    Re.cat [Re.Lit "move "; Re.alt ["to"; "into"]];           (* move (to|into) *)
    Re.cat [Re.Lit "filter"; sp];                             (* filter\s *)
    Re.cat [Re.alt ["remove"; "drop"; "delete"]; sp; any; Re.Lit "rows"];
                                              (* (remove|drop|delete)\s.*rows *)
    Re.cat [Re.alt ["add"; "create"]; sp; any; Re.Lit "column"];
                                                   (* (add|create)\s.*column *)
    Re.cat [Re.Lit "rename"; sp];                             (* rename\s *)
    Re.cat [Re.Lit "cast"; sp];                               (* cast\s *)
    Re.cat [Re.Lit "join"; sp];                               (* join\s *)
    Re.cat [Re.Lit "merge"; sp] ].                            (* merge\s *)

Definition action_words : list string :=
  ["clean"; "fix"; "update"; "change"; "modify"; "process"].

(** [any(re.search(p, s) for p in patterns)], which is what the loop
    over the patterns with its early return computes. *)
Definition matches_any (patterns : list Re.re) (s : string) : bool :=
  existsb (fun p => Re.search p s) patterns.

(** The two tests of [_identify_table] on one table of a listing. *)
Definition clean_name (table : string) : string :=
  Str.replace "stg_" Str.emp (Str.replace "raw_" Str.emp (Str.lower table)).

Definition table_matches (request_lower table : string) : bool :=
  Str.contains (Str.lower table) request_lower
  || (Str.contains (clean_name table) request_lower
      && (2 <? String.length (clean_name table))%nat).

(** The inner loop of [_identify_table]: the first table that matches. *)
Fixpoint scan_tables (request_lower : string) (tables : list string)
  : option string :=
  match tables with
  | [] => None
  | t :: rest =>
      if table_matches request_lower t then Some t
      else scan_tables request_lower rest
  end.

(** [if table:] on a [(table, schema)] result: the pair when the table
    name is a non-empty text. *)
Definition named (r : option (string * string)) : option (string * string) :=
  match r with
  | Some (t, s) => if String.eqb t EmptyString then None else Some (t, s)
  | None => None
  end.

(** [_determine_target_layer] *)
Definition _determine_target_layer (user_request source_schema : string)
  : string :=
  let request_lower := Str.lower user_request in
  if Str.contains "gold" request_lower then "gold"
  else if Str.contains "silver" request_lower then "silver"
  else if Str.any_in ["aggregate"; "summary"; "report"; "metrics"] request_lower
  then "gold"
  else if String.eqb source_schema "bronze" then "silver"
  else if String.eqb source_schema "silver" then "gold"
  else "silver".

Section TransformAgent.

Context {W : Type} (svc : Services W).

(** *** Service calls *)

Definition db_list_tables (schema : string) : M W (list string) :=
  service (CallListTables schema) (list_tables svc schema).

(** [DatabricksService.table_exists] *)
Definition db_table_exists (table schema : string) : M W bool :=
  tables <- db_list_tables schema ;;
  ret (Str.mem table tables).

Definition db_get_table_schema (table schema : string) : M W TableSchema :=
  service (CallGetTableSchema table schema) (get_table_schema svc table schema).

Definition db_get_sample_data (table schema : string) (limit : nat)
  : M W QueryResult :=
  service (CallGetSampleData table schema limit)
          (get_sample_data svc table schema limit).

Definition db_execute_command (sql : pyval) : M W unit :=
  service (CallExecuteCommand sql) (execute_command svc sql).

Definition db_execute_query (sql : string) : M W QueryResult :=
  service (CallExecuteQuery sql) (execute_query svc sql).

Definition llm_call_claude (prompt : string) : M W string :=
  service (CallClaude prompt) (call_claude svc prompt).

(** *** [LLMService] *)

(** [LLMService._parse_json_response] *)
Definition _parse_json_response (response : string) : result pyval :=
  let text := Str.strip response in
  let fenced (sep : string) (t : string) : result string :=
    match Cut.part1 sep t with
    | Some x => Ok (Cut.part0 fence x)
    | None => Raise "list index out of range"
    end in
  let unfenced :=
    if Str.contains fence_json text then fenced fence_json text
    else if Str.contains fence text then fenced fence text
    else Ok text in
  match unfenced with
  | Raise e => Raise e
  | Ok text =>
      let text := Str.strip text in
      let text :=
        if Str.startswith "{" text then text
        else match Cut.from_first_open text with
             | Some t => t
             | None => text
             end in
      let text :=
        if Str.endswith_char "}" text then text
        else match Cut.upto_close text with
             | Some t => t
             | None => text
             end in
      match json_loads svc text with
      | Decoded data => Ok data
      | JSONDecodeError e =>
          Raise ("Failed to parse JSON response: " ++ e ++ Str.nl
                 ++ "Response was: " ++ Str.take 500 response)
      | DecoderRaised e => Raise e
      end
  end.

Definition rbind {A B} (r : result A) (f : A -> result B) : result B :=
  match r with
  | Ok x => f x
  | Raise e => Raise e
  end.

(** The part of [generate_transform_sql] after the reply is decoded. *)
Definition plan_of_data (data : pyval) : result TransformPlan :=
  rbind (Py.has_key "estimated_impact" data) (fun has =>
  rbind (if has
         then rbind (Py.getitem "estimated_impact" data) (fun impact =>
              rbind (Py.get "estimated_rows_after" PNone impact) (fun er =>
              rbind (Py.get "columns_modified" PNone impact) (fun cm =>
              Ok (er, cm))))
         else Ok (PNone, PNone)) (fun est =>
  rbind (Py.getitem "target_table" data) (fun tt =>
  rbind (Py.getitem "sql" data) (fun q =>
  rbind (Py.get "transformations_applied" (PList []) data) (fun ta =>
  rbind (Py.get "explanation" (PStr EmptyString) data) (fun ex =>
  Ok {| target_table := tt; sql := q; transformations_applied := ta;
        explanation := ex; estimated_rows_after := fst est;
        columns_modified := snd est |})))))).

(** [LLMService.generate_transform_sql] *)
Definition generate_transform_sql
    (user_request : string) (table_schema : TableSchema)
    (sample_data : QueryResult) (target_schema catalog : string)
  : M W TransformPlan :=
  let prompt :=
    build_transform_prompt svc user_request table_schema sample_data
                           target_schema catalog in
  response <- llm_call_claude prompt ;;
  data <- lift (_parse_json_response response) ;;
  lift (plan_of_data data).

(** *** Table resolution *)

Fixpoint identify_in (schemas : list string) (request_lower : string)
  : M W (option (string * string)) :=
  match schemas with
  | [] => ret None
  | schema :: rest =>
      r <- attempt (db_list_tables schema) ;;
      match r with
      | Ok tables =>
          match scan_tables request_lower tables with
          | Some t => ret (Some (t, schema))
          | None => identify_in rest request_lower
          end
      | Raise _ => identify_in rest request_lower
      end
  end.

(** [TransformAgent._identify_table]; [None] is [(None, None)]. *)
Definition _identify_table (user_request : string)
  : M W (option (string * string)) :=
  let request_lower := Str.lower user_request in
  found <- identify_in bronze_silver_gold request_lower ;;
  match found with
  | Some r => ret (Some r)
  | None =>
      match Re.search_dotted user_request with
      | Some (schema, table) =>
          ex <- db_table_exists table schema ;;
          if ex then ret (Some (table, schema)) else ret None
      | None => ret None
      end
  end.

(** [TransformAgent._detect_intent] *)
Definition _detect_intent (message : string) : M W UserIntent :=
  let message_lower := Str.lower message in
  if matches_any question_patterns message_lower then ret QUESTION
  else if matches_any transform_patterns message_lower then ret TRANSFORM
  else
    found <- _identify_table message ;;
    let rest : M W UserIntent :=
      if (Str.count_words message <? 5)%nat then ret UNCLEAR else ret UNCLEAR in
    match named found with
    | Some _ =>
        if Str.any_in action_words message_lower then ret TRANSFORM else rest
    | None => rest
    end.

(** *** Texts *)

Definition bullet : string := "  • ".

(** [TransformAgent._show_help] *)
Definition _show_help : string :=
"## 🤖 Data Transform Agent - Help

### Ask Questions
  • " ++ Str.dq ++ "What columns are in raw_customers?" ++ Str.dq ++ "
  • " ++ Str.dq ++ "How many rows are in the customers table?" ++ Str.dq ++ "
  • " ++ Str.dq ++ "Show me a preview of the data" ++ Str.dq ++ "
  • " ++ Str.dq ++ "What tables are available?" ++ Str.dq ++ "

### Transform Data
  • " ++ Str.dq ++ "Clean raw_customers, remove nulls, dedupe by contact_id" ++ Str.dq ++ "
  • " ++ Str.dq ++ "Standardize emails to lowercase" ++ Str.dq ++ "
  • " ++ Str.dq ++ "Aggregate sales by region, save to gold" ++ Str.dq ++ "

### Commands
  • `show tables` - List all available tables
  • `describe <table>` - Show table schema and sample data
  • `status` - Show agent status
  • `help` - Show this message

### During Confirmation
  • `confirm` / `yes` - Execute the transform
  • `cancel` / `no` - Cancel and start over
  • `show sql` - View the generated SQL
".

(** [TransformAgent._handle_generic_question]: the text does not
    depend on the question. *)
Definition _handle_generic_question (question : string) : string :=
"I'm not sure how to answer that question. Here's what I can help with:

**Questions I can answer:**
  • " ++ Str.dq ++ "What columns are in raw_customers?" ++ Str.dq ++ "
  • " ++ Str.dq ++ "How many rows are in bronze.raw_customers?" ++ Str.dq ++ "
  • " ++ Str.dq ++ "Show me a preview of the customers table" ++ Str.dq ++ "
  • " ++ Str.dq ++ "What tables are available?" ++ Str.dq ++ "

**Transformations I can do:**
  • " ++ Str.dq ++ "Clean raw_customers, remove nulls, dedupe by contact_id" ++ Str.dq ++ "
  • " ++ Str.dq ++ "Standardize emails to lowercase" ++ Str.dq ++ "

**Commands:**
  • `show tables` - List all tables
  • `describe <table>` - See table details
  • `help` - Full help guide
".

(** [TransformAgent._handle_confirmation_unclear]: the text does not
    depend on the message. *)
Definition _handle_confirmation_unclear (user_message : string) : string :=
"I have a transform ready to execute. Please respond with:

  • `confirm` or `yes` - Execute the transform
  • `cancel` or `no` - Cancel and start over
  • `show sql` - View the SQL again
".

Definition cancelled_text : string :=
  "🚫 Transform cancelled. Ready for a new request.".

Definition no_pending_to_execute : string :=
  "❌ No pending transform to execute.".

Definition execution_failed (e : string) : string :=
"❌ **Execution failed:**

```
" ++ e ++ "
```

Please check the SQL and try again.".

Definition error_processing (e : string) : string :=
"❌ **Error processing request:**

" ++ e ++ "

Please try rephrasing or use `help` to see available commands.".

(** [v.split('.')[-1]] on a plan field: a text has the method, any
    other value raises [AttributeError]. *)
Definition split_last (v : pyval) : result string :=
  match v with
  | PStr s => Ok (Str.last_part "." s)
  | _ => Raise ("'" ++ Py.type_name v ++ "' object has no attribute 'split'")
  end.

(** [TransformAgent._format_success_message] *)
Definition _format_success_message (target_table row_count : pyval)
  : result string :=
  rbind (Py.format_comma row_count) (fun rows_text =>
  rbind (split_last target_table) (fun short =>
  Ok ("## ✅ Transform Complete!

**Created:** `" ++ Py.str target_table ++ "`
**Rows:** " ++ rows_text ++ "

You can now:
- Query the new table in Databricks
- Use it as a source for further transformations
- Ask me to create another transform

**Example:** " ++ Str.dq ++ "What columns are in " ++ short ++ "?" ++ Str.dq ++ "
"))).

(** [{n:,}] for an [Optional[int]] attribute. *)
Definition format_row_count (n : option Z) : result string :=
  match n with
  | Some z => Ok (Str.commas z)
  | None => Raise "unsupported format string passed to NoneType.__format__"
  end.

(** [sep.join(lines)] when one of the lines is a plan field: a value
    that is no text raises [TypeError]. *)
Definition as_line (index : nat) (v : pyval) : result string :=
  match v with
  | PStr s => Ok s
  | _ => Raise ("sequence item " ++ Str.of_Z (Z.of_nat index)
                ++ ": expected str instance, " ++ Py.type_name v ++ " found")
  end.

(** [TransformAgent._format_plan_for_confirmation] *)
Definition _format_plan_for_confirmation
    (plan : TransformPlan) (source_schema : TableSchema) : result string :=
  rbind (format_row_count (row_count source_schema)) (fun src_rows =>
  let head :=
    [ "## 📋 Transform Plan" ++ Str.nl;
      "**Source:** `" ++ full_name source_schema ++ "` (" ++ src_rows
        ++ " rows)" ++ Str.nl;
      "**Target:** `" ++ Py.str (target_table plan) ++ "`" ++ Str.nl;
      "### Transformations:" ] in
  rbind (Py.iterate (transformations_applied plan)) (fun ts =>
  let steps := map (fun t => bullet ++ Py.str t) ts in
  let expl :=
    [ Str.nl ++ "**Explanation:** " ++ Py.str (explanation plan) ++ Str.nl ] in
  rbind (if Py.truthy (estimated_rows_after plan)
         then rbind (Py.format_comma (estimated_rows_after plan)) (fun n =>
              Ok [ "**Estimated Output:** ~" ++ n ++ " rows" ++ Str.nl ])
         else Ok []) (fun est =>
  let before_sql :=
    head +++ steps +++ expl +++ est +++ ["### Generated SQL:"; "```sql"] in
  rbind (as_line (List.length before_sql) (sql plan)) (fun sql_text =>
  Ok (Str.join Str.nl
        (before_sql +++ [sql_text] +++
         [ fence ++ Str.nl;
           "---";
           "**Commands:**";
           "  • `confirm` - Execute this transform";
           "  • `cancel` - Abort and start over";
           "  • `show sql` - Show SQL again" ])))))).

(** [TransformAgent._show_pending_sql] *)
Definition _show_pending_sql : M W string :=
  a <- get ;;
  match pending_transform a with
  | None => ret "No pending transform."
  | Some pt =>
      ret ("## Generated SQL
```sql
" ++ Py.str (sql (plan pt)) ++ "
```

**Commands:** `confirm` to execute, `cancel` to abort.
")
  end.

(** [TransformAgent._cancel_pending_transform] *)
Definition _cancel_pending_transform : M W string :=
  set_pending_transform None ;;;
  set_state IDLE ;;;
  ret cancelled_text.

(** [result.rows[0][0] if result.rows else 0] *)
Definition first_cell (r : QueryResult) : result pyval :=
  match rows r with
  | [] => Ok (PInt 0)
  | row :: _ =>
      match row with
      | [] => Raise "tuple index out of range"
      | v :: _ => Ok v
      end
  end.

(** [TransformAgent._execute_pending_transform] *)
Definition _execute_pending_transform : M W string :=
  a <- get ;;
  match pending_transform a with
  | None =>
      set_state IDLE ;;;
      ret no_pending_to_execute
  | Some pt =>
      set_state EXECUTING ;;;
      let plan := plan pt in
      try_except
        (db_execute_command (sql plan) ;;;
         result <- db_execute_query
                     ("SELECT COUNT(*) FROM " ++ Py.str (target_table plan)) ;;
         row_count <- lift (first_cell result) ;;
         set_last_result
           (Some {| success := true;
                    tr_target_table := target_table plan;
                    rows_created := row_count;
                    message := "Transform executed successfully";
                    sql_executed := sql plan |}) ;;;
         set_pending_transform None ;;;
         set_state IDLE ;;;
         lift (_format_success_message (target_table plan) row_count))
        (fun e =>
           set_state IDLE ;;;
           set_pending_transform None ;;;
           ret (execution_failed e))
  end.

(** *** Listings and descriptions *)

(** [str(v)[:n] if v is not None else "NULL"] *)
Definition cell_text (n : nat) (v : pyval) : string :=
  match v with
  | PNone => "NULL"
  | _ => Str.take n (Py.str v)
  end.

Definition row_text (n : nat) (row : list pyval) : string :=
  Str.join " | " (map (cell_text n) row).

Definition column_names (ts : TableSchema) : string :=
  Str.join " | " (map col_name (columns ts)).

(** [TransformAgent._describe_table_columns] *)
Definition _describe_table_columns (table schema : string) : M W string :=
  try_except
    (ts <- db_get_table_schema table schema ;;
     let head :=
       [ "## 📋 Columns in `" ++ schema ++ "." ++ table ++ "`" ++ Str.nl;
         "**Total Columns:** " ++ Str.of_Z (Z.of_nat (List.length (columns ts)))
           ++ Str.nl ] in
     let cols :=
       map (fun col =>
              "  • **" ++ col_name col ++ "** (`" ++ data_type col ++ "`) - "
              ++ (if nullable col then "nullable" else "not null"))
           (columns ts) in
     n <- lift (format_row_count (row_count ts)) ;;
     ret (Str.join Str.nl
            (head +++ cols +++
             [ Str.nl ++ "**Rows in table:** " ++ n;
               Str.nl ++ "*Tip: Say `describe " ++ schema ++ "." ++ table
               ++ "` to see sample data too.*" ])))
    (fun e => ret ("❌ Error getting columns: " ++ e)).

(** [TransformAgent._show_table_preview] *)
Definition _show_table_preview (table schema : string) : M W string :=
  try_except
    (ts <- db_get_table_schema table schema ;;
     sample <- db_get_sample_data table schema 5 ;;
     n <- lift (format_row_count (row_count ts)) ;;
     ret (Str.join Str.nl
            ([ "## 📊 Preview: `" ++ schema ++ "." ++ table ++ "`" ++ Str.nl;
               "**Total Rows:** " ++ n ++ Str.nl;
               "### Sample Data (5 rows):";
               fence;
               column_names ts;
               Str.repeat_char "-" 70 ]
             +++ map (row_text 15) (rows sample)
             +++ [ fence ])))
    (fun e => ret ("❌ Error previewing table: " ++ e)).

(** The loop over the three schemas that collects the tables of those
    whose listing does not raise. *)
Fixpoint collect_tables (fmt : string -> string -> string)
         (schemas : list string) : M W (list string) :=
  match schemas with
  | [] => ret []
  | schema :: rest =>
      r <- attempt (db_list_tables schema) ;;
      more <- collect_tables fmt rest ;;
      match r with
      | Ok tables => ret (map (fmt schema) tables +++ more)
      | Raise _ => ret more
      end
  end.

(** [TransformAgent._ask_which_table] *)
Definition _ask_which_table (action : string) : M W string :=
  tables <- collect_tables (fun schema t => "`" ++ schema ++ "." ++ t ++ "`")
                           bronze_silver_gold ;;
  let tables_str :=
    match tables with
    | [] => "No tables found"
    | _ => Str.join ", " tables
    end in
  ret ("Which table would you like to " ++ action ++ "?

**Available tables:** " ++ tables_str ++ "

**Example:** " ++ Str.dq ++ "What columns are in raw_customers?" ++ Str.dq ++ "
").

(** [TransformAgent._ask_for_table_clarification] *)
Definition _ask_for_table_clarification (user_request : string) : M W string :=
  available <- collect_tables (fun schema t => schema ++ "." ++ t)
                              bronze_silver_gold ;;
  match available with
  | [] => ret "❌ No tables found. Please create some tables first."
  | _ =>
      let tables_list :=
        Str.join Str.nl (map (fun t => "  • `" ++ t ++ "`") available) in
      ret ("I couldn't identify which table you want to transform.

**Available tables:**
" ++ tables_list ++ "

**Please try again with the table name, for example:**
  • " ++ Str.dq ++ "Clean bronze.raw_customers and remove nulls" ++ Str.dq ++ "
  • " ++ Str.dq ++ "Transform raw_customers to silver" ++ Str.dq ++ "
")
  end.

(** The inner loop of [_list_tables]: one line per table, with its row
    count when the schema can be read and formatted. *)
Fixpoint list_rows (schema : string) (tables : list string)
  : M W (list string) :=
  match tables with
  | [] => ret []
  | table :: rest =>
      line <- try_except
                (ts <- db_get_table_schema table schema ;;
                 n <- lift (format_row_count (row_count ts)) ;;
                 ret ("  • `" ++ schema ++ "." ++ table ++ "` (" ++ n ++ " rows)"))
                (fun _ => ret ("  • `" ++ schema ++ "." ++ table ++ "`")) ;;
      more <- list_rows schema rest ;;
      ret (line :: more)
  end.

Fixpoint list_schemas (schemas : list string) : M W (list string) :=
  match schemas with
  | [] => ret []
  | schema :: rest =>
      r <- attempt (db_list_tables schema) ;;
      here <- match r with
              | Ok [] => ret []
              | Ok tables =>
                  ls <- list_rows schema tables ;;
                  ret ((("### " ++ Str.upper schema) :: ls) +++ [Str.emp])
              | Raise _ => ret []
              end ;;
      more <- list_schemas rest ;;
      ret (here +++ more)
  end.

(** [TransformAgent._list_tables] *)
Definition _list_tables : M W string :=
  ls <- list_schemas bronze_silver_gold ;;
  ret (Str.join Str.nl (("## 📋 Available Tables" ++ Str.nl) :: ls)).

(** The probe of [_describe_table] for a bare table name. *)
Fixpoint probe_schema (schemas : list string) (table : string)
  : M W (option string) :=
  match schemas with
  | [] => ret None
  | s :: rest =>
      ex <- db_table_exists table s ;;
      if ex then ret (Some s) else probe_schema rest table
  end.

Definition describe_known (table schema : string) : M W string :=
  try_except
    (set_last_mentioned_table (table, schema) ;;;
     ts <- db_get_table_schema table schema ;;
     sample <- db_get_sample_data table schema 3 ;;
     n <- lift (format_row_count (row_count ts)) ;;
     ret (Str.join Str.nl
            ([ "## 📊 " ++ full_name ts ++ Str.nl;
               "**Rows:** " ++ n ++ Str.nl;
               "### Columns:" ]
             +++ map (fun col => "  • `" ++ col_name col ++ "`: " ++ data_type col)
                     (columns ts)
             +++ [ Str.nl ++ "### Sample Data (3 rows):";
                   fence;
                   column_names ts;
                   Str.repeat_char "-" 60 ]
             +++ map (row_text 20) (rows sample)
             +++ [ fence ])))
    (fun e => ret ("❌ Error describing table: " ++ e)).

(** [TransformAgent._describe_table] *)
Definition _describe_table (table_ref : string) : M W string :=
  match Str.split_char "." (Str.replace "`" Str.emp table_ref) with
  | [schema; table] => describe_known table schema
  | [table] =>
      found <- probe_schema bronze_silver_gold table ;;
      match found with
      | Some schema => describe_known table schema
      | None =>
          ret ("❌ Table `" ++ table
               ++ "` not found in bronze, silver, or gold schemas.")
      end
  | _ => ret ("❌ Invalid table reference: `" ++ table_ref ++ "`")
  end.

(** [TransformAgent._show_status] *)
Definition _show_status : M W string :=
  a <- get ;;
  let head :=
    [ "## 🔄 Agent Status" ++ Str.nl;
      "**State:** " ++ state_value (state a);
      "**Connected to:** " ++ settings_host svc;
      "**Catalog:** " ++ settings_catalog svc ] in
  let pend :=
    match pending_transform a with
    | Some pt =>
        [ Str.nl ++ "**Pending Transform:**";
          "  • Source: " ++ source_table pt;
          "  • Target: " ++ Py.str (target_table (plan pt)) ]
    | None => []
    end in
  last <- match last_result a with
          | Some r =>
              n <- lift (Py.format_comma (rows_created r)) ;;
              ret [ Str.nl ++ "**Last Result:**";
                    "  • " ++ (if success r then "✅ Success" else "❌ Failed");
                    "  • Table: " ++ Py.str (tr_target_table r);
                    "  • Rows: " ++ n ]
          | None => ret []
          end ;;
  ret (Str.join Str.nl (head +++ pend +++ last)).

(** *** Requests *)

(** [if not table and self.last_mentioned_table: if any(...): table,
    schema = self.last_mentioned_table]: an earlier table stands in
    when the message names none and refers back to one. *)
Definition or_last_mentioned (found last : option (string * string))
           (refers_back : bool) : option (string * string) :=
  match named found, last with
  | None, Some lm => if refers_back then Some lm else found
  | _, _ => found
  end.

(** [TransformAgent._handle_unclear_intent] *)
Definition _handle_unclear_intent (message : string) : M W string :=
  found <- _identify_table message ;;
  match named found with
  | Some (table, schema) =>
      set_last_mentioned_table (table, schema) ;;;
      ret ("I found table `" ++ schema ++ "." ++ table ++ "` in your message. What would you like to do?

**Options:**
  • " ++ Str.dq ++ "Show me the columns" ++ Str.dq ++ " - See table structure
  • " ++ Str.dq ++ "Preview the data" ++ Str.dq ++ " - See sample rows
  • " ++ Str.dq ++ "Clean it and remove nulls" ++ Str.dq ++ " - Start a transformation

Or be more specific about what you'd like to know or do!
")
  | None => ret (_handle_generic_question message)
  end.

(** [TransformAgent._handle_transform_request] *)
Definition _handle_transform_request (user_request : string) : M W string :=
  try_except
    (found <- _identify_table user_request ;;
     a <- get ;;
     let source :=
       or_last_mentioned found (last_mentioned_table a)
         (Str.any_in ["this table"; "that table"; "the table"; "it "]
                     (Str.lower user_request)) in
     match named source with
     | None => _ask_for_table_clarification user_request
     | Some (source_table, source_schema_name) =>
         set_last_mentioned_table (source_table, source_schema_name) ;;;
         table_schema <- db_get_table_schema source_table source_schema_name ;;
         sample_data <- db_get_sample_data source_table source_schema_name 5 ;;
         let target_schema :=
           _determine_target_layer user_request source_schema_name in
         plan <- generate_transform_sql user_request table_schema
                   sample_data target_schema (settings_catalog svc) ;;
         set_pending_transform
           (Some {| plan := plan;
                    source_table := source_schema_name ++ "." ++ source_table;
                    source_schema := table_schema;
                    user_request := user_request |}) ;;;
         set_state AWAITING_CONFIRMATION ;;;
         lift (_format_plan_for_confirmation plan table_schema)
     end)
    (fun e => ret (error_processing e)).

(** [TransformAgent._handle_question] *)
Definition _handle_question (question : string) : M W string :=
  let question_lower := Str.lower question in
  found <- _identify_table question ;;
  a <- get ;;
  let tbl :=
    or_last_mentioned found (last_mentioned_table a)
      (Str.any_in ["this table"; "that table"; "the table"; "it"]
                  question_lower) in
  if Str.any_in ["column"; "columns"; "field"; "fields"; "schema";
                 "what are the"; "what is in"; "structure"] question_lower
  then
    match named tbl with
    | Some (table, schema) =>
        set_last_mentioned_table (table, schema) ;;;
        _describe_table_columns table schema
    | None => _ask_which_table "see the columns of"
    end
  else if Str.any_in ["how many rows"; "row count"; "how much data"; "sample";
                      "show me data"; "what does"; "look like"; "preview"]
                     question_lower
  then
    match named tbl with
    | Some (table, schema) =>
        set_last_mentioned_table (table, schema) ;;;
        _show_table_preview table schema
    | None => _ask_which_table "preview"
    end
  else if Str.any_in ["what tables"; "which tables"; "available tables";
                      "list tables"; "show tables"; "tables do"]
                     question_lower
  then _list_tables
  else
    match named tbl with
    | Some (table, schema) =>
        set_last_mentioned_table (table, schema) ;;;
        _describe_table (schema ++ "." ++ table)
    | None =>
        if Str.any_in ["what can you"; "how do i"; "how to"; "help me"]
                      question_lower
        then ret _show_help
        else ret (_handle_generic_question question)
    end.

Definition confirm_words : list string := ["confirm"; "yes"; "y"; "execute"; "run"].
Definition cancel_words : list string := ["cancel"; "no"; "n"; "abort"].
Definition show_sql_words : list string := ["show sql"; "sql"].
Definition help_words : list string := ["help"; "?"].
Definition tables_words : list string := ["show tables"; "list tables"; "tables"].
Definition status_words : list string := ["status"; "state"].

(** [TransformAgent.chat] *)
Definition chat (user_message : string) : M W string :=
  let message := Str.strip user_message in
  let message_lower := Str.lower message in
  a <- get ;;
  if AgentState_eqb (state a) AWAITING_CONFIRMATION then
    if Str.mem message_lower confirm_words then _execute_pending_transform
    else if Str.mem message_lower cancel_words then _cancel_pending_transform
    else if Str.mem message_lower show_sql_words then _show_pending_sql
    else ret (_handle_confirmation_unclear user_message)
  else if Str.mem message_lower help_words then ret _show_help
  else if Str.mem message_lower tables_words then _list_tables
  else if Str.startswith "describe " message_lower
          || Str.startswith "desc " message_lower
  then
    match Str.after_first_space message with
    | Some rest => _describe_table (Str.strip rest)
    | None => raise "list index out of range"
    end
  else if Str.mem message_lower status_words then _show_status
  else
    intent <- _detect_intent message ;;
    match intent with
    | QUESTION => _handle_question message
    | TRANSFORM => _handle_transform_request message
    | _ => _handle_unclear_intent message
    end.

(** The agent after a turn, and after a whole conversation: an
    exception that leaves [chat] is caught by the caller, and the
    agent stays as the turn left it. *)
Definition after (user_message : string) (a : Agent W) : Agent W :=
  snd (chat user_message a).

Definition response (user_message : string) (a : Agent W) : result string :=
  fst (chat user_message a).

Fixpoint run (messages : list string) (a : Agent W) : Agent W :=
  match messages with
  | [] => a
  | m :: rest => run rest (after m a)
  end.

(** The calls that a turn made, oldest first. *)
Definition calls_during (a a' : Agent W) : list Call :=
  rev (firstn (List.length (calls a') - List.length (calls a)) (calls a')).

End TransformAgent.

(** ** A decoder and a warehouse to run the agent on

    [Json.loads] decodes the JSON texts without floating point numbers
    and without [\u] escapes, which is enough to feed the agent replies
    of the shape the prompt asks for; [Sim] is an in-memory warehouse
    with a scripted model reply. *)

Module Json.

Fixpoint skip_ws (s : string) : string :=
  match s with
  | String c r =>
      if Ascii.eqb c " " || (nat_of_ascii c =? 10)%nat
         || (nat_of_ascii c =? 13)%nat || (nat_of_ascii c =? 9)%nat
      then skip_ws r else s
  | EmptyString => s
  end.

Definition unescape (c : ascii) : option ascii :=
  if Ascii.eqb c (ascii_of_nat 34) then Some c
  else if Ascii.eqb c "\" then Some c
  else if Ascii.eqb c "/" then Some c
  else if Ascii.eqb c "n" then Some (ascii_of_nat 10)
  else if Ascii.eqb c "r" then Some (ascii_of_nat 13)
  else if Ascii.eqb c "t" then Some (ascii_of_nat 9)
  else if Ascii.eqb c "b" then Some (ascii_of_nat 8)
  else if Ascii.eqb c "f" then Some (ascii_of_nat 12)
  else None.

(** The text up to the closing quote, and what follows it. *)
Fixpoint text_body (s : string) : option (string * string) :=
  match s with
  | EmptyString => None
  | String c r =>
      if Ascii.eqb c (ascii_of_nat 34) then Some (EmptyString, r)
      else if Ascii.eqb c "\" then
        match r with
        | String e r' =>
            match unescape e, text_body r' with
            | Some x, Some (t, rest) => Some (String x t, rest)
            | _, _ => None
            end
        | EmptyString => None
        end
      else if (nat_of_ascii c <? 32)%nat then None
      else match text_body r with
           | Some (t, rest) => Some (String c t, rest)
           | None => None
           end
  end.

Fixpoint digits (acc : Z) (s : string) : Z * string :=
  match s with
  | String c r =>
      if Str.is_digit c
      then digits (10 * acc + Z.of_nat (nat_of_ascii c - 48))%Z r
      else (acc, s)
  | EmptyString => (acc, s)
  end.

Definition starts_digit (s : string) : bool :=
  match s with
  | String c _ => Str.is_digit c
  | EmptyString => false
  end.

Definition is_fraction (s : string) : bool :=
  match s with
  | String c _ => Ascii.eqb c "." || Ascii.eqb c "e" || Ascii.eqb c "E"
  | EmptyString => false
  end.

Definition number (sign : Z) (s : string) : option (pyval * string) :=
  if starts_digit s then
    let '(n, rest) := digits 0 s in
    if is_fraction rest then None else Some (PInt (sign * n), rest)
  else None.

(** A later value for a key replaces the earlier one, in its place. *)
Fixpoint dict_set (k : string) (v : pyval) (d : list (string * pyval))
  : list (string * pyval) :=
  match d with
  | [] => [(k, v)]
  | (k', x) :: r =>
      if String.eqb k k' then (k, v) :: r else (k', x) :: dict_set k v r
  end.

Definition expect (c : ascii) (s : string) : option string :=
  match s with
  | String c' r => if Ascii.eqb c c' then Some r else None
  | EmptyString => None
  end.

Fixpoint value (fuel : nat) (s : string) : option (pyval * string) :=
  match fuel with
  | O => None
  | S f =>
      match s with
      | EmptyString => None
      | String c r =>
          if Ascii.eqb c "{" then
            match expect "}" (skip_ws r) with
            | Some rest => Some (PDict [], rest)
            | None => members f [] (skip_ws r)
            end
          else if Ascii.eqb c "[" then
            match expect "]" (skip_ws r) with
            | Some rest => Some (PList [], rest)
            | None => elements f [] (skip_ws r)
            end
          else if Ascii.eqb c (ascii_of_nat 34) then
            match text_body r with
            | Some (t, rest) => Some (PStr t, rest)
            | None => None
            end
          else if Ascii.eqb c "-" then number (-1) r
          else if Str.is_digit c then number 1 s
          else
            match Re.drop_prefix "true" s, Re.drop_prefix "false" s,
                  Re.drop_prefix "null" s with
            | Some rest, _, _ => Some (PBool true, rest)
            | _, Some rest, _ => Some (PBool false, rest)
            | _, _, Some rest => Some (PNone, rest)
            | _, _, _ => None
            end
      end
  end
with elements (fuel : nat) (acc : list pyval) (s : string)
  : option (pyval * string) :=
  match fuel with
  | O => None
  | S f =>
      match value f s with
      | Some (v, rest) =>
          let rest := skip_ws rest in
          match expect "]" rest, expect "," rest with
          | Some after, _ => Some (PList (rev (v :: acc)), after)
          | None, Some after => elements f (v :: acc) (skip_ws after)
          | None, None => None
          end
      | None => None
      end
  end
with members (fuel : nat) (acc : list (string * pyval)) (s : string)
  : option (pyval * string) :=
  match fuel with
  | O => None
  | S f =>
      match expect (ascii_of_nat 34) s with
      | Some r =>
          match text_body r with
          | Some (k, rest) =>
              match expect ":" (skip_ws rest) with
              | Some rest =>
                  match value f (skip_ws rest) with
                  | Some (v, rest) =>
                      let rest := skip_ws rest in
                      let acc := dict_set k v acc in
                      match expect "}" rest, expect "," rest with
                      | Some after, _ => Some (PDict acc, after)
                      | None, Some after => members f acc (skip_ws after)
                      | None, None => None
                      end
                  | None => None
                  end
              | None => None
              end
          | None => None
          end
      | None => None
      end
  end.

Definition loads (s : string) : decoded :=
  match value (S (String.length s)) (skip_ws s) with
  | Some (v, rest) =>
      match skip_ws rest with
      | EmptyString => Decoded v
      | _ => JSONDecodeError "Extra data"
      end
  | None => JSONDecodeError "Expecting value"
  end.

End Json.

Module Sim.

Record World : Type := {
  schemas : list (string * list string);   (* the schemas and their tables *)
  reply : string;                          (* what the model answers *)
  command_error : option string;           (* the error of any command *)
  count : list (list pyval);               (* the rows of a COUNT query *)
  executed : list pyval                    (* the commands run, latest first *)
}.

Fixpoint tables_of (schema : string) (l : list (string * list string))
  : option (list string) :=
  match l with
  | [] => None
  | (s, ts) :: r => if String.eqb s schema then Some ts else tables_of schema r
  end.

Definition has_table (table schema : string) (w : World) : bool :=
  match tables_of schema (schemas w) with
  | Some ts => Str.mem table ts
  | None => false
  end.

Definition a_column : TableColumn :=
  {| col_name := "contact_id"; data_type := "bigint"; nullable := true;
     comment := None |}.

Definition sim_list_tables (schema : string) (w : World)
  : result (list string) * World :=
  match tables_of schema (schemas w) with
  | Some ts => (Ok ts, w)
  | None => (Raise ("SCHEMA_NOT_FOUND: " ++ schema), w)
  end.

Definition sim_get_table_schema (table schema : string) (w : World)
  : result TableSchema * World :=
  if has_table table schema w
  then (Ok {| catalog := "main"; schema := schema; table := table;
              columns := [a_column]; row_count := Some 3%Z |}, w)
  else (Raise ("TABLE_OR_VIEW_NOT_FOUND: " ++ schema ++ "." ++ table), w).

Definition sim_get_sample_data (table schema : string) (limit : nat) (w : World)
  : result QueryResult * World :=
  if has_table table schema w
  then (Ok {| qr_columns := ["contact_id"]; rows := [[PInt 7]];
              qr_row_count := 1 |}, w)
  else (Raise ("TABLE_OR_VIEW_NOT_FOUND: " ++ schema ++ "." ++ table), w).

Definition sim_execute_command (sql : pyval) (w : World)
  : result unit * World :=
  let w' := {| schemas := schemas w; reply := reply w;
               command_error := command_error w; count := count w;
               executed := sql :: executed w |} in
  match command_error w with
  | Some e => (Raise e, w')
  | None => (Ok tt, w')
  end.

Definition sim_execute_query (sql : string) (w : World)
  : result QueryResult * World :=
  (Ok {| qr_columns := ["count(1)"]; rows := count w;
         qr_row_count := List.length (count w) |}, w).

Definition sim_call_claude (prompt : string) (w : World)
  : result string * World := (Ok (reply w), w).

Definition sim_prompt (user_request : string) (ts : TableSchema)
           (sample : QueryResult) (target_schema catalog : string) : string :=
  "Table: " ++ full_name ts ++ Str.nl ++ "Request: " ++ user_request ++ Str.nl
  ++ "Target: " ++ catalog ++ "." ++ target_schema.

Definition svc : Services World :=
  {| list_tables := sim_list_tables;
     get_table_schema := sim_get_table_schema;
     get_sample_data := sim_get_sample_data;
     execute_command := sim_execute_command;
     execute_query := sim_execute_query;
     call_claude := sim_call_claude;
     json_loads := Json.loads;
     build_transform_prompt := sim_prompt;
     settings_host := "dbc.example.com";
     settings_catalog := "main" |}.

(** A JSON member [ "k": v ] and a JSON text, written without quotes. *)
Definition q (s : string) : string := Str.dq ++ s ++ Str.dq.

Definition member (k v : string) : string := q k ++ ": " ++ v.

Definition create_sql : string :=
  "CREATE OR REPLACE TABLE main.silver.customers_clean AS SELECT DISTINCT * FROM main.bronze.raw_customers".

(** A reply of the shape the prompt asks for, with the estimate given
    as [estimate]. *)
Definition reply_with (estimate : string) : string :=
  "{" ++ member "target_table" (q "main.silver.customers_clean") ++ ", "
      ++ member "sql" (q create_sql) ++ ", "
      ++ member "transformations_applied" ("[" ++ q "dedupe" ++ "]") ++ ", "
      ++ member "explanation" (q "Removes duplicate rows") ++ ", "
      ++ member "estimated_impact"
           ("{" ++ member "rows_before" "3" ++ ", "
                ++ member "estimated_rows_after" estimate ++ ", "
                ++ member "columns_modified" "[]" ++ "}")
      ++ "}".

Definition good_reply : string := reply_with "2".

(** The model words its estimate instead of giving a number. *)
Definition worded_reply : string := reply_with (q "unknown").

(** A reply with the two required keys and nothing behind them. *)
Definition hollow_reply : string :=
  "{" ++ member "target_table" (q "t") ++ ", " ++ member "sql" (q Str.emp) ++ "}".

Definition warehouse (r : string) : World :=
  {| schemas := [("bronze", ["raw_customers"]); ("silver", ["raw_customers"]);
                 ("gold", [])];
     reply := r; command_error := None; count := [[PInt 2]]; executed := [] |}.

Definition failing_warehouse (r e : string) : World :=
  {| schemas := [("bronze", ["raw_customers"]); ("silver", []); ("gold", [])];
     reply := r; command_error := Some e; count := [[PInt 2]]; executed := [] |}.

Definition with_schemas (l : list (string * list string)) : World :=
  {| schemas := l; reply := good_reply; command_error := None;
     count := [[PInt 2]]; executed := [] |}.

Definition clean_request : string :=
  "Clean raw_customers, remove nulls, dedupe by contact_id".

(** The plan that [good_reply] decodes to, and the pending transform
    that the request above leaves. *)
Definition good_plan : TransformPlan :=
  {| target_table := PStr "main.silver.customers_clean";
     sql := PStr create_sql;
     transformations_applied := PList [PStr "dedupe"];
     explanation := PStr "Removes duplicate rows";
     estimated_rows_after := PInt 2;
     columns_modified := PList [] |}.

Definition good_pending : PendingTransform :=
  {| plan := good_plan;
     source_table := "bronze.raw_customers";
     source_schema :=
       {| catalog := "main"; schema := "bronze"; table := "raw_customers";
          columns := [a_column]; row_count := Some 3%Z |};
     user_request := clean_request |}.

(** An agent that awaits the confirmation of [good_plan]. *)
Definition awaiting : Agent World :=
  after svc clean_request (init (warehouse good_reply)).

(** The same with a warehouse that refuses every command. *)
Definition awaiting_failure : Agent World :=
  after svc clean_request
        (init (failing_warehouse good_reply "PERMISSION_DENIED: cannot create table")).

End Sim.

(** ** What the properties speak about *)

(** A pending transform exists exactly while the agent awaits the
    confirmation, and no turn ends while executing. *)
Definition session_invariant {W} (a : Agent W) : Prop :=
  (pending_transform a <> None <-> state a = AWAITING_CONFIRMATION)
  /\ state a <> EXECUTING.

(** The statements that a list of calls sent to [execute_command]. *)
Definition executions (cs : list Call) : list pyval :=
  flat_map (fun c => match c with CallExecuteCommand q => [q] | _ => [] end) cs.

(** The words that [chat] compares the message with. *)
Definition command_vocabulary : list string :=
  help_words ++ tables_words ++ status_words
  ++ confirm_words ++ cancel_words ++ show_sql_words.

(** [v] is [w] up to the case of its letters, between white space. *)
Definition variant (v w : string) : Prop :=
  exists l u r,
    v = l ++ u ++ r
    /\ Str.all_str Str.is_space l = true
    /\ Str.all_str Str.is_space r = true
    /\ Str.lower u = Str.lower w.

(** A text that is not empty and has no white space at either end. *)
Fixpoint ends_solid (s : string) : bool :=
  match s with
  | EmptyString => false
  | String c EmptyString => negb (Str.is_space c)
  | String _ r => ends_solid r
  end.

Definition solid (s : string) : bool :=
  match s with
  | EmptyString => false
  | String c _ => negb (Str.is_space c) && ends_solid s
  end.

(** The table test as the specification words it: one of the prefixes
    is taken off the front of the name. *)
Definition without_prefix (name : string) : string :=
  match Re.drop_prefix "raw_" name with
  | Some stem => stem
  | None =>
      match Re.drop_prefix "stg_" name with
      | Some stem => stem
      | None => name
      end
  end.

Definition table_matches_by_prefix (request_lower table : string) : bool :=
  Str.contains (Str.lower table) request_lower
  || (Str.contains (without_prefix (Str.lower table)) request_lower
      && (2 <? String.length (without_prefix (Str.lower table)))%nat).

(** The two conditions that the specification puts on a plan. *)
Definition three_part (name : string) : bool :=
  (List.length (Str.split_char "." name) =? 3)%nat.

Definition plan_well_formed (p : TransformPlan) : bool :=
  match sql p, target_table p with
  | PStr q, PStr t => negb (String.eqb q EmptyString) && three_part t
  | _, _ => false
  end.

(** The attributes of the session, apart from the world and the calls. *)
Definition same_attributes {W} (a a' : Agent W) : Prop :=
  state a' = state a
  /\ pending_transform a' = pending_transform a
  /\ last_result a' = last_result a
  /\ last_mentioned_table a' = last_mentioned_table a.

(** Every run of [m] relates the agent before to the agent after. *)
Definition preserves {W A} (R : Agent W -> Agent W -> Prop) (m : M W A) : Prop :=
  forall a, R a (snd (m a)).

(** The state and the pending transform stay as they are. *)
Definition keeps_gate {W} (a a' : Agent W) : Prop :=
  state a' = state a /\ pending_transform a' = pending_transform a.

(** They stay, or a plan was stored for confirmation. *)
Definition keeps_or_plans {W} (a a' : Agent W) : Prop :=
  keeps_gate a a'
  \/ (state a' = AWAITING_CONFIRMATION /\ pending_transform a' <> None).

(** The remembered table stays, or is overwritten with a pair. *)
Definition keeps_or_names {W} (a a' : Agent W) : Prop :=
  last_mentioned_table a' = last_mentioned_table a
  \/ exists table schema, last_mentioned_table a' = Some (table, schema).

Definition keeps_last_mentioned {W} (a a' : Agent W) : Prop :=
  last_mentioned_table a' = last_mentioned_table a.

(** The result of [m] and the world it leaves depend on the world
    alone, not on the attributes of the session. *)
Definition world_only {W A} (m : M W A) : Prop :=
  forall a1 a2,
    world a1 = world a2 ->
    fst (m a1) = fst (m a2) /\ world (snd (m a1)) = world (snd (m a2)).

(** The remembered table after a turn is the one before it, or a pair
    of [P]. *)
Definition names_among {W} (P : string * string -> Prop) (a a' : Agent W)
  : Prop :=
  last_mentioned_table a' = last_mentioned_table a
  \/ exists q, P q /\ last_mentioned_table a' = Some q.

(** The pairs that a turn can take from a resolution: the pair p that
    the resolver found, or the pair p remembered before; and, where
    [_handle_question] passes p on to [_describe_table] as the
    reference schema.table, what [_describe_table] reads in that
    reference, which is p again unless a name of p has a dot or a
    backtick. *)
Definition resolved_pair (found : result (option (string * string)))
           (last : option (string * string)) (q : string * string) : Prop :=
  exists p,
    (found = Ok (Some p) \/ last = Some p)
    /\ (q = p
        \/ Str.split_char "."
             (Str.replace "`" Str.emp (snd p ++ "." ++ fst p))
           = [snd q; fst q]).

(** Two backends, possibly of different kinds, that list the same
    tables: [R] relates the states in which every [list_tables]
    reports the same, and the listings keep it. Nothing is asked of
    their other methods. *)
Definition same_listings {W1 W2} (svc1 : Services W1) (svc2 : Services W2)
           (R : W1 -> W2 -> Prop) : Prop :=
  forall schema w1 w2,
    R w1 w2 ->
    fst (list_tables svc1 schema w1) = fst (list_tables svc2 schema w2)
    /\ R (snd (list_tables svc1 schema w1)) (snd (list_tables svc2 schema w2)).

(** Two methods that return the same on backends related by [R], and
    leave them related. *)
Definition alike {W1 W2 A} (R : W1 -> W2 -> Prop)
           (m1 : M W1 A) (m2 : M W2 A) : Prop :=
  forall a1 a2,
    R (world a1) (world a2) ->
    fst (m1 a1) = fst (m2 a2) /\ R (world (snd (m1 a1))) (world (snd (m2 a2))).

(** A text of ASCII characters, on which [Str.lower] and [Str.upper]
    are [str.lower] and [str.upper]. *)
Definition is_ascii (s : string) : bool :=
  Str.all_str (fun c => (nat_of_ascii c <? 128)%nat) s.

(** A text without dot. *)
Definition no_dot (s : string) : bool :=
  Str.all_str (fun c => negb (Ascii.eqb c ".")) s.

(** A lower-cased message that [chat] answers as a literal command,
    and one that the classifier can only find unclear. *)
Definition literal_command (word : string) : bool :=
  Str.mem word help_words || Str.mem word tables_words
  || Str.mem word status_words.

Definition unclear_word (word : string) : bool :=
  negb (matches_any question_patterns word)
  && negb (matches_any transform_patterns word)
  && negb (Str.any_in action_words word).

Definition no_describe (word : string) : bool :=
  negb (Str.startswith "describe " word || Str.startswith "desc " word).

(** ** The rest of the code around the agent *)

(** The calls that only read the warehouse, and those or a call of
    the model. *)
Definition is_read (c : Call) : bool :=
  match c with
  | CallListTables _ | CallGetTableSchema _ _ | CallGetSampleData _ _ _ => true
  | _ => false
  end.

Definition is_read_or_model (c : Call) : bool :=
  is_read c || match c with CallClaude _ => true | _ => false end.

(** The calls of a run of a method are all of the kind [P]. *)
Definition only_calls {W} (P : Call -> bool) (a a' : Agent W) : Prop :=
  exists l, calls a' = (l ++ calls a)%list /\ forallb P l = true.

Definition keeps_last_result {W} (a a' : Agent W) : Prop :=
  last_result a' = last_result a.

(** What a successful execution of [p] records, with the count [n]. *)
Definition success_record (p : TransformPlan) (n : pyval) : TransformResult :=
  {| success := true;
     tr_target_table := target_table p;
     rows_created := n;
     message := "Transform executed successfully";
     sql_executed := sql p |}.

(** [SchedulePlan] and the part of [LLMService.parse_schedule] after
    the reply is decoded. *)
Record SchedulePlan : Type := {
  cron_expression : pyval;
  human_readable : pyval;
  timezone : pyval
}.

Definition schedule_of_data (data : pyval) : result SchedulePlan :=
  rbind (Py.getitem "cron_expression" data) (fun c =>
  rbind (Py.getitem "human_readable" data) (fun h =>
  rbind (Py.get "timezone" (PStr "UTC") data) (fun z =>
  Ok {| cron_expression := c; human_readable := h; timezone := z |}))).

(** [TableIdentification] and the part of [LLMService.identify_table]
    after the reply is decoded. *)
Record TableIdentification : Type := {
  ti_source_schema : pyval;
  ti_source_table : pyval;
  ti_target_schema : pyval;
  confidence : pyval
}.

Definition identification_of_data (data : pyval) : result TableIdentification :=
  rbind (Py.getitem "source_schema" data) (fun ss =>
  rbind (Py.getitem "source_table" data) (fun st =>
  rbind (Py.getitem "target_schema" data) (fun ts =>
  rbind (Py.getitem "confidence" data) (fun c =>
  Ok {| ti_source_schema := ss; ti_source_table := st;
        ti_target_schema := ts; confidence := c |})))).

(** [s.rstrip(c)] for a one-character [c] *)
Fixpoint rstrip_char (c : ascii) (s : string) : string :=
  match s with
  | EmptyString => EmptyString
  | String x r =>
      match rstrip_char c r with
      | EmptyString => if Ascii.eqb x c then EmptyString else Str.str1 x
      | r' => String x r'
      end
  end.

(** [DatabricksSettings.clean_host] of [config/settings.py] *)
Definition clean_host (v : string) : string :=
  rstrip_char "/" (Str.replace "http://" Str.emp (Str.replace "https://" Str.emp v)).

(** A text without colon. *)
Definition no_colon (s : string) : bool :=
  Str.all_str (fun c => negb (Ascii.eqb c ":")) s.

(** A text without backtick, and one without opening brace. *)
Definition no_tick (s : string) : bool :=
  Str.all_str (fun c => negb (Ascii.eqb c "`")) s.

Definition no_open (s : string) : bool :=
  Str.all_str (fun c => negb (Ascii.eqb c "{")) s.

(** A method that returns in every run: it never raises. *)
Definition answers {W A} (m : M W A) : Prop :=
  forall a, exists x, fst (m a) = Ok x.

(** The services of [Sim] with a warehouse that cannot be reached:
    every listing raises. *)
Definition unreachable_svc : Services Sim.World :=
  {| list_tables := fun _ w => (Raise "connection refused", w);
     get_table_schema := fun _ _ w => (Raise "connection refused", w);
     get_sample_data := fun _ _ _ w => (Raise "connection refused", w);
     execute_command := fun _ w => (Raise "connection refused", w);
     execute_query := fun _ w => (Raise "connection refused", w);
     call_claude := Sim.sim_call_claude;
     json_loads := Json.loads;
     build_transform_prompt := Sim.sim_prompt;
     settings_host := "dbc.example.com";
     settings_catalog := "main" |}.

(** The services of [Sim] with nothing but the listings in reach: the
    tables are those of [Sim], every other call raises. *)
Definition listing_only_svc : Services Sim.World :=
  {| list_tables := Sim.sim_list_tables;
     get_table_schema := fun _ _ w => (Raise "connection refused", w);
     get_sample_data := fun _ _ _ w => (Raise "connection refused", w);
     execute_command := fun _ w => (Raise "connection refused", w);
     execute_query := fun _ w => (Raise "connection refused", w);
     call_claude := fun _ w => (Raise "overloaded", w);
     json_loads := fun _ => DecoderRaised "maximum recursion depth exceeded";
     build_transform_prompt := fun _ _ _ _ _ => EmptyString;
     settings_host := "dbc.example.com";
     settings_catalog := "main" |}.

Definition is_listing (c : Call) : bool :=
  match c with CallListTables _ => true | _ => false end.

(** The words with which a transform request refers back to a table. *)
Definition back_references : list string :=
  ["this table"; "that table"; "the table"; "it "].

Section App.

Context {W : Type} (svc : Services W).

(** [chat] of [app.py], with the global agent passed in and out.
    [connect] is what constructing a [TransformAgent] gives: the world
    its services talk to, or the exception of the construction. *)
Definition app_chat (connect : result W) (message : string)
           (agent : option (Agent W)) : string * option (Agent W) :=
  let turn (a : Agent W) :=
    match chat svc message a with
    | (Ok response, a') => (response, Some a')
    | (Raise e, a') =>
        ("❌ **Error:** " ++ e ++ Str.nl ++ Str.nl
         ++ "Try `help` for available commands.", Some a')
    end in
  if String.eqb (Str.strip message) EmptyString
  then ("Please enter a message.", agent)
  else
    match agent with
    | Some a => turn a
    | None =>
        match connect with
        | Ok w => turn (init w)
        | Raise e => ("❌ " ++ "Failed to initialize agent: " ++ e, None)
        end
    end.

(** A conversation through [app.py], from the agent it starts with:
    each turn comes with what a construction would give at that time. *)
Fixpoint app_run (turns : list (result W * string))
         (agent : option (Agent W)) : option (Agent W) :=
  match turns with
  | [] => agent
  | (connect, m) :: rest => app_run rest (snd (app_chat connect m agent))
  end.

End App.

(** What one listing gives the resolver: its first table that matches
    the message, and nothing when the listing failed. *)
Definition first_match (request_lower : string)
           (listing : result (list string)) : option string :=
  match listing with
  | Ok tables => scan_tables request_lower tables
  | Raise _ => None
  end.

(** * Properties *)

(** ** Strings *)

Lemma is_space_lower_char (c : ascii) :
  Str.is_space (Str.lower_char c) = Str.is_space c.
Proof. destruct c as [[] [] [] [] [] [] [] []]; reflexivity. Qed.

Lemma lower_char_dot (c : ascii) :
  Ascii.eqb (Str.lower_char c) "." = Ascii.eqb c ".".
Proof. destruct c as [[] [] [] [] [] [] [] []]; reflexivity. Qed.

Lemma is_word_dot (c : ascii) :
  Ascii.eqb c "." = true -> Str.is_word c = false.
Proof. intros H. apply Ascii.eqb_eq in H. subst. reflexivity. Qed.

Lemma lower_app (s t : string) :
  Str.lower (s ++ t) = Str.lower s ++ Str.lower t.
Proof.
  induction s as [|c s IH]; simpl; [reflexivity|].
  unfold Str.lower in *. simpl. now rewrite IH.
Qed.

Lemma ends_solid_lower (s : string) :
  ends_solid (Str.lower s) = ends_solid s.
Proof.
  induction s as [|c s IH]; [reflexivity|].
  unfold Str.lower in *. simpl.
  destruct s as [|d s]; simpl in *.
  - now rewrite is_space_lower_char.
  - exact IH.
Qed.

Lemma solid_lower (s : string) : solid (Str.lower s) = solid s.
Proof.
  destruct s as [|c s]; [reflexivity|].
  unfold solid. rewrite ends_solid_lower.
  unfold Str.lower. simpl. now rewrite is_space_lower_char.
Qed.

Lemma lstrip_spaces (l s : string) :
  Str.all_str Str.is_space l = true -> Str.lstrip (l ++ s) = Str.lstrip s.
Proof.
  induction l as [|c l IH]; simpl; [reflexivity|].
  intros H. apply andb_true_iff in H as [Hc Hl].
  rewrite Hc. now apply IH.
Qed.

Lemma rstrip_spaces (r : string) :
  Str.all_str Str.is_space r = true -> Str.rstrip r = EmptyString.
Proof.
  induction r as [|c r IH]; simpl; [reflexivity|].
  intros H. apply andb_true_iff in H as [Hc Hr].
  rewrite (IH Hr). now rewrite Hc.
Qed.

Lemma rstrip_cons (c : ascii) (x : string) :
  Str.rstrip (String c x) =
  match Str.rstrip x with
  | EmptyString => if Str.is_space c then EmptyString else Str.str1 c
  | String d y => String c (String d y)
  end.
Proof. reflexivity. Qed.

Lemma rstrip_solid (s r : string) :
  ends_solid s = true ->
  Str.all_str Str.is_space r = true ->
  Str.rstrip (s ++ r) = s.
Proof.
  induction s as [|c s IH]; [discriminate|].
  intros Hs Hr. destruct s as [|d s].
  - simpl in Hs. simpl append. rewrite rstrip_cons, (rstrip_spaces r Hr).
    destruct (Str.is_space c); [discriminate|reflexivity].
  - specialize (IH Hs Hr).
    change (String c (String d s) ++ r) with (String c (String d s ++ r)).
    rewrite rstrip_cons, IH. reflexivity.
Qed.

Lemma strip_padded (l u r : string) :
  solid u = true ->
  Str.all_str Str.is_space l = true ->
  Str.all_str Str.is_space r = true ->
  Str.strip (l ++ u ++ r) = u.
Proof.
  intros Hu Hl Hr. unfold Str.strip. rewrite (lstrip_spaces l _ Hl).
  destruct u as [|c u]; [discriminate|].
  unfold solid in Hu. apply andb_true_iff in Hu as [Hc He].
  simpl Str.lstrip.
  destruct (Str.is_space c); [discriminate|].
  change (String c (u ++ r)) with (String c u ++ r).
  now apply rstrip_solid.
Qed.

(** ** Relations that every step of a method respects *)

Section Combinators.

Context {W : Type} (R : Agent W -> Agent W -> Prop).

(** [R] looks at the attributes only, and composes. *)
Hypothesis R_attributes : forall a a', same_attributes a a' -> R a a'.
Hypothesis R_trans : forall a b c, R a b -> R b c -> R a c.

Lemma R_refl (a : Agent W) : R a a.
Proof. apply R_attributes. repeat split. Qed.

Lemma preserves_ret {A} (x : A) : preserves R (ret x).
Proof. intros a. apply R_refl. Qed.

Lemma preserves_raise {A} (e : string) : preserves R (@raise W A e).
Proof. intros a. apply R_refl. Qed.

Lemma preserves_lift {A} (r : result A) : preserves R (lift r).
Proof. intros a. apply R_refl. Qed.

Lemma preserves_get : preserves R get.
Proof. intros a. apply R_refl. Qed.

Lemma preserves_service {A} (c : Call) (f : W -> result A * W) :
  preserves R (service c f).
Proof.
  intros a. unfold service. destruct (f (world a)) as [r w'].
  apply R_attributes. repeat split.
Qed.

Lemma preserves_bind {A B} (m : M W A) (f : A -> M W B) :
  preserves R m -> (forall x, preserves R (f x)) -> preserves R (bind m f).
Proof.
  intros Hm Hf a. unfold bind. specialize (Hm a).
  destruct (m a) as [[x|e] a']; simpl in *.
  - eapply R_trans; [exact Hm|apply Hf].
  - exact Hm.
Qed.

Lemma preserves_try {A} (m : M W A) (h : string -> M W A) :
  preserves R m -> (forall e, preserves R (h e)) -> preserves R (try_except m h).
Proof.
  intros Hm Hh a. unfold try_except. specialize (Hm a).
  destruct (m a) as [[x|e] a']; simpl in *.
  - exact Hm.
  - eapply R_trans; [exact Hm|apply Hh].
Qed.

Lemma preserves_attempt {A} (m : M W A) :
  preserves R m -> preserves R (attempt m).
Proof.
  intros Hm a. unfold attempt. specialize (Hm a).
  destruct (m a) as [r a']. exact Hm.
Qed.

End Combinators.

(** One step of a proof that a method respects a relation. *)
Ltac frame_step :=
  lazymatch goal with
  | |- preserves _ (bind _ _) => apply preserves_bind; [assumption| |intros]
  | |- preserves _ (try_except _ _) => apply preserves_try; [assumption| |intros]
  | |- preserves _ (attempt _) => apply preserves_attempt
  | |- preserves _ (ret _) => apply preserves_ret; assumption
  | |- preserves _ (raise _) => apply preserves_raise; assumption
  | |- preserves _ (lift _) => apply preserves_lift; assumption
  | |- preserves _ get => apply preserves_get; assumption
  | |- preserves _ (service _ _) => apply preserves_service; assumption
  | |- preserves _ (match ?x with _ => _ end) => destruct x
  | |- preserves _ (let _ := _ in _) => cbv zeta
  end.

Ltac frame := repeat (first [solve [auto] | frame_step]).

Section ReadingMethods.

Context {W : Type} (svc : Services W) (R : Agent W -> Agent W -> Prop).

Hypothesis R_attributes : forall a a', same_attributes a a' -> R a a'.
Hypothesis R_trans : forall a b c, R a b -> R b c -> R a c.
Hypothesis R_names :
  forall (t : string * string), preserves R (set_last_mentioned_table t).

Lemma frame_list_tables (schema : string) :
  preserves R (db_list_tables svc schema).
Proof. unfold db_list_tables. frame. Qed.

Lemma frame_table_exists (table schema : string) :
  preserves R (db_table_exists svc table schema).
Proof. pose proof frame_list_tables. unfold db_table_exists. frame. Qed.

Lemma frame_get_table_schema (table schema : string) :
  preserves R (db_get_table_schema svc table schema).
Proof. unfold db_get_table_schema. frame. Qed.

Lemma frame_get_sample_data (table schema : string) (n : nat) :
  preserves R (db_get_sample_data svc table schema n).
Proof. unfold db_get_sample_data. frame. Qed.

Lemma frame_generate (req : string) (ts : TableSchema) (sample : QueryResult)
      (target cat : string) :
  preserves R (generate_transform_sql svc req ts sample target cat).
Proof. unfold generate_transform_sql, llm_call_claude. frame. Qed.

Lemma frame_identify_in (schemas : list string) (request_lower : string) :
  preserves R (identify_in svc schemas request_lower).
Proof.
  pose proof frame_list_tables.
  induction schemas as [|s rest IH]; simpl; frame.
Qed.

Lemma frame_identify_table (user_request : string) :
  preserves R (_identify_table svc user_request).
Proof.
  pose proof frame_identify_in. pose proof frame_table_exists.
  unfold _identify_table. frame.
Qed.

Lemma frame_detect_intent (message : string) :
  preserves R (_detect_intent svc message).
Proof.
  pose proof frame_identify_table.
  unfold _detect_intent. frame.
Qed.

Lemma frame_collect_tables (fmt : string -> string -> string)
      (schemas : list string) :
  preserves R (collect_tables svc fmt schemas).
Proof.
  pose proof frame_list_tables.
  induction schemas as [|s rest IH]; simpl; frame.
Qed.

Lemma frame_ask_which_table (action : string) :
  preserves R (_ask_which_table svc action).
Proof. pose proof frame_collect_tables. unfold _ask_which_table. frame. Qed.

Lemma frame_ask_for_table_clarification (user_request : string) :
  preserves R (_ask_for_table_clarification svc user_request).
Proof.
  pose proof frame_collect_tables.
  unfold _ask_for_table_clarification. frame.
Qed.

Lemma frame_list_rows (schema : string) (tables : list string) :
  preserves R (list_rows svc schema tables).
Proof.
  pose proof frame_get_table_schema.
  induction tables as [|t rest IH]; simpl; frame.
Qed.

Lemma frame_list_schemas (schemas : list string) :
  preserves R (list_schemas svc schemas).
Proof.
  pose proof frame_list_tables. pose proof frame_list_rows.
  induction schemas as [|s rest IH]; simpl; frame.
Qed.

Lemma frame_list_all : preserves R (_list_tables svc).
Proof. pose proof frame_list_schemas. unfold _list_tables. frame. Qed.

Lemma frame_probe_schema (schemas : list string) (table : string) :
  preserves R (probe_schema svc schemas table).
Proof.
  pose proof frame_table_exists.
  induction schemas as [|s rest IH]; simpl; frame.
Qed.

Lemma frame_describe_known (table schema : string) :
  preserves R (describe_known svc table schema).
Proof.
  pose proof frame_get_table_schema. pose proof frame_get_sample_data.
  unfold describe_known. frame.
Qed.

Lemma frame_describe_table (table_ref : string) :
  preserves R (_describe_table svc table_ref).
Proof.
  pose proof frame_describe_known. pose proof frame_probe_schema.
  unfold _describe_table. frame.
Qed.

Lemma frame_describe_table_columns (table schema : string) :
  preserves R (_describe_table_columns svc table schema).
Proof.
  pose proof frame_get_table_schema.
  unfold _describe_table_columns. frame.
Qed.

Lemma frame_show_table_preview (table schema : string) :
  preserves R (_show_table_preview svc table schema).
Proof.
  pose proof frame_get_table_schema. pose proof frame_get_sample_data.
  unfold _show_table_preview. frame.
Qed.

Lemma frame_show_status : preserves R (_show_status svc).
Proof. unfold _show_status. frame. Qed.

Lemma frame_handle_unclear_intent (message : string) :
  preserves R (_handle_unclear_intent svc message).
Proof.
  pose proof frame_identify_table.
  unfold _handle_unclear_intent. frame.
Qed.

Lemma frame_handle_question (question : string) :
  preserves R (_handle_question svc question).
Proof.
  pose proof frame_identify_table. pose proof frame_describe_table_columns.
  pose proof frame_show_table_preview. pose proof frame_ask_which_table.
  pose proof frame_list_all. pose proof frame_describe_table.
  unfold _handle_question. frame.
Qed.

End ReadingMethods.

(** ** The relations are of that kind *)

Section Relations.

Context {W : Type}.

Lemma keeps_gate_attributes (a a' : Agent W) :
  same_attributes a a' -> keeps_gate a a'.
Proof. intros (H1 & H2 & _). split; assumption. Qed.

Lemma keeps_gate_trans (a b c : Agent W) :
  keeps_gate a b -> keeps_gate b c -> keeps_gate a c.
Proof. intros [H1 H2] [H3 H4]. split; congruence. Qed.

Lemma keeps_gate_names (t : string * string) :
  preserves (@keeps_gate W) (set_last_mentioned_table t).
Proof. intros a. split; reflexivity. Qed.

Lemma keeps_or_plans_attributes (a a' : Agent W) :
  same_attributes a a' -> keeps_or_plans a a'.
Proof. intros H. left. now apply keeps_gate_attributes. Qed.

Lemma keeps_or_plans_trans (a b c : Agent W) :
  keeps_or_plans a b -> keeps_or_plans b c -> keeps_or_plans a c.
Proof.
  intros [H1|[H1 H1']] [H2|[H2 H2']].
  - left. eapply keeps_gate_trans; eassumption.
  - right. split; assumption.
  - right. destruct H2 as [H2 H2']. split; congruence.
  - right. split; assumption.
Qed.

Lemma keeps_or_plans_names (t : string * string) :
  preserves (@keeps_or_plans W) (set_last_mentioned_table t).
Proof. intros a. left. split; reflexivity. Qed.

Lemma keeps_or_names_attributes (a a' : Agent W) :
  same_attributes a a' -> keeps_or_names a a'.
Proof. intros (_ & _ & _ & H). left. exact H. Qed.

Lemma keeps_or_names_trans (a b c : Agent W) :
  keeps_or_names a b -> keeps_or_names b c -> keeps_or_names a c.
Proof.
  intros H1 [H2|H2].
  - destruct H1 as [H1|(t & s & H1)].
    + left. congruence.
    + right. exists t, s. congruence.
  - right. exact H2.
Qed.

Lemma keeps_or_names_names (t : string * string) :
  preserves (@keeps_or_names W) (set_last_mentioned_table t).
Proof. intros a. right. destruct t as [t s]. exists t, s. reflexivity. Qed.

Lemma keeps_last_mentioned_attributes (a a' : Agent W) :
  same_attributes a a' -> keeps_last_mentioned a a'.
Proof. intros (_ & _ & _ & H). exact H. Qed.

Lemma keeps_last_mentioned_trans (a b c : Agent W) :
  keeps_last_mentioned a b -> keeps_last_mentioned b c ->
  keeps_last_mentioned a c.
Proof. unfold keeps_last_mentioned. congruence. Qed.

End Relations.

(** ** The methods of the confirmation gate *)

Section Gate.

Context {W : Type} (svc : Services W).

Lemma bind_get {A} (f : Agent W -> M W A) (a : Agent W) :
  bind get f a = f a a.
Proof. reflexivity. Qed.

Lemma calls_during_app (a a' : Agent W) (l : list Call) :
  calls a' = (l ++ calls a)%list -> calls_during a a' = rev l.
Proof.
  intros H. unfold calls_during. rewrite H, length_app.
  replace (List.length l + List.length (calls a) - List.length (calls a))
    with (List.length l) by lia.
  rewrite firstn_app, firstn_all, Nat.sub_diag. simpl.
  now rewrite app_nil_r.
Qed.

(** What [_execute_pending_transform] does with a pending plan: one
    command, the statement of the plan, then at most the count; the
    agent ends idle without pending transform, whatever the services
    answer, and keeps the table it remembered. *)
Lemma execute_pending (a : Agent W) (pt : PendingTransform) :
  pending_transform a = Some pt ->
  let a' := snd (_execute_pending_transform svc a) in
  state a' = IDLE
  /\ pending_transform a' = None
  /\ last_mentioned_table a' = last_mentioned_table a
  /\ exists l,
       calls a' = (l ++ calls a)%list
       /\ executions (rev l) = [sql (plan pt)].
Proof.
  intros Hp. unfold _execute_pending_transform.
  rewrite bind_get, Hp.
  unfold bind, try_except, set_state, set_pending_transform, set_last_result,
    db_execute_command, db_execute_query, service, lift, ret. simpl.
  destruct (execute_command svc (sql (plan pt)) (world a)) as [[[]|e] w1]; simpl.
  - destruct (execute_query svc _ w1) as [[q|e] w2]; simpl.
    + destruct (first_cell q) as [n|e]; simpl.
      * destruct (_format_success_message _ n) as [t|e]; simpl;
          repeat split; eexists [_; _]; split; reflexivity.
      * repeat split; eexists [_; _]; split; reflexivity.
    + repeat split; eexists [_; _]; split; reflexivity.
  - repeat split; eexists [_]; split; reflexivity.
Qed.

(** Without pending transform nothing is sent. *)
Lemma execute_nothing (a : Agent W) :
  pending_transform a = None ->
  let a' := snd (_execute_pending_transform svc a) in
  state a' = IDLE /\ pending_transform a' = None
  /\ last_mentioned_table a' = last_mentioned_table a
  /\ calls a' = calls a.
Proof.
  intros Hp. unfold _execute_pending_transform.
  rewrite bind_get, Hp. simpl. auto.
Qed.

Lemma execute_idle (a : Agent W) :
  let a' := snd (_execute_pending_transform svc a) in
  state a' = IDLE /\ pending_transform a' = None
  /\ last_mentioned_table a' = last_mentioned_table a.
Proof.
  destruct (pending_transform a) as [pt|] eqn:Hp.
  - destruct (execute_pending a pt Hp) as (H1 & H2 & H3 & _). auto.
  - destruct (execute_nothing a Hp) as (H1 & H2 & H3 & _). auto.
Qed.

(** A failing command or a failing count is reported with the message
    of the service. *)
Lemma execute_command_fails (a : Agent W) (pt : PendingTransform)
      (e : string) (w : W) :
  pending_transform a = Some pt ->
  execute_command svc (sql (plan pt)) (world a) = (Raise e, w) ->
  fst (_execute_pending_transform svc a) = Ok (execution_failed e).
Proof.
  intros Hp He. unfold _execute_pending_transform.
  rewrite bind_get, Hp.
  unfold bind, try_except, set_state, set_pending_transform,
    db_execute_command, service, ret. simpl.
  rewrite He. reflexivity.
Qed.

Lemma execute_count_fails (a : Agent W) (pt : PendingTransform)
      (e : string) (w1 w2 : W) :
  pending_transform a = Some pt ->
  execute_command svc (sql (plan pt)) (world a) = (Ok tt, w1) ->
  execute_query svc
    ("SELECT COUNT(*) FROM " ++ Py.str (target_table (plan pt))) w1
    = (Raise e, w2) ->
  fst (_execute_pending_transform svc a) = Ok (execution_failed e).
Proof.
  intros Hp Hc Hq. unfold _execute_pending_transform.
  rewrite bind_get, Hp.
  unfold bind, try_except, set_state, set_pending_transform,
    db_execute_command, db_execute_query, service, ret. simpl.
  rewrite Hc. simpl in Hq |- *. rewrite Hq. reflexivity.
Qed.

Lemma cancel_pending (a : Agent W) :
  _cancel_pending_transform a =
  (Ok cancelled_text,
   {| state := IDLE; pending_transform := None;
      last_result := last_result a;
      last_mentioned_table := last_mentioned_table a;
      world := world a; calls := calls a |}).
Proof. reflexivity. Qed.

Lemma show_pending_sql (a : Agent W) :
  snd (_show_pending_sql a) = a.
Proof.
  unfold _show_pending_sql. rewrite bind_get.
  destruct (pending_transform a); reflexivity.
Qed.

(** Storing a plan for confirmation. *)
Lemma store_plan_gate (p : PendingTransform) (r : result string) :
  preserves (@keeps_or_plans W)
    (set_pending_transform (Some p) ;;; set_state AWAITING_CONFIRMATION ;;; lift r).
Proof. intros a. right. destruct r; simpl; split; congruence. Qed.

Lemma store_plan_names (p : PendingTransform) (r : result string) :
  preserves (@keeps_or_names W)
    (set_pending_transform (Some p) ;;; set_state AWAITING_CONFIRMATION ;;; lift r).
Proof. intros a. left. destruct r; reflexivity. Qed.

Lemma transform_request_gate (user_request : string) :
  preserves keeps_or_plans (_handle_transform_request svc user_request).
Proof.
  pose proof (@keeps_or_plans_attributes W) as R_attributes.
  pose proof (@keeps_or_plans_trans W) as R_trans.
  pose proof (@keeps_or_plans_names W) as R_names.
  pose proof (frame_identify_table svc _ R_attributes R_trans).
  pose proof (frame_ask_for_table_clarification svc _ R_attributes R_trans).
  pose proof (frame_get_table_schema svc _ R_attributes).
  pose proof (frame_get_sample_data svc _ R_attributes).
  pose proof (frame_generate svc _ R_attributes R_trans).
  pose proof store_plan_gate.
  unfold _handle_transform_request. frame.
Qed.

Lemma transform_request_names (user_request : string) :
  preserves keeps_or_names (_handle_transform_request svc user_request).
Proof.
  pose proof (@keeps_or_names_attributes W) as R_attributes.
  pose proof (@keeps_or_names_trans W) as R_trans.
  pose proof (@keeps_or_names_names W) as R_names.
  pose proof (frame_identify_table svc _ R_attributes R_trans).
  pose proof (frame_ask_for_table_clarification svc _ R_attributes R_trans).
  pose proof (frame_get_table_schema svc _ R_attributes).
  pose proof (frame_get_sample_data svc _ R_attributes).
  pose proof (frame_generate svc _ R_attributes R_trans).
  pose proof store_plan_names.
  unfold _handle_transform_request. frame.
Qed.

End Gate.

(** ** Turns *)

Lemma mem_In (x : string) (l : list string) : Str.mem x l = true <-> In x l.
Proof.
  unfold Str.mem. rewrite existsb_exists. split.
  - intros (y & Hy & E). apply String.eqb_eq in E. now subst.
  - intros H. exists x. split; [exact H|apply String.eqb_refl].
Qed.

Lemma mem_app (x : string) (l1 l2 : list string) :
  Str.mem x (l1 ++ l2) = Str.mem x l1 || Str.mem x l2.
Proof. unfold Str.mem. apply existsb_app. Qed.

(** A word of a list, one case per word. *)
Ltac each_word H :=
  apply mem_In in H; simpl in H;
  repeat (destruct H as [H|H]; [symmetry in H|]); [..|contradiction].

(** All the frame lemmas of the reading methods, for one relation. *)
Ltac pose_frames svc Ra Rt Rn :=
  pose proof (frame_identify_table svc _ Ra Rt);
  pose proof (frame_detect_intent svc _ Ra Rt);
  pose proof (frame_list_all svc _ Ra Rt);
  pose proof (frame_describe_table svc _ Ra Rt Rn);
  pose proof (frame_show_status svc _ Ra Rt);
  pose proof (frame_handle_unclear_intent svc _ Ra Rt Rn);
  pose proof (frame_handle_question svc _ Ra Rt Rn);
  pose proof (frame_ask_for_table_clarification svc _ Ra Rt);
  pose proof (frame_get_table_schema svc _ Ra);
  pose proof (frame_get_sample_data svc _ Ra);
  pose proof (frame_generate svc _ Ra Rt).

(** From [R a (snd (m a))] to [preserves R m]. *)
Ltac as_preserves :=
  lazymatch goal with
  | |- ?R ?a (snd (?m ?a)) =>
      let HP := fresh "HP" in
      cut (preserves R m); [intros HP; apply HP|]
  end.

Section Turns.

Context {W : Type} (svc : Services W).

Lemma chat_awaiting (m : string) (a : Agent W) :
  state a = AWAITING_CONFIRMATION ->
  chat svc m a =
  (if Str.mem (Str.lower (Str.strip m)) confirm_words
   then _execute_pending_transform svc
   else if Str.mem (Str.lower (Str.strip m)) cancel_words
   then _cancel_pending_transform
   else if Str.mem (Str.lower (Str.strip m)) show_sql_words
   then _show_pending_sql
   else ret (_handle_confirmation_unclear m)) a.
Proof. intros H. unfold chat. rewrite bind_get, H. reflexivity. Qed.

Lemma not_awaiting (s : AgentState) :
  s <> AWAITING_CONFIRMATION -> AgentState_eqb s AWAITING_CONFIRMATION = false.
Proof. destruct s; intros H; [reflexivity|contradiction|reflexivity]. Qed.

Lemma awaiting_eqb (s : AgentState) :
  AgentState_eqb s AWAITING_CONFIRMATION = true -> s = AWAITING_CONFIRMATION.
Proof. destruct s; intros H; [discriminate|reflexivity|discriminate]. Qed.

(** Outside the confirmation, a turn leaves the state and the pending
    transform alone or stores a plan. *)
Lemma chat_elsewhere_gate (m : string) (a : Agent W) :
  state a <> AWAITING_CONFIRMATION ->
  keeps_or_plans a (snd (chat svc m a)).
Proof.
  intros H. unfold chat. rewrite bind_get, (not_awaiting _ H).
  as_preserves.
  pose proof (@keeps_or_plans_attributes W) as Ra.
  pose proof (@keeps_or_plans_trans W) as Rt.
  pose proof (@keeps_or_plans_names W) as Rn.
  pose_frames svc Ra Rt Rn.
  pose proof (transform_request_gate svc).
  frame.
Qed.

Lemma chat_elsewhere_names (m : string) (a : Agent W) :
  state a <> AWAITING_CONFIRMATION ->
  keeps_or_names a (snd (chat svc m a)).
Proof.
  intros H. unfold chat. rewrite bind_get, (not_awaiting _ H).
  as_preserves.
  pose proof (@keeps_or_names_attributes W) as Ra.
  pose proof (@keeps_or_names_trans W) as Rt.
  pose proof (@keeps_or_names_names W) as Rn.
  pose_frames svc Ra Rt Rn.
  pose proof (transform_request_names svc).
  frame.
Qed.

(** While the agent awaits the confirmation, a turn ends idle without
    pending transform, or changes nothing at all. *)
Lemma chat_awaiting_cases (m : string) (a : Agent W) :
  state a = AWAITING_CONFIRMATION ->
  let a' := snd (chat svc m a) in
  (state a' = IDLE /\ pending_transform a' = None
   /\ last_mentioned_table a' = last_mentioned_table a)
  \/ a' = a.
Proof.
  intros H. rewrite (chat_awaiting m a H).
  destruct (Str.mem _ confirm_words).
  - left. apply execute_idle.
  - destruct (Str.mem _ cancel_words).
    + left. rewrite cancel_pending. simpl. auto.
    + destruct (Str.mem _ show_sql_words).
      * right. apply show_pending_sql.
      * right. reflexivity.
Qed.

Lemma chat_keeps_invariant (m : string) (a : Agent W) :
  session_invariant a -> session_invariant (after svc m a).
Proof.
  intros [Hiff Hex]. unfold after.
  destruct (AgentState_eqb (state a) AWAITING_CONFIRMATION) eqn:E.
  - apply awaiting_eqb in E.
    destruct (chat_awaiting_cases m a E) as [(Hs & Hp & _)|Heq].
    + split.
      * rewrite Hs, Hp. split; [congruence|discriminate].
      * rewrite Hs. discriminate.
    + rewrite Heq. split; assumption.
  - assert (Hn : state a <> AWAITING_CONFIRMATION)
      by (intros Hc; rewrite Hc in E; discriminate).
    destruct (chat_elsewhere_gate m a Hn) as [[Hs Hp]|[Hs Hp]].
    + split.
      * rewrite Hs, Hp. exact Hiff.
      * rewrite Hs. exact Hex.
    + split.
      * rewrite Hs. split; [reflexivity|intros _; exact Hp].
      * rewrite Hs. discriminate.
Qed.

Lemma init_invariant (w : W) : session_invariant (init w).
Proof.
  split; simpl.
  - split; [congruence|discriminate].
  - discriminate.
Qed.

Lemma run_keeps_invariant (messages : list string) (a : Agent W) :
  session_invariant a -> session_invariant (run svc messages a).
Proof.
  revert a. induction messages as [|m rest IH]; intros a H; simpl.
  - exact H.
  - apply IH. now apply chat_keeps_invariant.
Qed.

Lemma run_app (l1 l2 : list string) (a : Agent W) :
  run svc (l1 ++ l2) a = run svc l2 (run svc l1 a).
Proof.
  revert a. induction l1 as [|m rest IH]; intros a; simpl; [reflexivity|].
  apply IH.
Qed.

Lemma run_fixed (m : string) (a : Agent W) (n : nat) :
  after svc m a = a -> run svc (repeat m n) a = a.
Proof.
  intros H. induction n as [|n IH]; simpl; [reflexivity|].
  now rewrite H.
Qed.

End Turns.

(** ** The session state machine *)

Section Session.

Context {W : Type} (svc : Services W).

(** C2. From a new session on, after every turn of every conversation:
    a pending transform exists if and only if the state is
    AWAITING_CONFIRMATION, and the state is not EXECUTING. *)
Theorem invariant_after_every_turn (w : W) (messages : list string) :
  session_invariant (run svc messages (init w)).
Proof. apply run_keeps_invariant, init_invariant. Qed.

(** C1. While the agent awaits the confirmation of a plan: a confirm
    word sends the statement of the plan to the warehouse exactly once
    and clears the pending transform; a cancel word sends nothing,
    clears it and returns to IDLE; a show-sql word answers with the
    statement of the plan and changes nothing, however often it is
    sent; any other message is answered with the prompt that asks for
    confirm or yes, cancel or no, or show sql, word for word as
    [_handle_confirmation_unclear] has it, and changes nothing. *)
Theorem confirmation_gate (m : string) (a : Agent W) (pt : PendingTransform) :
  state a = AWAITING_CONFIRMATION ->
  pending_transform a = Some pt ->
  let word := Str.lower (Str.strip m) in
  let a' := after svc m a in
  (Str.mem word confirm_words = true ->
     executions (calls_during a a') = [sql (plan pt)]
     /\ pending_transform a' = None /\ state a' = IDLE)
  /\ (Str.mem word cancel_words = true ->
        calls a' = calls a /\ world a' = world a
        /\ pending_transform a' = None /\ state a' = IDLE)
  /\ (Str.mem word show_sql_words = true ->
        (exists before behind,
            response svc m a
            = Ok (before ++ Py.str (sql (plan pt)) ++ behind))
        /\ a' = a
        /\ forall n, run svc (repeat m n) a = a)
  /\ (Str.mem word (confirm_words ++ cancel_words ++ show_sql_words) = false ->
        chat svc m a
        = (Ok "I have a transform ready to execute. Please respond with:

  • `confirm` or `yes` - Execute the transform
  • `cancel` or `no` - Cancel and start over
  • `show sql` - View the SQL again
",
           a)).
Proof.
  intros Hs Hp word a'. subst a'. unfold after, response.
  rewrite (chat_awaiting svc m a Hs). fold word.
  split; [|split; [|split]].
  - intros Hw. rewrite Hw.
    destruct (execute_pending svc a pt Hp) as (H1 & H2 & _ & l & Hl & He).
    rewrite (calls_during_app _ _ l Hl). auto.
  - intros Hw.
    assert (Hc : Str.mem word confirm_words = false)
      by (each_word Hw; rewrite Hw; reflexivity).
    rewrite Hc, Hw, cancel_pending. simpl. auto.
  - intros Hw.
    assert (Hc : Str.mem word confirm_words = false)
      by (each_word Hw; rewrite Hw; reflexivity).
    assert (Hn : Str.mem word cancel_words = false)
      by (each_word Hw; rewrite Hw; reflexivity).
    rewrite Hc, Hn, Hw.
    assert (Hfix : snd (_show_pending_sql a) = a) by apply show_pending_sql.
    split; [|split].
    + unfold _show_pending_sql. rewrite bind_get, Hp.
      unfold ret. cbn [fst]. eexists; eexists. reflexivity.
    + exact Hfix.
    + intros n. apply run_fixed. unfold after.
      rewrite (chat_awaiting svc m a Hs). fold word.
      now rewrite Hc, Hn, Hw.
  - intros Hw. rewrite !mem_app in Hw.
    apply orb_false_iff in Hw as [Hc Hw].
    apply orb_false_iff in Hw as [Hn Hw].
    now rewrite Hc, Hn, Hw.
Qed.

End Session.

Lemma confirmation_gate_witness :
  state Sim.awaiting = AWAITING_CONFIRMATION
  /\ pending_transform Sim.awaiting = Some Sim.good_pending
  /\ executions (calls_during Sim.awaiting (after Sim.svc " Yes " Sim.awaiting))
     = [PStr Sim.create_sql]
  /\ chat Sim.svc "show tables" Sim.awaiting
     = (Ok "I have a transform ready to execute. Please respond with:

  • `confirm` or `yes` - Execute the transform
  • `cancel` or `no` - Cancel and start over
  • `show sql` - View the SQL again
",
        Sim.awaiting).
Proof.
  assert (Hs : state Sim.awaiting = AWAITING_CONFIRMATION)
    by (vm_compute; reflexivity).
  assert (Hp : pending_transform Sim.awaiting = Some Sim.good_pending)
    by (vm_compute; reflexivity).
  split; [exact Hs|]. split; [exact Hp|]. split.
  - destruct (confirmation_gate Sim.svc " Yes " Sim.awaiting Sim.good_pending Hs Hp)
      as (H & _).
    apply H. vm_compute. reflexivity.
  - destruct (confirmation_gate Sim.svc "show tables" Sim.awaiting Sim.good_pending Hs Hp)
      as (_ & _ & _ & H).
    apply H. vm_compute. reflexivity.
Defined.

(** A failing execution, seen from [chat]: the command is sent once and
    not again, the agent ends idle without pending transform, and the
    answer carries the message of the warehouse. *)
Lemma failed_execution_ends_idle {W : Type} (svc : Services W)
      (m : string) (a : Agent W) (pt : PendingTransform) (e : string) (w : W) :
  state a = AWAITING_CONFIRMATION ->
  pending_transform a = Some pt ->
  Str.mem (Str.lower (Str.strip m)) confirm_words = true ->
  execute_command svc (sql (plan pt)) (world a) = (Raise e, w) ->
  response svc m a = Ok (execution_failed e)
  /\ state (after svc m a) = IDLE
  /\ pending_transform (after svc m a) = None
  /\ executions (calls_during a (after svc m a)) = [sql (plan pt)].
Proof.
  intros Hs Hp Hw He. unfold response, after.
  rewrite (chat_awaiting svc m a Hs), Hw.
  destruct (execute_pending svc a pt Hp) as (H1 & H2 & _ & l & Hl & Hx).
  rewrite (calls_during_app _ _ l Hl).
  split; [|auto]. eapply execute_command_fails; eassumption.
Qed.

(** C4. The failing input: the model words its estimate
    ([Sim.worded_reply]). The request is answered with an error, and
    yet the turn ends in AWAITING_CONFIRMATION with the plan pending;
    a later "yes" runs the statement that was never shown. A failing
    execution, on the other hand, does end idle
    ([failed_execution_ends_idle]). *)
Theorem failed_request_leaves_plan_pending :
  let a := init (Sim.warehouse Sim.worded_reply) in
  let a' := after Sim.svc Sim.clean_request a in
  response Sim.svc Sim.clean_request a
  = Ok (error_processing "Cannot specify ',' with 's'.")
  /\ state a' = AWAITING_CONFIRMATION
  /\ pending_transform a' <> None
  /\ executions (calls_during a' (after Sim.svc "yes" a')) = [PStr Sim.create_sql].
Proof.
  cbv zeta. split; [vm_compute; reflexivity|].
  split; [vm_compute; reflexivity|].
  split; [vm_compute; discriminate|vm_compute; reflexivity].
Qed.

(** ** The target layer *)

(** C5. The target layer is "gold" when the request mentions gold,
    whatever the source; else "silver" when it mentions silver; else
    "gold" when it has one of the aggregation words; else "silver" for
    a bronze source, "gold" for a silver source and "silver" for any
    other. It is a function of the request and the source schema: no
    reply of the model enters it. *)
Theorem target_layer_policy (user_request source_schema : string) :
  let r := Str.lower user_request in
  let layer := _determine_target_layer user_request source_schema in
  (Str.contains "gold" r = true -> layer = "gold")
  /\ (Str.contains "gold" r = false -> Str.contains "silver" r = true ->
      layer = "silver")
  /\ (Str.contains "gold" r = false -> Str.contains "silver" r = false ->
      Str.any_in ["aggregate"; "summary"; "report"; "metrics"] r = true ->
      layer = "gold")
  /\ (Str.contains "gold" r = false -> Str.contains "silver" r = false ->
      Str.any_in ["aggregate"; "summary"; "report"; "metrics"] r = false ->
      (source_schema = "bronze" -> layer = "silver")
      /\ (source_schema = "silver" -> layer = "gold")
      /\ (source_schema <> "bronze" -> source_schema <> "silver" ->
          layer = "silver")).
Proof.
  cbv zeta. unfold _determine_target_layer.
  split; [|split; [|split]].
  - intros H. now rewrite H.
  - intros H1 H2. now rewrite H1, H2.
  - intros H1 H2 H3. now rewrite H1, H2, H3.
  - intros H1 H2 H3. rewrite H1, H2, H3. split; [|split].
    + now intros ->.
    + now intros ->.
    + intros Hb Hs. apply String.eqb_neq in Hb, Hs. now rewrite Hb, Hs.
Qed.

Lemma target_layer_policy_witness :
  _determine_target_layer "Clean the gold candidates" "silver" = "gold"
  /\ _determine_target_layer "Clean raw_customers" "bronze" = "silver"
  /\ _determine_target_layer "Dedupe customers" "silver" = "gold"
  /\ _determine_target_layer "Monthly Summary of sales" "bronze" = "gold".
Proof.
  split; [|split; [|split]].
  - destruct (target_layer_policy "Clean the gold candidates" "silver")
      as (H & _).
    apply H. reflexivity.
  - destruct (target_layer_policy "Clean raw_customers" "bronze")
      as (_ & _ & _ & H).
    destruct H as (H & _); reflexivity || (apply H; reflexivity).
  - destruct (target_layer_policy "Dedupe customers" "silver")
      as (_ & _ & _ & H).
    destruct H as (_ & H & _); reflexivity || (apply H; reflexivity).
  - destruct (target_layer_policy "Monthly Summary of sales" "bronze")
      as (_ & _ & H & _).
    apply H; reflexivity.
Defined.

(** ** The intent classifier *)

Lemma matches_any_In (patterns : list Re.re) (s : string) (p : Re.re) :
  In p patterns -> Re.search p s = true -> matches_any patterns s = true.
Proof.
  intros Hin Hs. unfold matches_any. apply existsb_exists.
  exists p. split; assumption.
Qed.

(** C7. A message that one of the question patterns matches is
    classified as QUESTION, whatever else it matches: the question
    patterns are tried before the transform patterns. *)
Theorem question_patterns_first {W : Type} (svc : Services W)
        (message : string) (a : Agent W) (p : Re.re) :
  In p question_patterns ->
  Re.search p (Str.lower message) = true ->
  _detect_intent svc message a = (Ok QUESTION, a).
Proof.
  intros Hin Hs. unfold _detect_intent.
  now rewrite (matches_any_In _ _ p Hin Hs).
Qed.

Lemma question_patterns_first_witness :
  matches_any transform_patterns (Str.lower "describe how to clean this") = true
  /\ _detect_intent Sim.svc "describe how to clean this" Sim.awaiting
     = (Ok QUESTION, Sim.awaiting).
Proof.
  split; [vm_compute; reflexivity|].
  apply (question_patterns_first Sim.svc "describe how to clean this"
           Sim.awaiting (Re.Lit "describe")).
  - unfold question_patterns. cbv zeta. do 15 right. left. reflexivity.
  - vm_compute. reflexivity.
Defined.

(** *** What the classifier reads *)

Section WorldOnly.

Context {W : Type} (svc : Services W).

Lemma world_only_ret {A} (x : A) : world_only (@ret W A x).
Proof. intros a1 a2 H. split; [reflexivity|exact H]. Qed.

Lemma world_only_service {A} (c : Call) (f : W -> result A * W) :
  world_only (service c f).
Proof.
  intros a1 a2 H. unfold service. rewrite H.
  destruct (f (world a2)) as [r w']. split; reflexivity.
Qed.

Lemma world_only_bind {A B} (m : M W A) (f : A -> M W B) :
  world_only m -> (forall x, world_only (f x)) -> world_only (bind m f).
Proof.
  intros Hm Hf a1 a2 H. unfold bind.
  destruct (Hm a1 a2 H) as [Hr Hw].
  destruct (m a1) as [r1 b1], (m a2) as [r2 b2]. simpl in Hr, Hw. subst r2.
  destruct r1 as [x|e].
  - apply Hf. exact Hw.
  - split; [reflexivity|exact Hw].
Qed.

Lemma world_only_attempt {A} (m : M W A) :
  world_only m -> world_only (attempt m).
Proof.
  intros Hm a1 a2 H. unfold attempt.
  destruct (Hm a1 a2 H) as [Hr Hw].
  destruct (m a1) as [r1 b1], (m a2) as [r2 b2]. simpl in *.
  split; [now rewrite Hr|exact Hw].
Qed.

Lemma world_only_list_tables (schema : string) :
  world_only (db_list_tables svc schema).
Proof. apply world_only_service. Qed.

Lemma world_only_identify_in (schemas : list string) (request_lower : string) :
  world_only (identify_in svc schemas request_lower).
Proof.
  induction schemas as [|s rest IH]; simpl.
  - apply world_only_ret.
  - apply world_only_bind.
    + apply world_only_attempt, world_only_list_tables.
    + intros [tables|e]; [|exact IH].
      destruct (scan_tables request_lower tables); [apply world_only_ret|exact IH].
Qed.

Lemma world_only_identify_table (user_request : string) :
  world_only (_identify_table svc user_request).
Proof.
  unfold _identify_table. apply world_only_bind.
  - apply world_only_identify_in.
  - intros [r|]; [apply world_only_ret|].
    destruct (Re.search_dotted user_request) as [[schema table]|];
      [|apply world_only_ret].
    apply world_only_bind.
    + unfold db_table_exists. apply world_only_bind.
      * apply world_only_list_tables.
      * intros x. apply world_only_ret.
    + intros [|]; apply world_only_ret.
Qed.

Lemma world_only_detect_intent (message : string) :
  world_only (_detect_intent svc message).
Proof.
  unfold _detect_intent.
  destruct (matches_any question_patterns _); [apply world_only_ret|].
  destruct (matches_any transform_patterns _); [apply world_only_ret|].
  apply world_only_bind; [apply world_only_identify_table|].
  intros found. cbv zeta.
  destruct (named found);
    [destruct (Str.any_in action_words (Str.lower message))|];
    try destruct (Str.count_words message <? 5)%nat; apply world_only_ret.
Qed.

End WorldOnly.

(** ** The table resolver *)

(** [scan_tables] returns the first table of the listing that matches. *)
Lemma scan_tables_first (request_lower : string) (tables : list string)
      (t : string) :
  scan_tables request_lower tables = Some t <->
  exists before behind,
    tables = (before ++ t :: behind)%list
    /\ table_matches request_lower t = true
    /\ Forall (fun x => table_matches request_lower x = false) before.
Proof.
  induction tables as [|x rest IH]; simpl.
  - split; [discriminate|].
    intros (before & behind & H & _). destruct before; discriminate.
  - destruct (table_matches request_lower x) eqn:E.
    + split.
      * intros H. injection H as <-. exists [], rest. auto.
      * intros (before & behind & H & Ht & Hb).
        destruct before as [|y before]; simpl in H; injection H as -> ->.
        -- reflexivity.
        -- inversion Hb; congruence.
    + rewrite IH. split.
      * intros (before & behind & -> & Ht & Hb).
        exists (x :: before), behind. auto.
      * intros (before & behind & H & Ht & Hb).
        destruct before as [|y before]; simpl in H; injection H as -> ->.
        -- congruence.
        -- exists before, behind. inversion Hb; auto.
Qed.

Lemma scan_tables_some (request_lower : string) (tables : list string)
      (t : string) :
  In t tables -> table_matches request_lower t = true ->
  exists t', scan_tables request_lower tables = Some t' /\ In t' tables.
Proof.
  induction tables as [|x rest IH]; simpl; [contradiction|].
  intros Hin Ht. destruct (table_matches request_lower x) eqn:E.
  - exists x. auto.
  - destruct Hin as [->|Hin]; [congruence|].
    destruct (IH Hin Ht) as (t' & H1 & H2). exists t'. auto.
Qed.

Section Resolver.

Context {W : Type} (svc : Services W).

Lemma identify_in_found (schema : string) (rest : list string)
      (request_lower : string) (a : Agent W) (tables : list string)
      (w : W) (t : string) :
  list_tables svc schema (world a) = (Ok tables, w) ->
  scan_tables request_lower tables = Some t ->
  fst (identify_in svc (schema :: rest) request_lower a) = Ok (Some (t, schema)).
Proof.
  intros Hl Hs. simpl.
  unfold bind, attempt, db_list_tables, service. rewrite Hl, Hs. reflexivity.
Qed.

Lemma identify_in_skips (schema : string) (rest : list string)
      (request_lower : string) (a : Agent W) (e : string) (w : W) :
  list_tables svc schema (world a) = (Raise e, w) ->
  identify_in svc (schema :: rest) request_lower a
  = identify_in svc rest request_lower
      {| state := state a; pending_transform := pending_transform a;
         last_result := last_result a;
         last_mentioned_table := last_mentioned_table a;
         world := w; calls := CallListTables schema :: calls a |}.
Proof.
  intros Hl. simpl.
  unfold bind at 1. unfold attempt, db_list_tables, service. rewrite Hl.
  reflexivity.
Qed.

Lemma identify_table_found (message : string) (a : Agent W)
      (r : string * string) :
  fst (identify_in svc bronze_silver_gold (Str.lower message) a) = Ok (Some r) ->
  fst (_identify_table svc message a) = Ok (Some r).
Proof.
  intros H. unfold _identify_table, bind.
  destruct (identify_in svc bronze_silver_gold (Str.lower message) a)
    as [res a']. simpl in H. subst res. reflexivity.
Qed.

Lemma identify_in_step (schema : string) (rest : list string)
      (request_lower : string) (a : Agent W)
      (listing : result (list string)) (w : W) :
  list_tables svc schema (world a) = (listing, w) ->
  fst (identify_in svc (schema :: rest) request_lower a)
  = match first_match request_lower listing with
    | Some t => Ok (Some (t, schema))
    | None =>
        fst (identify_in svc rest request_lower
               {| state := state a; pending_transform := pending_transform a;
                  last_result := last_result a;
                  last_mentioned_table := last_mentioned_table a;
                  world := w; calls := CallListTables schema :: calls a |})
    end.
Proof.
  intros Hl. simpl.
  unfold bind at 1. unfold attempt, db_list_tables, service. rewrite Hl.
  destruct listing as [tables|e]; simpl; [|reflexivity].
  destruct (scan_tables request_lower tables); reflexivity.
Qed.

Lemma identify_table_none (message : string) (a : Agent W) :
  fst (identify_in svc bronze_silver_gold (Str.lower message) a) = Ok None ->
  Re.search_dotted message = None ->
  fst (_identify_table svc message a) = Ok None.
Proof.
  intros H Hd. unfold _identify_table, bind.
  destruct (identify_in svc bronze_silver_gold (Str.lower message) a)
    as [res a']. simpl in H. subst res. rewrite Hd. reflexivity.
Qed.

(** C6, as the code has it. The schemas are scanned in the order
    bronze, silver, gold, and the first table of the first listing
    that has a match is returned: the match of bronze if there is
    one; else, bronze having failed or matched nothing, the match of
    silver; else that of gold; and with no match and no dotted
    reference in the message, nothing. A table matches when its name
    in lower case occurs in the lower-cased message, or when its name
    in lower case with every "raw_" and then every "stg_" removed does
    and has more than two characters; with two characters or fewer
    left, only the whole name counts. So a message that has the name
    of a bronze table resolves to a table of bronze (the first of its
    listing that matches), also when silver has a table of that name;
    and a listing that fails is skipped. *)
Theorem table_resolution (message : string) (a : Agent W) :
  let r := Str.lower message in
  (forall tables w t,
      list_tables svc "bronze" (world a) = (Ok tables, w) ->
      scan_tables r tables = Some t ->
      fst (_identify_table svc message a) = Ok (Some (t, "bronze")))
  /\ (forall tables w t,
         list_tables svc "bronze" (world a) = (Ok tables, w) ->
         In t tables ->
         Str.contains (Str.lower t) r = true ->
         exists t', In t' tables /\ table_matches r t' = true
                    /\ fst (_identify_table svc message a)
                       = Ok (Some (t', "bronze")))
  /\ (forall e w tables w' t,
         list_tables svc "bronze" (world a) = (Raise e, w) ->
         list_tables svc "silver" w = (Ok tables, w') ->
         scan_tables r tables = Some t ->
         fst (_identify_table svc message a) = Ok (Some (t, "silver")))
  /\ (forall tables t,
         scan_tables r tables = Some t <->
         exists before behind,
           tables = (before ++ t :: behind)%list
           /\ table_matches r t = true
           /\ Forall (fun x => table_matches r x = false) before)
  /\ (forall bronze w1 silver w2 gold w3,
         list_tables svc "bronze" (world a) = (bronze, w1) ->
         list_tables svc "silver" w1 = (silver, w2) ->
         list_tables svc "gold" w2 = (gold, w3) ->
         (forall t,
             first_match r bronze = Some t ->
             fst (_identify_table svc message a) = Ok (Some (t, "bronze")))
         /\ (forall t,
                first_match r bronze = None ->
                first_match r silver = Some t ->
                fst (_identify_table svc message a) = Ok (Some (t, "silver")))
         /\ (forall t,
                first_match r bronze = None ->
                first_match r silver = None ->
                first_match r gold = Some t ->
                fst (_identify_table svc message a) = Ok (Some (t, "gold")))
         /\ (first_match r bronze = None ->
             first_match r silver = None ->
             first_match r gold = None ->
             Re.search_dotted message = None ->
             fst (_identify_table svc message a) = Ok None))
  /\ (forall t,
         let stem :=
           Str.replace "stg_" EmptyString
             (Str.replace "raw_" EmptyString (Str.lower t)) in
         table_matches r t
         = Str.contains (Str.lower t) r
           || (Str.contains stem r && (2 <? String.length stem)%nat))
  /\ (forall t,
         String.length
           (Str.replace "stg_" EmptyString
              (Str.replace "raw_" EmptyString (Str.lower t))) <= 2 ->
         table_matches r t = Str.contains (Str.lower t) r).
Proof.
  cbv zeta. split; [|split; [|split; [|split; [|split; [|split]]]]].
  - intros tables w t Hl Hs. apply identify_table_found.
    eapply identify_in_found; eassumption.
  - intros tables w t Hl Hin Hc.
    assert (Hm : table_matches (Str.lower message) t = true)
      by (unfold table_matches; now rewrite Hc).
    destruct (scan_tables_some _ _ _ Hin Hm) as (t' & Hs & Hin').
    exists t'. split; [exact Hin'|]. split.
    + apply scan_tables_first in Hs. destruct Hs as (_ & _ & _ & H & _).
      exact H.
    + apply identify_table_found. eapply identify_in_found; eassumption.
  - intros e w tables w' t Hb Hl Hs. apply identify_table_found.
    unfold bronze_silver_gold. rewrite (identify_in_skips _ _ _ _ _ _ Hb).
    eapply identify_in_found; [exact Hl|exact Hs].
  - intros tables t. apply scan_tables_first.
  - intros bronze w1 silver w2 gold w3 Hb Hs Hg.
    assert (E : fst (identify_in svc bronze_silver_gold (Str.lower message) a)
                = match first_match (Str.lower message) bronze,
                        first_match (Str.lower message) silver,
                        first_match (Str.lower message) gold with
                  | Some t, _, _ => Ok (Some (t, "bronze"))
                  | None, Some t, _ => Ok (Some (t, "silver"))
                  | None, None, Some t => Ok (Some (t, "gold"))
                  | None, None, None => Ok None
                  end).
    { unfold bronze_silver_gold.
      rewrite (identify_in_step _ _ _ _ _ _ Hb).
      destruct (first_match (Str.lower message) bronze); [reflexivity|].
      match goal with
      | |- context [identify_in svc _ _ ?b] =>
          rewrite (identify_in_step "silver" _ _ b silver w2 Hs)
      end.
      destruct (first_match (Str.lower message) silver); [reflexivity|].
      match goal with
      | |- context [identify_in svc _ _ ?b] =>
          rewrite (identify_in_step "gold" _ _ b gold w3 Hg)
      end.
      destruct (first_match (Str.lower message) gold); reflexivity. }
    repeat split.
    + intros t H1. apply identify_table_found. now rewrite E, H1.
    + intros t H1 H2. apply identify_table_found. now rewrite E, H1, H2.
    + intros t H1 H2 H3. apply identify_table_found.
      now rewrite E, H1, H2, H3.
    + intros H1 H2 H3 Hd. apply identify_table_none; [|exact Hd].
      now rewrite E, H1, H2, H3.
  - intros t. reflexivity.
  - intros t Hlen. unfold table_matches, clean_name.
    apply Nat.ltb_ge in Hlen.
    unfold Str.emp. rewrite Hlen, andb_false_r, orb_false_r. reflexivity.
Qed.

End Resolver.

Lemma table_resolution_witness :
  fst (_identify_table Sim.svc "Clean Raw_Customers please"
         (init (Sim.warehouse Sim.good_reply)))
  = Ok (Some ("raw_customers", "bronze"))
  /\ fst (_identify_table Sim.svc "dedupe the customers"
            (init (Sim.with_schemas [("silver", ["stg_customers"])])))
     = Ok (Some ("stg_customers", "silver"))
  /\ fst (_identify_table Sim.svc "sum the orders"
            (init (Sim.with_schemas
                     [("bronze", ["raw_customers"]); ("silver", []);
                      ("gold", ["orders"])])))
     = Ok (Some ("orders", "gold"))
  /\ table_matches (Str.lower "clean the id") "raw_id" = false.
Proof.
  split; [|split; [|split]].
  - destruct (table_resolution Sim.svc "Clean Raw_Customers please"
                (init (Sim.warehouse Sim.good_reply))) as (H & _).
    apply (H ["raw_customers"] (Sim.warehouse Sim.good_reply));
      vm_compute; reflexivity.
  - destruct (table_resolution Sim.svc "dedupe the customers"
                (init (Sim.with_schemas [("silver", ["stg_customers"])])))
      as (_ & _ & H & _).
    apply (H "SCHEMA_NOT_FOUND: bronze"
             (Sim.with_schemas [("silver", ["stg_customers"])])
             ["stg_customers"]
             (Sim.with_schemas [("silver", ["stg_customers"])]));
      vm_compute; reflexivity.
  - set (w := Sim.with_schemas
                [("bronze", ["raw_customers"]); ("silver", []);
                 ("gold", ["orders"])]).
    destruct (table_resolution Sim.svc "sum the orders" (init w))
      as (_ & _ & _ & _ & H & _).
    destruct (H (Ok ["raw_customers"]) w (Ok []) w (Ok ["orders"]) w)
      as (_ & _ & Hgold & _);
      [vm_compute; reflexivity | vm_compute; reflexivity
       | vm_compute; reflexivity | ].
    apply Hgold; vm_compute; reflexivity.
  - destruct (table_resolution Sim.svc "clean the id"
                (init (Sim.with_schemas []))) as (_ & _ & _ & _ & _ & _ & H).
    etransitivity; [apply (H "raw_id"); vm_compute; lia|].
    vm_compute. reflexivity.
Defined.

(** C6, as stated, fails. A name is not only relieved of a prefix:
    "my_raw_data" matches a message that has "my_data", which no
    prefix reading allows. And the table returned for a name that
    bronze and silver share need not be that table: an earlier table
    of bronze that matches too is returned instead. *)
Lemma resolution_is_not_by_prefix :
  table_matches_by_prefix (Str.lower "clean my_data") "my_raw_data" = false
  /\ fst (_identify_table Sim.svc "clean my_data"
            (init (Sim.with_schemas [("bronze", ["my_raw_data"])])))
     = Ok (Some ("my_raw_data", "bronze"))
  /\ fst (_identify_table Sim.svc "clean raw_customers"
            (init (Sim.with_schemas
                     [("bronze", ["raw"; "raw_customers"]);
                      ("silver", ["raw_customers"])])))
     = Ok (Some ("raw", "bronze")).
Proof. repeat split; vm_compute; reflexivity. Qed.

(** ** Plans *)

Lemma has_key_dict (k : string) (d : list (string * pyval)) :
  Py.has_key k (PDict d)
  = Ok (match Py.assoc k d with Some _ => true | None => false end).
Proof. reflexivity. Qed.

(** A decoded reply becomes a plan exactly when it is an object that
    has the keys "target_table" and "sql" and whose "estimated_impact",
    if any, is an object; the two values are taken as they are. *)
Lemma plan_of_data_accepts (data : pyval) (p : TransformPlan) :
  plan_of_data data = Ok p ->
  exists d,
    data = PDict d
    /\ Py.assoc "target_table" d = Some (target_table p)
    /\ Py.assoc "sql" d = Some (sql p).
Proof.
  unfold plan_of_data. destruct data as [| b | n | s | l | d]; simpl;
    try discriminate.
  - destruct (Str.contains "estimated_impact" s); discriminate.
  - destruct (existsb _ l); discriminate.
  - intros H. exists d. split; [reflexivity|].
    destruct (Py.assoc "estimated_impact" d) as [impact|]; simpl in H.
    + destruct impact; simpl in H; try discriminate.
      destruct (Py.assoc "target_table" d) as [tt|]; [|discriminate].
      destruct (Py.assoc "sql" d) as [q|]; [|discriminate].
      simpl in H. injection H as <-. split; reflexivity.
    + destruct (Py.assoc "target_table" d) as [tt|]; [|discriminate].
      destruct (Py.assoc "sql" d) as [q|]; [|discriminate].
      simpl in H. injection H as <-. split; reflexivity.
Qed.

Lemma plan_of_data_present (d : list (string * pyval)) (tt q : pyval) :
  Py.assoc "target_table" d = Some tt ->
  Py.assoc "sql" d = Some q ->
  match Py.assoc "estimated_impact" d with
  | None | Some (PDict _) => True
  | Some _ => False
  end ->
  exists p, plan_of_data (PDict d) = Ok p /\ target_table p = tt /\ sql p = q.
Proof.
  intros Ht Hq Hi. unfold plan_of_data. simpl.
  destruct (Py.assoc "estimated_impact" d) as [impact|]; simpl.
  - destruct impact; try contradiction. simpl. rewrite Ht, Hq. simpl.
    eexists. split; [reflexivity|]. split; reflexivity.
  - rewrite Ht, Hq. simpl. eexists. split; [reflexivity|]. split; reflexivity.
Qed.

(** C3, as the code has it. What is checked when a plan is parsed is
    that the reply decodes to an object with the keys "target_table"
    and "sql" (and an "estimated_impact" that is an object, if any): a
    reply without one of the keys is an error. The two values are not
    examined: any value becomes the target table or the statement of
    the plan, an empty statement too. Nothing is examined before the
    execution either: the statement of the pending plan is what is
    sent to the warehouse. *)
Theorem plan_needs_keys_only {W : Type} (svc : Services W)
        (d : list (string * pyval)) :
  (Py.assoc "target_table" d = None \/ Py.assoc "sql" d = None ->
   exists e, plan_of_data (PDict d) = Raise e)
  /\ (forall tt q,
         Py.assoc "target_table" d = Some tt ->
         Py.assoc "sql" d = Some q ->
         match Py.assoc "estimated_impact" d with
         | None | Some (PDict _) => True
         | Some _ => False
         end ->
         exists p,
           plan_of_data (PDict d) = Ok p /\ target_table p = tt /\ sql p = q)
  /\ (forall data p,
         plan_of_data data = Ok p ->
         exists d',
           data = PDict d'
           /\ Py.assoc "target_table" d' = Some (target_table p)
           /\ Py.assoc "sql" d' = Some (sql p))
  /\ (forall (a : Agent W) pt,
         pending_transform a = Some pt ->
         executions (calls_during a (snd (_execute_pending_transform svc a)))
         = [sql (plan pt)]).
Proof.
  split; [|split; [|split]].
  - intros H. destruct (plan_of_data (PDict d)) as [p|e] eqn:E.
    + apply plan_of_data_accepts in E.
      destruct E as (d' & Hd & Ht & Hq). injection Hd as <-.
      destruct H as [H|H]; congruence.
    + exists e. reflexivity.
  - intros tt q. apply plan_of_data_present.
  - apply plan_of_data_accepts.
  - intros a pt Hp.
    destruct (execute_pending svc a pt Hp) as (_ & _ & _ & l & Hl & He).
    now rewrite (calls_during_app _ _ l Hl).
Qed.

Lemma plan_needs_keys_only_witness :
  (exists e, plan_of_data (PDict [("sql", PStr "SELECT 1")]) = Raise e)
  /\ (exists p,
         plan_of_data (PDict [("target_table", PInt 7); ("sql", PNone)]) = Ok p
         /\ target_table p = PInt 7 /\ sql p = PNone)
  /\ executions (calls_during Sim.awaiting
                   (snd (_execute_pending_transform Sim.svc Sim.awaiting)))
     = [PStr Sim.create_sql].
Proof.
  split; [|split].
  - destruct (plan_needs_keys_only Sim.svc [("sql", PStr "SELECT 1")])
      as (H & _).
    apply H. left. reflexivity.
  - destruct (plan_needs_keys_only Sim.svc
                [("target_table", PInt 7); ("sql", PNone)])
      as (_ & H & _).
    apply H; [reflexivity|reflexivity|exact I].
  - destruct (plan_needs_keys_only Sim.svc []) as (_ & _ & _ & H).
    apply (H Sim.awaiting Sim.good_pending). vm_compute. reflexivity.
Defined.

(** C3, as stated, fails: a reply with an empty statement and a target
    that is no three-part name is returned as a plan. *)
Lemma hollow_plan_is_returned :
  exists p,
    fst (generate_transform_sql Sim.svc Sim.clean_request
           (source_schema Sim.good_pending)
           {| qr_columns := []; rows := []; qr_row_count := 0 |}
           "silver" "main" (init (Sim.warehouse Sim.hollow_reply)))
    = Ok p
    /\ sql p = PStr EmptyString
    /\ target_table p = PStr "t"
    /\ plan_well_formed p = false.
Proof. eexists. vm_compute. repeat split; reflexivity. Qed.

(** ** Case and padding of the command words *)

Lemma append_empty (s : string) : s ++ EmptyString = s.
Proof. induction s as [|c s IH]; simpl; [reflexivity|now rewrite IH]. Qed.

Lemma strip_solid (s : string) : solid s = true -> Str.strip s = s.
Proof.
  intros H.
  rewrite <- (strip_padded EmptyString s EmptyString H eq_refl eq_refl) at 2.
  simpl. now rewrite append_empty.
Qed.

Lemma no_dot_lower (s : string) : no_dot (Str.lower s) = no_dot s.
Proof.
  induction s as [|c s IH]; [reflexivity|].
  unfold no_dot, Str.lower in *. simpl.
  now rewrite lower_char_dot, IH.
Qed.

Lemma span_word_rest (s w : string) (c : ascii) (r : string) :
  Re.span_word s = (w, String c r) -> no_dot s = true ->
  Ascii.eqb c "." = false.
Proof.
  revert w. induction s as [|x s IH]; intros w H Hd; simpl in H.
  - discriminate.
  - unfold no_dot in Hd. simpl in Hd. apply andb_true_iff in Hd as [Hx Hs].
    destruct (Str.is_word x).
    + destruct (Re.span_word s) as [w' rest] eqn:E.
      injection H as _ ->. eapply IH; [reflexivity|exact Hs].
    + injection H as _ -> ->. now apply negb_true_iff in Hx.
Qed.

Lemma dotted_at_no_dot (s : string) : no_dot s = true -> Re.dotted_at s = None.
Proof.
  intros Hd. unfold Re.dotted_at.
  destruct (Re.span_word s) as [w rest] eqn:E.
  destruct w as [|x w]; [reflexivity|].
  destruct rest as [|c r]; [reflexivity|].
  now rewrite (span_word_rest _ _ _ _ E Hd).
Qed.

Lemma search_dotted_no_dot (s : string) :
  no_dot s = true -> Re.search_dotted s = None.
Proof.
  induction s as [|c s IH]; intros Hd.
  - reflexivity.
  - simpl Re.search_dotted. rewrite (dotted_at_no_dot _ Hd).
    apply IH. unfold no_dot in *. simpl in Hd.
    now apply andb_true_iff in Hd as [_ Hd].
Qed.

Section Variants.

Context {W : Type} (svc : Services W).

(** Two messages without dot that agree in lower case resolve alike. *)
Lemma identify_table_same (u w : string) (a : Agent W) :
  Str.lower u = Str.lower w -> no_dot u = true -> no_dot w = true ->
  _identify_table svc u a = _identify_table svc w a.
Proof.
  intros Hl Hu Hw. unfold _identify_table.
  now rewrite Hl, (search_dotted_no_dot _ Hu), (search_dotted_no_dot _ Hw).
Qed.

(** A message that no pattern matches and that has no action word is
    unclear, unless the resolver raises. *)
Lemma detect_intent_unclear (u : string) (a : Agent W) :
  unclear_word (Str.lower u) = true ->
  _detect_intent svc u a
  = match _identify_table svc u a with
    | (Ok _, a') => (Ok UNCLEAR, a')
    | (Raise e, a') => (Raise e, a')
    end.
Proof.
  unfold unclear_word. intros H.
  apply andb_true_iff in H as [H Ha]. apply andb_true_iff in H as [Hq Ht].
  apply negb_true_iff in Hq, Ht, Ha.
  unfold _detect_intent. rewrite Hq, Ht, Ha. unfold bind.
  destruct (_identify_table svc u a) as [[found|e] a']; [|reflexivity].
  cbv zeta. destruct (named found), (Str.count_words u <? 5)%nat; reflexivity.
Qed.

Lemma handle_unclear_intent_same (u w : string) (a : Agent W) :
  Str.lower u = Str.lower w -> no_dot u = true -> no_dot w = true ->
  _handle_unclear_intent svc u a = _handle_unclear_intent svc w a.
Proof.
  intros Hl Hu Hw. unfold _handle_unclear_intent, bind.
  rewrite (identify_table_same u w a Hl Hu Hw). reflexivity.
Qed.

(** Two messages whose stripped texts agree in lower case are answered
    alike, when that text is a literal command or can only be unclear. *)
Lemma chat_same (v w : string) (a : Agent W) :
  Str.lower (Str.strip v) = Str.lower (Str.strip w) ->
  no_dot (Str.strip v) = true ->
  no_dot (Str.strip w) = true ->
  no_describe (Str.lower (Str.strip w)) = true ->
  literal_command (Str.lower (Str.strip w))
  || unclear_word (Str.lower (Str.strip w)) = true ->
  chat svc v a = chat svc w a.
Proof.
  intros Hl Hv Hw Hd Hc. unfold chat. rewrite !bind_get, Hl.
  destruct (AgentState_eqb (state a) AWAITING_CONFIRMATION); [reflexivity|].
  unfold literal_command in Hc.
  destruct (Str.mem _ help_words); [reflexivity|].
  destruct (Str.mem _ tables_words); [reflexivity|].
  unfold no_describe in Hd. apply negb_true_iff in Hd. rewrite Hd.
  destruct (Str.mem _ status_words); [reflexivity|].
  simpl in Hc. unfold bind.
  rewrite (detect_intent_unclear (Str.strip v) a) by (now rewrite Hl).
  rewrite (detect_intent_unclear (Str.strip w) a) by exact Hc.
  rewrite (identify_table_same _ _ a Hl Hv Hw).
  destruct (_identify_table svc (Str.strip w) a) as [[found|e] a'];
    [|reflexivity].
  now apply handle_unclear_intent_same.
Qed.

Lemma chat_variant (v w : string) (a : Agent W) :
  variant v w ->
  solid w = true ->
  no_dot w = true ->
  no_describe (Str.lower w) = true ->
  literal_command (Str.lower w) || unclear_word (Str.lower w) = true ->
  chat svc v a = chat svc w a.
Proof.
  intros (l & u & r & -> & Hl & Hr & Hu) Hs Hd Hn Hc.
  assert (Hsu : solid u = true)
    by (rewrite <- solid_lower, Hu, solid_lower; exact Hs).
  assert (Ev : Str.strip (l ++ u ++ r) = u) by now apply strip_padded.
  assert (Ew : Str.strip w = w) by now apply strip_solid.
  apply chat_same; rewrite ?Ev, ?Ew; try assumption.
  rewrite <- no_dot_lower, Hu, no_dot_lower. exact Hd.
Qed.

(** C10. For every word that [chat] compares the message with, a
    message that differs from the word only in the case of its letters
    and in white space around it is handled as the word is, in every
    session: same answer, same agent afterwards. *)
Theorem command_words_ignore_case_and_padding
        (v w : string) (a : Agent W) :
  In w command_vocabulary ->
  variant v w ->
  chat svc v a = chat svc w a.
Proof.
  intros Hin Hv. unfold command_vocabulary in Hin. simpl in Hin.
  repeat (destruct Hin as [<-|Hin];
          [apply chat_variant; [exact Hv|reflexivity..]|]).
  contradiction.
Qed.

End Variants.

Lemma command_words_ignore_case_and_padding_witness :
  chat Sim.svc "  CoNfIrM  " Sim.awaiting = chat Sim.svc "confirm" Sim.awaiting
  /\ chat Sim.svc " Show Tables" (init (Sim.warehouse Sim.good_reply))
     = chat Sim.svc "show tables" (init (Sim.warehouse Sim.good_reply)).
Proof.
  split.
  - apply (command_words_ignore_case_and_padding Sim.svc "  CoNfIrM  " "confirm").
    + unfold command_vocabulary. simpl. tauto.
    + exists "  ", "CoNfIrM", "  ". repeat split; reflexivity.
  - apply (command_words_ignore_case_and_padding Sim.svc " Show Tables" "show tables").
    + unfold command_vocabulary. simpl. tauto.
    + exists " ", "Show Tables", EmptyString. repeat split; reflexivity.
Defined.

(** * More properties of the code *)

(** ** Which calls a turn makes *)

Lemma forallb_executions (l : list Call) :
  forallb is_read_or_model l = true -> executions l = [].
Proof.
  induction l as [|c l IH]; simpl; [reflexivity|].
  intros H. apply andb_true_iff in H as [Hc Hl].
  destruct c; try discriminate; simpl; auto.
Qed.

Lemma forallb_rev {A} (P : A -> bool) (l : list A) :
  forallb P (rev l) = forallb P l.
Proof.
  induction l as [|x l IH]; simpl; [reflexivity|].
  rewrite forallb_app, IH. simpl. rewrite andb_true_r. apply andb_comm.
Qed.

Lemma executions_app (l1 l2 : list Call) :
  executions (l1 ++ l2) = (executions l1 ++ executions l2)%list.
Proof. unfold executions. apply flat_map_app. Qed.

Section CallFrames.

Context {W : Type} (svc : Services W) (P : Call -> bool).

Lemma only_calls_refl (a : Agent W) : only_calls P a a.
Proof. exists []. split; reflexivity. Qed.

Lemma only_calls_trans (a b c : Agent W) :
  only_calls P a b -> only_calls P b c -> only_calls P a c.
Proof.
  intros (l1 & H1 & F1) (l2 & H2 & F2). exists (l2 ++ l1)%list. split.
  - rewrite H2, H1. apply app_assoc.
  - rewrite forallb_app, F1, F2. reflexivity.
Qed.

Lemma only_calls_ret {A} (x : A) : preserves (only_calls P) (@ret W A x).
Proof. intros a. apply only_calls_refl. Qed.

Lemma only_calls_raise {A} (e : string) :
  preserves (only_calls P) (@raise W A e).
Proof. intros a. apply only_calls_refl. Qed.

Lemma only_calls_lift {A} (r : result A) :
  preserves (only_calls P) (@lift W A r).
Proof. intros a. apply only_calls_refl. Qed.

Lemma only_calls_get : preserves (only_calls P) (@get W).
Proof. intros a. apply only_calls_refl. Qed.

Lemma only_calls_set_state (s : AgentState) :
  preserves (only_calls P) (@set_state W s).
Proof. intros a. exists []. split; reflexivity. Qed.

Lemma only_calls_set_pending (p : option PendingTransform) :
  preserves (only_calls P) (@set_pending_transform W p).
Proof. intros a. exists []. split; reflexivity. Qed.

Lemma only_calls_set_names (t : string * string) :
  preserves (only_calls P) (@set_last_mentioned_table W t).
Proof. intros a. exists []. split; reflexivity. Qed.

Lemma only_calls_service {A} (c : Call) (f : W -> result A * W) :
  P c = true -> preserves (only_calls P) (service c f).
Proof.
  intros Hc a. unfold service. destruct (f (world a)) as [r w'].
  exists [c]. simpl. split; [reflexivity|now rewrite Hc].
Qed.

End CallFrames.

(** One step of a proof about the calls of a method. *)
Ltac calls_step :=
  lazymatch goal with
  | |- preserves _ (bind _ _) => apply preserves_bind; [assumption| |intros]
  | |- preserves _ (try_except _ _) => apply preserves_try; [assumption| |intros]
  | |- preserves _ (attempt _) => apply preserves_attempt
  | |- preserves _ (ret _) => apply only_calls_ret
  | |- preserves _ (raise _) => apply only_calls_raise
  | |- preserves _ (lift _) => apply only_calls_lift
  | |- preserves _ get => apply only_calls_get
  | |- preserves _ (set_state _) => apply only_calls_set_state
  | |- preserves _ (set_pending_transform _) => apply only_calls_set_pending
  | |- preserves _ (set_last_mentioned_table _) => apply only_calls_set_names
  | |- preserves _ (service _ _) => apply only_calls_service; auto
  | |- preserves _ (match ?x with _ => _ end) => destruct x
  | |- preserves _ (let _ := _ in _) => cbv zeta
  end.

Ltac calls_frame := repeat (first [solve [auto] | calls_step]).

Section ReadCalls.

Context {W : Type} (svc : Services W) (P : Call -> bool).

Hypothesis P_list : forall s, P (CallListTables s) = true.
Hypothesis P_schema : forall t s, P (CallGetTableSchema t s) = true.
Hypothesis P_sample : forall t s n, P (CallGetSampleData t s n) = true.

Let R_trans := @only_calls_trans W P.

Lemma calls_list_tables (schema : string) :
  preserves (only_calls P) (db_list_tables svc schema).
Proof. unfold db_list_tables. calls_frame. Qed.

Lemma calls_table_exists (table schema : string) :
  preserves (only_calls P) (db_table_exists svc table schema).
Proof. pose proof calls_list_tables. unfold db_table_exists. calls_frame. Qed.

Lemma calls_get_table_schema (table schema : string) :
  preserves (only_calls P) (db_get_table_schema svc table schema).
Proof. unfold db_get_table_schema. calls_frame. Qed.

Lemma calls_get_sample_data (table schema : string) (n : nat) :
  preserves (only_calls P) (db_get_sample_data svc table schema n).
Proof. unfold db_get_sample_data. calls_frame. Qed.

Lemma calls_identify_in (schemas : list string) (request_lower : string) :
  preserves (only_calls P) (identify_in svc schemas request_lower).
Proof.
  pose proof calls_list_tables.
  induction schemas as [|s rest IH]; simpl; calls_frame.
Qed.

Lemma calls_identify_table (user_request : string) :
  preserves (only_calls P) (_identify_table svc user_request).
Proof.
  pose proof calls_identify_in. pose proof calls_table_exists.
  unfold _identify_table. calls_frame.
Qed.

Lemma calls_detect_intent (message : string) :
  preserves (only_calls P) (_detect_intent svc message).
Proof. pose proof calls_identify_table. unfold _detect_intent. calls_frame. Qed.

Lemma calls_collect_tables (fmt : string -> string -> string)
      (schemas : list string) :
  preserves (only_calls P) (collect_tables svc fmt schemas).
Proof.
  pose proof calls_list_tables.
  induction schemas as [|s rest IH]; simpl; calls_frame.
Qed.

Lemma calls_ask_which_table (action : string) :
  preserves (only_calls P) (_ask_which_table svc action).
Proof. pose proof calls_collect_tables. unfold _ask_which_table. calls_frame. Qed.

Lemma calls_ask_for_table_clarification (user_request : string) :
  preserves (only_calls P) (_ask_for_table_clarification svc user_request).
Proof.
  pose proof calls_collect_tables.
  unfold _ask_for_table_clarification. calls_frame.
Qed.

Lemma calls_list_rows (schema : string) (tables : list string) :
  preserves (only_calls P) (list_rows svc schema tables).
Proof.
  pose proof calls_get_table_schema.
  induction tables as [|t rest IH]; simpl; calls_frame.
Qed.

Lemma calls_list_schemas (schemas : list string) :
  preserves (only_calls P) (list_schemas svc schemas).
Proof.
  pose proof calls_list_tables. pose proof calls_list_rows.
  induction schemas as [|s rest IH]; simpl; calls_frame.
Qed.

Lemma calls_list_all : preserves (only_calls P) (_list_tables svc).
Proof. pose proof calls_list_schemas. unfold _list_tables. calls_frame. Qed.

Lemma calls_probe_schema (schemas : list string) (table : string) :
  preserves (only_calls P) (probe_schema svc schemas table).
Proof.
  pose proof calls_table_exists.
  induction schemas as [|s rest IH]; simpl; calls_frame.
Qed.

Lemma calls_describe_known (table schema : string) :
  preserves (only_calls P) (describe_known svc table schema).
Proof.
  pose proof calls_get_table_schema. pose proof calls_get_sample_data.
  unfold describe_known. calls_frame.
Qed.

Lemma calls_describe_table (table_ref : string) :
  preserves (only_calls P) (_describe_table svc table_ref).
Proof.
  pose proof calls_describe_known. pose proof calls_probe_schema.
  unfold _describe_table. calls_frame.
Qed.

Lemma calls_describe_table_columns (table schema : string) :
  preserves (only_calls P) (_describe_table_columns svc table schema).
Proof.
  pose proof calls_get_table_schema.
  unfold _describe_table_columns. calls_frame.
Qed.

Lemma calls_show_table_preview (table schema : string) :
  preserves (only_calls P) (_show_table_preview svc table schema).
Proof.
  pose proof calls_get_table_schema. pose proof calls_get_sample_data.
  unfold _show_table_preview. calls_frame.
Qed.

Lemma calls_show_status : preserves (only_calls P) (_show_status svc).
Proof. unfold _show_status. calls_frame. Qed.

Lemma calls_handle_unclear_intent (message : string) :
  preserves (only_calls P) (_handle_unclear_intent svc message).
Proof.
  pose proof calls_identify_table.
  unfold _handle_unclear_intent. calls_frame.
Qed.

Lemma calls_handle_question (question : string) :
  preserves (only_calls P) (_handle_question svc question).
Proof.
  pose proof calls_identify_table. pose proof calls_describe_table_columns.
  pose proof calls_show_table_preview. pose proof calls_ask_which_table.
  pose proof calls_list_all. pose proof calls_describe_table.
  unfold _handle_question. calls_frame.
Qed.

Hypothesis P_model : forall prompt, P (CallClaude prompt) = true.

Lemma calls_generate (req : string) (ts : TableSchema) (sample : QueryResult)
      (target cat : string) :
  preserves (only_calls P) (generate_transform_sql svc req ts sample target cat).
Proof. unfold generate_transform_sql, llm_call_claude. calls_frame. Qed.

Lemma calls_handle_transform_request (user_request : string) :
  preserves (only_calls P) (_handle_transform_request svc user_request).
Proof.
  pose proof calls_identify_table. pose proof calls_ask_for_table_clarification.
  pose proof calls_get_table_schema. pose proof calls_get_sample_data.
  pose proof calls_generate.
  unfold _handle_transform_request. calls_frame.
Qed.

(** Outside the confirmation, a turn only reads the warehouse and
    asks the model. *)
Lemma calls_chat_elsewhere (m : string) (a : Agent W) :
  state a <> AWAITING_CONFIRMATION ->
  only_calls P a (snd (chat svc m a)).
Proof.
  intros H. unfold chat. rewrite bind_get, (not_awaiting _ H).
  as_preserves.
  pose proof calls_list_all. pose proof calls_describe_table.
  pose proof calls_show_status. pose proof calls_detect_intent.
  pose proof calls_handle_question. pose proof calls_handle_transform_request.
  pose proof calls_handle_unclear_intent.
  calls_frame.
Qed.

End ReadCalls.

(** *** What the classifier reads, across backends *)

Section Backends.

Context {W1 W2 : Type} (svc1 : Services W1) (svc2 : Services W2).
Context (R : W1 -> W2 -> Prop).
Hypothesis R_lists : same_listings svc1 svc2 R.

Lemma alike_ret {A} (x : A) : alike R (@ret W1 A x) (@ret W2 A x).
Proof. intros a1 a2 H. split; [reflexivity|exact H]. Qed.

Lemma alike_bind {A B} (m1 : M W1 A) (m2 : M W2 A)
      (f1 : A -> M W1 B) (f2 : A -> M W2 B) :
  alike R m1 m2 -> (forall x, alike R (f1 x) (f2 x)) ->
  alike R (bind m1 f1) (bind m2 f2).
Proof.
  intros Hm Hf a1 a2 H. unfold bind.
  destruct (Hm a1 a2 H) as [Hr Hw].
  destruct (m1 a1) as [r1 b1], (m2 a2) as [r2 b2]. simpl in Hr, Hw. subst r2.
  destruct r1 as [x|e].
  - apply Hf. exact Hw.
  - split; [reflexivity|exact Hw].
Qed.

Lemma alike_attempt {A} (m1 : M W1 A) (m2 : M W2 A) :
  alike R m1 m2 -> alike R (attempt m1) (attempt m2).
Proof.
  intros Hm a1 a2 H. unfold attempt.
  destruct (Hm a1 a2 H) as [Hr Hw].
  destruct (m1 a1) as [r1 b1], (m2 a2) as [r2 b2]. simpl in *.
  split; [now rewrite Hr|exact Hw].
Qed.

Lemma alike_list_tables (schema : string) :
  alike R (db_list_tables svc1 schema) (db_list_tables svc2 schema).
Proof.
  intros a1 a2 H. unfold db_list_tables, service.
  destruct (R_lists schema _ _ H) as [Hr Hw].
  destruct (list_tables svc1 schema (world a1)) as [r1 w1].
  destruct (list_tables svc2 schema (world a2)) as [r2 w2].
  simpl in *. split; assumption.
Qed.

Lemma alike_identify_in (schemas : list string) (request_lower : string) :
  alike R (identify_in svc1 schemas request_lower)
          (identify_in svc2 schemas request_lower).
Proof.
  induction schemas as [|s rest IH]; simpl.
  - apply alike_ret.
  - apply alike_bind.
    + apply alike_attempt, alike_list_tables.
    + intros [tables|e]; [|exact IH].
      destruct (scan_tables request_lower tables); [apply alike_ret|exact IH].
Qed.

Lemma alike_identify_table (user_request : string) :
  alike R (_identify_table svc1 user_request)
          (_identify_table svc2 user_request).
Proof.
  unfold _identify_table. apply alike_bind.
  - apply alike_identify_in.
  - intros [r|]; [apply alike_ret|].
    destruct (Re.search_dotted user_request) as [[schema table]|];
      [|apply alike_ret].
    apply alike_bind.
    + unfold db_table_exists. apply alike_bind.
      * apply alike_list_tables.
      * intros x. apply alike_ret.
    + intros [|]; apply alike_ret.
Qed.

Lemma alike_detect_intent (message : string) :
  alike R (_detect_intent svc1 message) (_detect_intent svc2 message).
Proof.
  unfold _detect_intent.
  destruct (matches_any question_patterns _); [apply alike_ret|].
  destruct (matches_any transform_patterns _); [apply alike_ret|].
  apply alike_bind; [apply alike_identify_table|].
  intros found. cbv zeta.
  destruct (named found);
    [destruct (Str.any_in action_words (Str.lower message))|];
    try destruct (Str.count_words message <? 5)%nat; apply alike_ret.
Qed.

End Backends.

Lemma is_listing_list (s : string) : is_listing (CallListTables s) = true.
Proof. reflexivity. Qed.


Lemma sim_same_listings :
  same_listings Sim.svc listing_only_svc
    (fun w1 w2 => Sim.schemas w1 = Sim.schemas w2).
Proof.
  intros schema w1 w2 H. simpl. unfold Sim.sim_list_tables. rewrite H.
  destruct (Sim.tables_of schema (Sim.schemas w2)); split; auto.
Qed.




Lemma is_read_or_model_list (s : string) : is_read_or_model (CallListTables s) = true.
Proof. reflexivity. Qed.

Lemma is_read_or_model_schema (t s : string) :
  is_read_or_model (CallGetTableSchema t s) = true.
Proof. reflexivity. Qed.

Lemma is_read_or_model_sample (t s : string) (n : nat) :
  is_read_or_model (CallGetSampleData t s n) = true.
Proof. reflexivity. Qed.

Lemma is_read_or_model_model (prompt : string) :
  is_read_or_model (CallClaude prompt) = true.
Proof. reflexivity. Qed.

Section Safety.

Context {W : Type} (svc : Services W).

Lemma calls_during_same (a a' : Agent W) :
  calls a' = calls a -> calls_during a a' = [].
Proof. intros H. now rewrite (calls_during_app a a' []). Qed.

Lemma calls_elsewhere (m : string) (a : Agent W) :
  state a <> AWAITING_CONFIRMATION ->
  exists l, calls (after svc m a) = (l ++ calls a)%list
            /\ forallb is_read_or_model l = true.
Proof.
  intros H.
  apply (calls_chat_elsewhere svc is_read_or_model
           is_read_or_model_list is_read_or_model_schema
           is_read_or_model_sample is_read_or_model_model m a H).
Qed.

(** The calls of a turn that starts while the agent awaits the
    confirmation. *)
Lemma calls_awaiting (m : string) (a : Agent W) :
  state a = AWAITING_CONFIRMATION ->
  calls (after svc m a) = calls a
  \/ (Str.mem (Str.lower (Str.strip m)) confirm_words = true
      /\ exists pt l,
           pending_transform a = Some pt
           /\ calls (after svc m a) = (l ++ calls a)%list
           /\ executions (rev l) = [sql (plan pt)]).
Proof.
  intros Hs. unfold after. rewrite (chat_awaiting svc m a Hs).
  destruct (Str.mem _ confirm_words) eqn:Hc.
  - destruct (pending_transform a) as [pt|] eqn:Hp.
    + right. split; [reflexivity|].
      destruct (execute_pending svc a pt Hp) as (_ & _ & _ & l & Hl & He).
      exists pt, l. auto.
    + left. now destruct (execute_nothing svc a Hp) as (_ & _ & _ & H).
  - left. destruct (Str.mem _ cancel_words).
    + rewrite cancel_pending. reflexivity.
    + destruct (Str.mem _ show_sql_words).
      * now rewrite show_pending_sql.
      * reflexivity.
Qed.

(** X1. A statement reaches [execute_command] only in a turn that
    starts in AWAITING_CONFIRMATION with a confirm word, and it is
    then the statement of the pending plan, once: no other message in
    any state makes the agent change the warehouse. *)
Theorem execution_needs_confirmation (m : string) (a : Agent W) :
  executions (calls_during a (after svc m a)) <> [] ->
  state a = AWAITING_CONFIRMATION
  /\ Str.mem (Str.lower (Str.strip m)) confirm_words = true
  /\ exists pt,
       pending_transform a = Some pt
       /\ executions (calls_during a (after svc m a)) = [sql (plan pt)].
Proof.
  intros Hx.
  destruct (AgentState_eqb (state a) AWAITING_CONFIRMATION) eqn:E.
  - apply awaiting_eqb in E. split; [exact E|].
    destruct (calls_awaiting m a E) as [Hsame|(Hc & pt & l & Hp & Hl & He)].
    + rewrite (calls_during_same _ _ Hsame) in Hx. now contradiction Hx.
    + split; [exact Hc|]. exists pt. split; [exact Hp|].
      now rewrite (calls_during_app _ _ l Hl).
  - assert (Hn : state a <> AWAITING_CONFIRMATION)
      by (intros Hc; rewrite Hc in E; discriminate).
    destruct (calls_elsewhere m a Hn) as (l & Hl & Hf).
    rewrite (calls_during_app _ _ l Hl) in Hx.
    rewrite forallb_executions in Hx by (now rewrite forallb_rev).
    now contradiction Hx.
Qed.

(** X2. Outside the confirmation a turn only lists tables, reads a
    schema or a sample, or asks the model: it sends neither a command
    nor a query of its own. *)
Theorem idle_turn_only_reads (m : string) (a : Agent W) :
  state a <> AWAITING_CONFIRMATION ->
  forallb is_read_or_model (calls_during a (after svc m a)) = true.
Proof.
  intros Hn. destruct (calls_elsewhere m a Hn) as (l & Hl & Hf).
  rewrite (calls_during_app _ _ l Hl). now rewrite forallb_rev.
Qed.

(** X3. A confirmed plan runs once: after the confirm word, whatever
    message follows, the two turns together have sent the statement
    of the plan to [execute_command] exactly once. *)
Theorem confirmed_plan_runs_once (m1 m2 : string) (a : Agent W)
        (pt : PendingTransform) :
  state a = AWAITING_CONFIRMATION ->
  pending_transform a = Some pt ->
  Str.mem (Str.lower (Str.strip m1)) confirm_words = true ->
  executions (calls_during a (run svc [m1; m2] a)) = [sql (plan pt)].
Proof.
  intros Hs Hp Hc. simpl run.
  assert (H1 : exists l, calls (after svc m1 a) = (l ++ calls a)%list
                         /\ executions (rev l) = [sql (plan pt)]
                         /\ state (after svc m1 a) = IDLE).
  { unfold after. rewrite (chat_awaiting svc m1 a Hs), Hc.
    destruct (execute_pending svc a pt Hp) as (Hi & _ & _ & l & Hl & He).
    exists l. auto. }
  destruct H1 as (l1 & Hl1 & He1 & Hi).
  assert (Hn : state (after svc m1 a) <> AWAITING_CONFIRMATION)
    by (rewrite Hi; discriminate).
  destruct (calls_elsewhere m2 _ Hn) as (l2 & Hl2 & Hf2).
  rewrite (calls_during_app a _ (l2 ++ l1)%list)
    by (rewrite Hl2, Hl1; apply app_assoc).
  rewrite rev_app_distr, executions_app, He1.
  rewrite forallb_executions by (now rewrite forallb_rev).
  reflexivity.
Qed.

End Safety.

Lemma execution_needs_confirmation_witness :
  state Sim.awaiting = AWAITING_CONFIRMATION
  /\ Str.mem (Str.lower (Str.strip " RUN ")) confirm_words = true.
Proof.
  destruct (execution_needs_confirmation Sim.svc " RUN " Sim.awaiting)
    as (H1 & H2 & _).
  - vm_compute. discriminate.
  - split; assumption.
Defined.

Lemma idle_turn_only_reads_witness :
  forallb is_read_or_model
    (calls_during (init (Sim.warehouse Sim.good_reply))
       (after Sim.svc Sim.clean_request (init (Sim.warehouse Sim.good_reply))))
  = true.
Proof.
  apply (idle_turn_only_reads Sim.svc Sim.clean_request
           (init (Sim.warehouse Sim.good_reply))).
  vm_compute. discriminate.
Defined.

Lemma confirmed_plan_runs_once_witness :
  executions (calls_during Sim.awaiting (run Sim.svc ["yes"; "yes"] Sim.awaiting))
  = [PStr Sim.create_sql].
Proof.
  apply (confirmed_plan_runs_once Sim.svc "yes" "yes" Sim.awaiting
           Sim.good_pending); vm_compute; reflexivity.
Defined.

(** ** What a turn leaves alone *)

Lemma same_attributes_trans {W} (a b c : Agent W) :
  same_attributes a b -> same_attributes b c -> same_attributes a c.
Proof.
  intros (H1 & H2 & H3 & H4) (H5 & H6 & H7 & H8).
  repeat split; congruence.
Qed.

Lemma keeps_last_result_attributes {W} (a a' : Agent W) :
  same_attributes a a' -> keeps_last_result a a'.
Proof. intros (_ & _ & H & _). exact H. Qed.

Lemma keeps_last_result_trans {W} (a b c : Agent W) :
  keeps_last_result a b -> keeps_last_result b c -> keeps_last_result a c.
Proof. unfold keeps_last_result. congruence. Qed.

Lemma describe_is_no_literal (word : string) :
  literal_command word = true ->
  Str.startswith "describe " word || Str.startswith "desc " word = false.
Proof.
  unfold literal_command. intros H.
  apply orb_true_iff in H as [H|H]; [apply orb_true_iff in H as [H|H]|];
    each_word H; rewrite H; reflexivity.
Qed.

Section Untouched.

Context {W : Type} (svc : Services W).

(** X4. In a session that is not awaiting a confirmation, the literal
    commands help, ?, show tables, list tables, tables, status and
    state change none of the attributes of the session, whatever the
    warehouse answers. *)
Theorem literal_commands_keep_session (m : string) (a : Agent W) :
  state a <> AWAITING_CONFIRMATION ->
  literal_command (Str.lower (Str.strip m)) = true ->
  same_attributes a (after svc m a).
Proof.
  intros Hn Hc. unfold after, chat. rewrite bind_get, (not_awaiting _ Hn).
  pose proof (fun a a' (H : @same_attributes W a a') => H) as Ra.
  pose proof (@same_attributes_trans W) as Rt.
  rewrite (describe_is_no_literal _ Hc).
  unfold literal_command in Hc.
  destruct (Str.mem _ help_words); [repeat split|].
  destruct (Str.mem _ tables_words).
  - apply (frame_list_all svc _ Ra Rt).
  - cbn [orb] in Hc. rewrite Hc. apply (frame_show_status svc _ Ra Rt).
Qed.

Lemma transform_request_last_result (user_request : string) :
  preserves keeps_last_result (_handle_transform_request svc user_request).
Proof.
  pose proof (@keeps_last_result_attributes W) as R_attributes.
  pose proof (@keeps_last_result_trans W) as R_trans.
  assert (R_names : forall t, preserves (@keeps_last_result W)
                                        (set_last_mentioned_table t))
    by (intros t a; reflexivity).
  assert (R_pending : forall p, preserves (@keeps_last_result W)
                                          (set_pending_transform p))
    by (intros p a; reflexivity).
  assert (R_state : forall s, preserves (@keeps_last_result W) (set_state s))
    by (intros s a; reflexivity).
  pose proof (frame_identify_table svc _ R_attributes R_trans).
  pose proof (frame_ask_for_table_clarification svc _ R_attributes R_trans).
  pose proof (frame_get_table_schema svc _ R_attributes).
  pose proof (frame_get_sample_data svc _ R_attributes).
  pose proof (frame_generate svc _ R_attributes R_trans).
  unfold _handle_transform_request. frame.
Qed.

Lemma chat_elsewhere_last_result (m : string) (a : Agent W) :
  state a <> AWAITING_CONFIRMATION ->
  keeps_last_result a (snd (chat svc m a)).
Proof.
  intros H. unfold chat. rewrite bind_get, (not_awaiting _ H).
  as_preserves.
  pose proof (@keeps_last_result_attributes W) as Ra.
  pose proof (@keeps_last_result_trans W) as Rt.
  assert (Rn : forall t, preserves (@keeps_last_result W)
                                   (set_last_mentioned_table t))
    by (intros t b; reflexivity).
  pose_frames svc Ra Rt Rn.
  pose proof transform_request_last_result.
  frame.
Qed.

(** The record that an execution leaves. *)
Lemma execute_last_result (a : Agent W) (pt : PendingTransform) :
  pending_transform a = Some pt ->
  last_result (snd (_execute_pending_transform svc a)) = last_result a
  \/ exists n,
       last_result (snd (_execute_pending_transform svc a))
       = Some (success_record (plan pt) n).
Proof.
  intros Hp. unfold _execute_pending_transform.
  rewrite bind_get, Hp.
  unfold bind, try_except, set_state, set_pending_transform, set_last_result,
    db_execute_command, db_execute_query, service, lift, ret. simpl.
  destruct (execute_command svc (sql (plan pt)) (world a)) as [[[]|e] w1]; simpl.
  - destruct (execute_query svc _ w1) as [[q|e] w2]; simpl.
    + destruct (first_cell q) as [n|e]; simpl.
      * right. exists n.
        destruct (_format_success_message _ n) as [t|e]; reflexivity.
      * left. reflexivity.
    + left. reflexivity.
  - left. reflexivity.
Qed.

(** The record that an execution leaves, from what the warehouse
    answers. *)
Lemma execute_last_result_exact (a : Agent W) (pt : PendingTransform) :
  pending_transform a = Some pt ->
  last_result (snd (_execute_pending_transform svc a))
  = match execute_command svc (sql (plan pt)) (world a) with
    | (Ok _, w1) =>
        match execute_query svc
                ("SELECT COUNT(*) FROM " ++ Py.str (target_table (plan pt)))
                w1 with
        | (Ok q, _) =>
            match first_cell q with
            | Ok n => Some (success_record (plan pt) n)
            | Raise _ => last_result a
            end
        | (Raise _, _) => last_result a
        end
    | (Raise _, _) => last_result a
    end.
Proof.
  intros Hp. unfold _execute_pending_transform.
  rewrite bind_get, Hp.
  unfold bind, try_except, set_state, set_pending_transform, set_last_result,
    db_execute_command, db_execute_query, service, lift, ret. simpl.
  destruct (execute_command svc (sql (plan pt)) (world a)) as [[[]|e] w1]; simpl.
  - destruct (execute_query svc _ w1) as [[q|e] w2]; simpl.
    + destruct (first_cell q) as [n|e]; simpl.
      * destruct (_format_success_message _ n) as [t|e]; reflexivity.
      * reflexivity.
    + reflexivity.
  - reflexivity.
Qed.

(** X5. The last result changes in one kind of turn only: a confirm
    word while a plan awaits the confirmation; it then records a
    success with the target table and the statement of that plan.
    Every other turn leaves it as it was. In a confirmed execution
    the record is written exactly when the command returns, the count
    query returns and its first cell can be read (no row counts as
    0), with that cell as the number of rows; when the command
    raises, the count query raises or the first row is empty, the
    last result stays as it was. *)
Theorem last_result_records_confirmed_plan (m : string) (a : Agent W) :
  (last_result (after svc m a) = last_result a
   \/ (state a = AWAITING_CONFIRMATION
       /\ Str.mem (Str.lower (Str.strip m)) confirm_words = true
       /\ exists pt n,
            pending_transform a = Some pt
            /\ last_result (after svc m a)
               = Some (success_record (plan pt) n)))
  /\ (forall pt,
         state a = AWAITING_CONFIRMATION ->
         pending_transform a = Some pt ->
         Str.mem (Str.lower (Str.strip m)) confirm_words = true ->
         last_result (after svc m a)
         = match execute_command svc (sql (plan pt)) (world a) with
           | (Ok _, w1) =>
               match execute_query svc
                       ("SELECT COUNT(*) FROM "
                        ++ Py.str (target_table (plan pt))) w1 with
               | (Ok q, _) =>
                   match rows q with
                   | [] => Some (success_record (plan pt) (PInt 0))
                   | (n :: _) :: _ => Some (success_record (plan pt) n)
                   | [] :: _ => last_result a
                   end
               | (Raise _, _) => last_result a
               end
           | (Raise _, _) => last_result a
           end).
Proof.
  split.
  - unfold after.
    destruct (AgentState_eqb (state a) AWAITING_CONFIRMATION) eqn:E.
    + apply awaiting_eqb in E. rewrite (chat_awaiting svc m a E).
      destruct (Str.mem _ confirm_words) eqn:Hc.
      * destruct (pending_transform a) as [pt|] eqn:Hp.
        -- destruct (execute_last_result a pt Hp) as [H|(n & H)].
           ++ left. exact H.
           ++ right. split; [exact E|]. split; [reflexivity|].
              exists pt, n. auto.
        -- left. unfold _execute_pending_transform. rewrite bind_get, Hp.
           reflexivity.
      * left. destruct (Str.mem _ cancel_words).
        -- rewrite cancel_pending. reflexivity.
        -- destruct (Str.mem _ show_sql_words).
           ++ now rewrite show_pending_sql.
           ++ reflexivity.
    + left. apply chat_elsewhere_last_result.
      intros Hc. rewrite Hc in E. discriminate.
  - intros pt Hs Hp Hc. unfold after.
    rewrite (chat_awaiting svc m a Hs), Hc.
    rewrite (execute_last_result_exact a pt Hp).
    destruct (execute_command svc (sql (plan pt)) (world a)) as [[[]|e] w1];
      [|reflexivity].
    destruct (execute_query svc _ w1) as [[q|e] w2]; [|reflexivity].
    unfold first_cell. destruct (rows q) as [|[|n row] more]; reflexivity.
Qed.

End Untouched.

Lemma last_result_records_confirmed_plan_witness :
  last_result (after Sim.svc "yes" Sim.awaiting)
  = Some (success_record Sim.good_plan (PInt 2))
  /\ last_result (after Sim.svc "yes" Sim.awaiting_failure) = None.
Proof.
  split.
  - destruct (last_result_records_confirmed_plan Sim.svc "yes" Sim.awaiting)
      as [_ H].
    rewrite (H Sim.good_pending); vm_compute; reflexivity.
  - destruct (last_result_records_confirmed_plan Sim.svc "yes"
                Sim.awaiting_failure) as [_ H].
    rewrite (H Sim.good_pending); vm_compute; reflexivity.
Defined.

Lemma literal_commands_keep_session_witness :
  same_attributes (init (Sim.warehouse Sim.good_reply))
    (after Sim.svc " Show Tables " (init (Sim.warehouse Sim.good_reply))).
Proof.
  apply (literal_commands_keep_session Sim.svc " Show Tables "
           (init (Sim.warehouse Sim.good_reply))).
  - vm_compute. discriminate.
  - vm_compute. reflexivity.
Defined.

(** ** Which turns cannot raise *)

Section Answers.

Context {W : Type} (svc : Services W).

Lemma answers_ret {A} (x : A) : answers (@ret W A x).
Proof. intros a. exists x. reflexivity. Qed.

Lemma answers_bind {A B} (m : M W A) (f : A -> M W B) :
  answers m -> (forall x, answers (f x)) -> answers (bind m f).
Proof.
  intros Hm Hf a. unfold bind. destruct (Hm a) as (x & Hx).
  destruct (m a) as [r a']. simpl in Hx. subst r. apply Hf.
Qed.

Lemma answers_attempt {A} (m : M W A) : answers (attempt m).
Proof.
  intros a. unfold attempt. destruct (m a) as [r a']. exists r. reflexivity.
Qed.

(** [try: ... except Exception as e: return text]. *)
Lemma answers_try {A} (m : M W A) (h : string -> M W A) :
  (forall e, answers (h e)) -> answers (try_except m h).
Proof.
  intros Hh a. unfold try_except. destruct (m a) as [[x|e] a'].
  - exists x. reflexivity.
  - apply Hh.
Qed.

Lemma answers_identify_in (schemas : list string) (request_lower : string) :
  answers (identify_in svc schemas request_lower).
Proof.
  induction schemas as [|s rest IH]; simpl.
  - apply answers_ret.
  - apply answers_bind; [apply answers_attempt|].
    intros [tables|e]; [|exact IH].
    destruct (scan_tables request_lower tables); [apply answers_ret|exact IH].
Qed.

(** When every listing fails, the scan finds nothing. *)
Lemma identify_in_unreachable (schemas : list string) (request_lower : string)
      (a : Agent W) :
  (forall s w, exists e w', list_tables svc s w = (Raise e, w')) ->
  fst (identify_in svc schemas request_lower a) = Ok None.
Proof.
  intros Hdown. revert a. induction schemas as [|s rest IH]; intros a.
  - reflexivity.
  - destruct (Hdown s (world a)) as (e & w' & He).
    rewrite (identify_in_skips svc _ _ _ _ _ _ He). apply IH.
Qed.

(** X6. The scan of the three schemas never raises, whatever the
    listings do; resolving a message without dot never raises either,
    and finds nothing when every listing fails. *)
Theorem resolution_survives_listing_failures (message : string) (a : Agent W) :
  (exists r, fst (identify_in svc bronze_silver_gold (Str.lower message) a) = Ok r)
  /\ (no_dot message = true ->
      (exists r, fst (_identify_table svc message a) = Ok r)
      /\ ((forall s w, exists e w', list_tables svc s w = (Raise e, w')) ->
          fst (_identify_table svc message a) = Ok None)).
Proof.
  split; [apply answers_identify_in|].
  intros Hd. unfold _identify_table, bind.
  rewrite (search_dotted_no_dot _ Hd). split.
  - destruct (answers_identify_in bronze_silver_gold (Str.lower message) a)
      as (r & Hr).
    destruct (identify_in svc bronze_silver_gold (Str.lower message) a)
      as [res a']. simpl in Hr. subst res.
    destruct r as [r|]; eexists; reflexivity.
  - intros Hdown.
    pose proof (identify_in_unreachable bronze_silver_gold
                  (Str.lower message) a Hdown) as Hr.
    destruct (identify_in svc bronze_silver_gold (Str.lower message) a)
      as [res a']. simpl in Hr. subst res. reflexivity.
Qed.

(** X7. The dotted reference. When no listed table matches and the
    message has a text of the form schema.table, the table is looked
    up in the listing of that schema by its exact name, in the case
    the message has it; and if that listing fails, the exception is
    not skipped as in the scan: [_identify_table] raises it. *)
Theorem dotted_reference_lookup (message schema table : string) (a : Agent W) :
  fst (identify_in svc bronze_silver_gold (Str.lower message) a) = Ok None ->
  Re.search_dotted message = Some (schema, table) ->
  let a1 := snd (identify_in svc bronze_silver_gold (Str.lower message) a) in
  (forall tables w,
      list_tables svc schema (world a1) = (Ok tables, w) ->
      fst (_identify_table svc message a)
      = Ok (if Str.mem table tables then Some (table, schema) else None))
  /\ (forall e w,
         list_tables svc schema (world a1) = (Raise e, w) ->
         fst (_identify_table svc message a) = Raise e).
Proof.
  intros Hscan Hdot. cbv zeta.
  assert (E : _identify_table svc message a
              = bind (db_table_exists svc table schema)
                  (fun ex => if ex then ret (Some (table, schema)) else ret None)
                  (snd (identify_in svc bronze_silver_gold (Str.lower message) a))).
  { unfold _identify_table. unfold bind at 1.
    destruct (identify_in svc bronze_silver_gold (Str.lower message) a)
      as [res a1]. simpl in Hscan. subst res. rewrite Hdot. reflexivity. }
  rewrite E.
  unfold db_table_exists, db_list_tables, bind, service, ret.
  split.
  - intros tables w Hl. rewrite Hl. destruct (Str.mem table tables); reflexivity.
  - intros e w Hl. rewrite Hl. reflexivity.
Qed.

Lemma answers_execute : answers (_execute_pending_transform svc).
Proof.
  intros a. unfold _execute_pending_transform. rewrite bind_get.
  destruct (pending_transform a) as [pt|]; [|eexists; reflexivity].
  unfold bind, try_except, set_state, set_pending_transform, set_last_result,
    db_execute_command, db_execute_query, service, lift, ret. simpl.
  destruct (execute_command svc (sql (plan pt)) (world a)) as [[[]|e] w1]; simpl;
    [|eexists; reflexivity].
  destruct (execute_query svc _ w1) as [[q|e] w2]; simpl;
    [|eexists; reflexivity].
  destruct (first_cell q) as [n|e]; simpl; [|eexists; reflexivity].
  destruct (_format_success_message _ n) as [t|e]; eexists; reflexivity.
Qed.

Lemma answers_list_rows (schema : string) (tables : list string) :
  answers (list_rows svc schema tables).
Proof.
  induction tables as [|t rest IH]; simpl; [apply answers_ret|].
  apply answers_bind.
  - apply answers_try. intros e. apply answers_ret.
  - intros line. apply answers_bind; [exact IH|]. intros more. apply answers_ret.
Qed.

Lemma answers_list_schemas (schemas : list string) :
  answers (list_schemas svc schemas).
Proof.
  induction schemas as [|s rest IH]; simpl; [apply answers_ret|].
  apply answers_bind; [apply answers_attempt|]. intros r.
  apply answers_bind.
  - destruct r as [[|t ts]|e]; try apply answers_ret.
    apply answers_bind; [apply answers_list_rows|]. intros ls. apply answers_ret.
  - intros here. apply answers_bind; [exact IH|]. intros more. apply answers_ret.
Qed.

Lemma answers_list_all : answers (_list_tables svc).
Proof.
  unfold _list_tables. apply answers_bind; [apply answers_list_schemas|].
  intros ls. apply answers_ret.
Qed.

Lemma answers_transform_request (user_request : string) :
  answers (_handle_transform_request svc user_request).
Proof.
  unfold _handle_transform_request. apply answers_try.
  intros e. apply answers_ret.
Qed.

(** X8. While the agent awaits the confirmation, [chat] always
    returns an answer: a failing command, a failing count and a count
    that cannot be formatted all end in a text, never in an exception. *)
Theorem awaiting_turn_always_answers (m : string) (a : Agent W) :
  state a = AWAITING_CONFIRMATION ->
  exists text, response svc m a = Ok text.
Proof.
  intros Hs. unfold response. rewrite (chat_awaiting svc m a Hs).
  destruct (Str.mem _ confirm_words); [apply answers_execute|].
  destruct (Str.mem _ cancel_words); [eexists; reflexivity|].
  destruct (Str.mem _ show_sql_words); [|eexists; reflexivity].
  unfold _show_pending_sql. rewrite bind_get.
  destruct (pending_transform a); eexists; reflexivity.
Qed.

(** X9. Outside the confirmation, two kinds of message always get an
    answer, whatever the warehouse and the model do: the table listing
    (show tables, list tables, tables), which leaves out what cannot
    be listed, and a message that a transform pattern matches and no
    question pattern, whose failures are reported as a text. *)
Theorem listing_and_transform_always_answer (m : string) (a : Agent W) :
  state a <> AWAITING_CONFIRMATION ->
  Str.mem (Str.lower (Str.strip m)) tables_words = true
  \/ (literal_command (Str.lower (Str.strip m)) = false
      /\ no_describe (Str.lower (Str.strip m)) = true
      /\ matches_any question_patterns (Str.lower (Str.strip m)) = false
      /\ matches_any transform_patterns (Str.lower (Str.strip m)) = true) ->
  exists text, response svc m a = Ok text.
Proof.
  intros Hn Hw. unfold response, chat.
  rewrite bind_get, (not_awaiting _ Hn).
  destruct Hw as [Ht|(Hl & Hd & Hq & Ht)].
  - destruct (Str.mem _ help_words); [eexists; reflexivity|].
    rewrite Ht. apply answers_list_all.
  - unfold literal_command in Hl.
    apply orb_false_iff in Hl as [Hl Hs]. apply orb_false_iff in Hl as [Hh Hl].
    rewrite Hh, Hl, Hs. unfold no_describe in Hd.
    apply negb_true_iff in Hd. rewrite Hd.
    unfold bind, _detect_intent. rewrite Hq, Ht. simpl.
    apply answers_transform_request.
Qed.

End Answers.

Lemma resolution_survives_listing_failures_witness :
  no_dot "clean the orders" = true
  /\ fst (_identify_table unreachable_svc "clean the orders"
            (init (Sim.warehouse Sim.good_reply)))
     = Ok None.
Proof.
  split; [reflexivity|].
  destruct (resolution_survives_listing_failures unreachable_svc
              "clean the orders" (init (Sim.warehouse Sim.good_reply)))
    as (_ & H).
  destruct (H eq_refl) as (_ & H').
  apply H'. intros s w. exists "connection refused", w. reflexivity.
Defined.

Lemma dotted_reference_lookup_witness :
  fst (_identify_table Sim.svc "clean archive.Orders"
         (init (Sim.with_schemas [("archive", ["Orders"])])))
  = Ok (Some ("Orders", "archive"))
  /\ fst (_identify_table Sim.svc "clean archive.Orders"
            (init (Sim.with_schemas [("bronze", ["raw_customers"])])))
     = Raise "SCHEMA_NOT_FOUND: archive".
Proof.
  split.
  - destruct (dotted_reference_lookup Sim.svc "clean archive.Orders"
                "archive" "Orders"
                (init (Sim.with_schemas [("archive", ["Orders"])])))
      as (H & _); [vm_compute; reflexivity..|].
    apply (H ["Orders"] (Sim.with_schemas [("archive", ["Orders"])])).
    vm_compute. reflexivity.
  - destruct (dotted_reference_lookup Sim.svc "clean archive.Orders"
                "archive" "Orders"
                (init (Sim.with_schemas [("bronze", ["raw_customers"])])))
      as (_ & H); [vm_compute; reflexivity..|].
    apply (H "SCHEMA_NOT_FOUND: archive"
             (Sim.with_schemas [("bronze", ["raw_customers"])])).
    vm_compute. reflexivity.
Defined.

Lemma awaiting_turn_always_answers_witness :
  exists text, response Sim.svc "confirm" Sim.awaiting_failure = Ok text.
Proof.
  apply (awaiting_turn_always_answers Sim.svc "confirm" Sim.awaiting_failure).
  vm_compute. reflexivity.
Defined.

Lemma listing_and_transform_always_answer_witness :
  exists text,
    response unreachable_svc "Clean raw_customers and dedupe"
             (init (Sim.warehouse Sim.good_reply))
    = Ok text.
Proof.
  apply (listing_and_transform_always_answer unreachable_svc
           "Clean raw_customers and dedupe"
           (init (Sim.warehouse Sim.good_reply))).
  - vm_compute. discriminate.
  - right. repeat split; vm_compute; reflexivity.
Defined.

(** ** The target layer, again *)

Lemma lower_upper_char (c : ascii) :
  Str.lower_char (Str.upper_char c) = Str.lower_char c.
Proof. destruct c as [[] [] [] [] [] [] [] []]; reflexivity. Qed.

Lemma lower_upper (s : string) : Str.lower (Str.upper s) = Str.lower s.
Proof.
  induction s as [|c s IH]; [reflexivity|].
  unfold Str.lower, Str.upper in *. simpl.
  now rewrite lower_upper_char, IH.
Qed.

Lemma lower_lower_char (c : ascii) :
  Str.lower_char (Str.lower_char c) = Str.lower_char c.
Proof. destruct c as [[] [] [] [] [] [] [] []]; reflexivity. Qed.

Lemma lower_lower (s : string) : Str.lower (Str.lower s) = Str.lower s.
Proof.
  induction s as [|c s IH]; [reflexivity|].
  unfold Str.lower in *. simpl. now rewrite lower_lower_char, IH.
Qed.

(** X10. The target layer is always "silver" or "gold", never the
    layer of raw data; and for a request of ASCII characters the case
    of the letters does not matter: the request in capitals or in
    lower case gets the same layer as the request itself. *)
Theorem target_layer_range_and_case (user_request source_schema : string) :
  (_determine_target_layer user_request source_schema = "silver"
   \/ _determine_target_layer user_request source_schema = "gold")
  /\ (is_ascii user_request = true ->
      _determine_target_layer (Str.upper user_request) source_schema
      = _determine_target_layer user_request source_schema
      /\ _determine_target_layer (Str.lower user_request) source_schema
         = _determine_target_layer user_request source_schema).
Proof.
  split; [|intros _; split].
  - unfold _determine_target_layer.
    destruct (Str.contains "gold" _); [now right|].
    destruct (Str.contains "silver" _); [now left|].
    destruct (Str.any_in _ _); [now right|].
    destruct (String.eqb source_schema "bronze"); [now left|].
    destruct (String.eqb source_schema "silver"); [now right|now left].
  - unfold _determine_target_layer. now rewrite lower_upper.
  - unfold _determine_target_layer. now rewrite lower_lower.
Qed.

Lemma target_layer_range_and_case_witness :
  _determine_target_layer "BUILD A SALES REPORT" "bronze" = "gold"
  /\ _determine_target_layer "build a sales report" "bronze" = "gold".
Proof.
  destruct (target_layer_range_and_case "Build a Sales Report" "bronze")
    as [_ H].
  destruct (H eq_refl) as [H1 H2].
  split.
  - etransitivity; [exact H1|]. vm_compute. reflexivity.
  - etransitivity; [exact H2|]. vm_compute. reflexivity.
Defined.

(** ** Records decoded from a reply *)

(** X11. The optional fields of a plan. When a decoded reply becomes a
    plan, the transformations are the value of
    "transformations_applied" or the empty list, the explanation is
    the value of "explanation" or the empty text, and the estimate and
    the modified columns are read from the object under
    "estimated_impact", each being None when that object or its key is
    absent. *)
Theorem plan_optional_fields (d : list (string * pyval)) (p : TransformPlan) :
  plan_of_data (PDict d) = Ok p ->
  transformations_applied p
  = match Py.assoc "transformations_applied" d with
    | Some v => v
    | None => PList []
    end
  /\ explanation p
     = match Py.assoc "explanation" d with
       | Some v => v
       | None => PStr EmptyString
       end
  /\ estimated_rows_after p
     = match Py.assoc "estimated_impact" d with
       | Some (PDict i) =>
           match Py.assoc "estimated_rows_after" i with
           | Some v => v
           | None => PNone
           end
       | _ => PNone
       end
  /\ columns_modified p
     = match Py.assoc "estimated_impact" d with
       | Some (PDict i) =>
           match Py.assoc "columns_modified" i with
           | Some v => v
           | None => PNone
           end
       | _ => PNone
       end.
Proof.
  unfold plan_of_data. simpl.
  destruct (Py.assoc "estimated_impact" d) as [impact|]; simpl.
  - destruct impact; simpl; try discriminate.
    destruct (Py.assoc "target_table" d) as [tt|]; [|discriminate].
    destruct (Py.assoc "sql" d) as [q|]; [|discriminate].
    simpl. intros H. injection H as <-. simpl. auto.
  - destruct (Py.assoc "target_table" d) as [tt|]; [|discriminate].
    destruct (Py.assoc "sql" d) as [q|]; [|discriminate].
    simpl. intros H. injection H as <-. simpl. auto.
Qed.

Lemma plan_optional_fields_witness :
  transformations_applied Sim.good_plan = PList [PStr "dedupe"]
  /\ estimated_rows_after Sim.good_plan = PInt 2.
Proof.
  assert (E : Json.loads Sim.good_reply
              = Decoded (PDict
                      [("target_table", PStr "main.silver.customers_clean");
                       ("sql", PStr Sim.create_sql);
                       ("transformations_applied", PList [PStr "dedupe"]);
                       ("explanation", PStr "Removes duplicate rows");
                       ("estimated_impact",
                        PDict [("rows_before", PInt 3);
                               ("estimated_rows_after", PInt 2);
                               ("columns_modified", PList [])])]))
    by (vm_compute; reflexivity).
  destruct (plan_optional_fields
              [("target_table", PStr "main.silver.customers_clean");
               ("sql", PStr Sim.create_sql);
               ("transformations_applied", PList [PStr "dedupe"]);
               ("explanation", PStr "Removes duplicate rows");
               ("estimated_impact",
                PDict [("rows_before", PInt 3);
                       ("estimated_rows_after", PInt 2);
                       ("columns_modified", PList [])])]
              Sim.good_plan) as (H1 & _ & H3 & _).
  - vm_compute. reflexivity.
  - split; [exact H1|exact H3].
Defined.

(** X12. The two other records that [LLMService] decodes. A table
    identification needs all its four keys; a schedule needs
    "cron_expression" and "human_readable" and takes "UTC" for a
    missing "timezone". A reply that is no object, or lacks a needed
    key, raises. *)
Theorem reply_records_need_their_keys (data : pyval) :
  (forall t,
      identification_of_data data = Ok t ->
      exists d,
        data = PDict d
        /\ Py.assoc "source_schema" d = Some (ti_source_schema t)
        /\ Py.assoc "source_table" d = Some (ti_source_table t)
        /\ Py.assoc "target_schema" d = Some (ti_target_schema t)
        /\ Py.assoc "confidence" d = Some (confidence t))
  /\ (forall s,
         schedule_of_data data = Ok s ->
         exists d,
           data = PDict d
           /\ Py.assoc "cron_expression" d = Some (cron_expression s)
           /\ Py.assoc "human_readable" d = Some (human_readable s)
           /\ timezone s
              = match Py.assoc "timezone" d with
                | Some z => z
                | None => PStr "UTC"
                end)
  /\ (forall d,
         data = PDict d ->
         Py.assoc "cron_expression" d = None ->
         schedule_of_data data = Raise "'cron_expression'").
Proof.
  split; [|split].
  - intros t. unfold identification_of_data.
    destruct data as [| b | n | s | l | d]; simpl; try discriminate.
    intros H. exists d. revert H.
    destruct (Py.assoc "source_schema" d); [|discriminate].
    destruct (Py.assoc "source_table" d); [|discriminate].
    destruct (Py.assoc "target_schema" d); [|discriminate].
    destruct (Py.assoc "confidence" d); [|discriminate].
    simpl. intros H. injection H as <-. simpl.
    repeat split; reflexivity.
  - intros s. unfold schedule_of_data.
    destruct data as [| b | n | x | l | d]; simpl; try discriminate.
    intros H. exists d. revert H.
    destruct (Py.assoc "cron_expression" d); [|discriminate].
    destruct (Py.assoc "human_readable" d); [|discriminate].
    simpl. intros H. injection H as <-. simpl.
    repeat split; reflexivity.
  - intros d -> H. unfold schedule_of_data. simpl. rewrite H. reflexivity.
Qed.

Lemma reply_records_need_their_keys_witness :
  schedule_of_data (PDict [("human_readable", PStr "hourly")])
  = Raise "'cron_expression'"
  /\ exists s,
       schedule_of_data
         (PDict [("cron_expression", PStr "0 * * * *");
                 ("human_readable", PStr "hourly")]) = Ok s
       /\ timezone s = PStr "UTC".
Proof.
  split.
  - destruct (reply_records_need_their_keys
                (PDict [("human_readable", PStr "hourly")])) as (_ & _ & H).
    apply (H [("human_readable", PStr "hourly")]); reflexivity.
  - eexists. split; [reflexivity|].
    destruct (reply_records_need_their_keys
                (PDict [("cron_expression", PStr "0 * * * *");
                        ("human_readable", PStr "hourly")])) as (_ & H & _).
    destruct (H _ eq_refl) as (d & Hd & _ & _ & Hz).
    injection Hd as <-. exact Hz.
Defined.

(** ** The entry point of the application *)

Section AppTurns.

Context {W : Type} (svc : Services W).

Lemma app_chat_blank (connect : result W) (m : string)
      (agent : option (Agent W)) :
  Str.strip m = EmptyString ->
  app_chat svc connect m agent = ("Please enter a message.", agent).
Proof. intros H. unfold app_chat. now rewrite H. Qed.

Lemma app_chat_keeps_invariant (connect : result W) (m : string)
      (agent : option (Agent W)) :
  (forall a, agent = Some a -> session_invariant a) ->
  forall a', snd (app_chat svc connect m agent) = Some a' ->
             session_invariant a'.
Proof.
  intros Hinv a'. unfold app_chat.
  destruct (String.eqb (Str.strip m) EmptyString); [apply Hinv|].
  assert (Hturn : forall a, session_invariant a ->
            snd (match chat svc m a with
                 | (Ok response, a0) => (response, Some a0)
                 | (Raise e, a0) =>
                     ("❌ **Error:** " ++ e ++ Str.nl ++ Str.nl
                      ++ "Try `help` for available commands.", Some a0)
                 end) = Some a' ->
            session_invariant a').
  { intros a Ha H. pose proof (chat_keeps_invariant svc m a Ha) as Hk.
    unfold after in Hk. destruct (chat svc m a) as [[r|e] a0];
      simpl in H; injection H as <-; exact Hk. }
  destruct agent as [a|].
  - apply Hturn. now apply Hinv.
  - destruct connect as [w|e].
    + apply Hturn. apply init_invariant.
    + discriminate.
Qed.

(** X13. Through the entry point of the application: a message that
    is blank after stripping is answered without touching the agent
    (none is constructed for it either), and after any conversation,
    started without agent, the agent that exists keeps the invariant
    of the session, also after turns in which [chat] raised and after
    failed constructions. *)
Theorem app_conversation_keeps_invariant (turns : list (result W * string)) :
  (forall connect m agent,
      Str.strip m = EmptyString ->
      app_chat svc connect m agent = ("Please enter a message.", agent))
  /\ forall a, app_run svc turns None = Some a -> session_invariant a.
Proof.
  split; [intros connect m agent; apply app_chat_blank|].
  assert (H : forall (agent : option (Agent W)),
             (forall a, agent = Some a -> session_invariant a) ->
             forall a, app_run svc turns agent = Some a ->
                       session_invariant a).
  { induction turns as [|[connect m] rest IH]; intros agent Hinv a; simpl.
    - apply Hinv.
    - apply IH. intros a0. now apply app_chat_keeps_invariant. }
  apply H. discriminate.
Qed.

End AppTurns.

Lemma app_conversation_keeps_invariant_witness :
  exists a,
    app_run Sim.svc
      [(Raise "cannot connect", "help");
       (Ok (Sim.warehouse Sim.good_reply), "   ");
       (Ok (Sim.warehouse Sim.good_reply), Sim.clean_request);
       (Raise "cannot connect", "status")] None = Some a
    /\ state a = AWAITING_CONFIRMATION
    /\ session_invariant a.
Proof.
  eexists. split; [vm_compute; reflexivity|]. split; [reflexivity|].
  destruct (app_conversation_keeps_invariant Sim.svc
              [(Raise "cannot connect", "help");
               (Ok (Sim.warehouse Sim.good_reply), "   ");
               (Ok (Sim.warehouse Sim.good_reply), Sim.clean_request);
               (Raise "cannot connect", "status")]) as (_ & H).
  apply H. vm_compute. reflexivity.
Defined.

(** ** The host of the settings *)

Lemma replace_go_skip (old new x s : string) :
  Str.replace_go old new (String.length x) (x ++ s)
  = Str.replace_go old new 0 s.
Proof. induction x as [|c x IH]; simpl; [reflexivity|exact IH]. Qed.

Lemma prefix_no_colon (p s : string) :
  Str.startswith p s = true -> no_colon s = true -> no_colon p = true.
Proof.
  unfold no_colon. revert s. induction p as [|a p IH]; intros s; [reflexivity|].
  destruct s as [|b s]; [discriminate|].
  cbn [Str.startswith Str.all_str]. intros H Hs.
  apply andb_true_iff in H as [Hab Hp]. apply andb_true_iff in Hs as [Hb Hs].
  apply Ascii.eqb_eq in Hab. subst b. rewrite Hb. exact (IH s Hp Hs).
Qed.

Lemma no_colon_https (s : string) :
  no_colon s = true -> Str.startswith "https://" s = false.
Proof.
  intros H. destruct (Str.startswith "https://" s) eqn:E; [|reflexivity].
  pose proof (prefix_no_colon _ _ E H) as Hp. discriminate Hp.
Qed.

Lemma no_colon_http (s : string) :
  no_colon s = true -> Str.startswith "http://" s = false.
Proof.
  intros H. destruct (Str.startswith "http://" s) eqn:E; [|reflexivity].
  pose proof (prefix_no_colon _ _ E H) as Hp. discriminate Hp.
Qed.

Lemma no_colon_tail (c : ascii) (s : string) :
  no_colon (String c s) = true -> no_colon s = true.
Proof. unfold no_colon. simpl. intros H. now apply andb_true_iff in H. Qed.

Lemma no_colon_app (s t : string) :
  no_colon (s ++ t) = no_colon s && no_colon t.
Proof.
  unfold no_colon. induction s as [|c s IH]; simpl; [reflexivity|].
  now rewrite IH, andb_assoc.
Qed.

Lemma replace_https_plain (s : string) :
  no_colon s = true -> Str.replace "https://" Str.emp s = s.
Proof.
  unfold Str.replace. induction s as [|c s IH]; intros H; [reflexivity|].
  cbn [Str.replace_go]. rewrite (no_colon_https _ H).
  now rewrite (IH (no_colon_tail _ _ H)).
Qed.

Lemma replace_http_plain (s : string) :
  no_colon s = true -> Str.replace "http://" Str.emp s = s.
Proof.
  unfold Str.replace. induction s as [|c s IH]; intros H; [reflexivity|].
  cbn [Str.replace_go]. rewrite (no_colon_http _ H).
  now rewrite (IH (no_colon_tail _ _ H)).
Qed.

Lemma rstrip_char_cons (c x : ascii) (r : string) :
  rstrip_char c (String x r)
  = match rstrip_char c r with
    | EmptyString => if Ascii.eqb x c then EmptyString else Str.str1 x
    | String d y => String x (String d y)
    end.
Proof. reflexivity. Qed.

Lemma rstrip_char_plain (c : ascii) (s : string) :
  Str.endswith_char c s = false -> rstrip_char c s = s.
Proof.
  induction s as [|x s IH]; [reflexivity|].
  intros H. rewrite rstrip_char_cons. destruct s as [|y s].
  - simpl in *. now rewrite H.
  - rewrite (IH H). reflexivity.
Qed.

Lemma rstrip_char_one (c : ascii) (s : string) :
  rstrip_char c (s ++ Str.str1 c) = rstrip_char c s.
Proof.
  induction s as [|x s IH].
  - simpl. now rewrite Ascii.eqb_refl.
  - change (String x s ++ Str.str1 c) with (String x (s ++ Str.str1 c)).
    now rewrite !rstrip_char_cons, IH.
Qed.

(** X14. The host setting: for a host name without colon and without
    final slash, the name itself, the name behind "https://" or
    "http://", and either of those with a slash at the end are all
    cleaned to the name. *)
Theorem clean_host_of_url (h : string) :
  no_colon h = true ->
  Str.endswith_char "/" h = false ->
  clean_host h = h
  /\ clean_host ("https://" ++ h) = h
  /\ clean_host ("http://" ++ h) = h
  /\ clean_host ("https://" ++ h ++ "/") = h
  /\ clean_host ("http://" ++ h ++ "/") = h.
Proof.
  intros Hc He.
  assert (Hs : no_colon (h ++ "/") = true)
    by (rewrite no_colon_app, Hc; reflexivity).
  assert (E1 : forall s, no_colon s = true ->
                         Str.replace "https://" Str.emp ("https://" ++ s) = s).
  { intros s Hn. unfold Str.replace.
    change ("https://" ++ s) with (String "h" ("ttps://" ++ s)).
    cbn [Str.replace_go].
    change (Str.startswith "https://" (String "h" ("ttps://" ++ s)))
      with (Str.startswith "" s).
    cbn [Str.startswith]. destruct s; simpl Str.startswith;
      cbn [String.length Nat.sub];
      rewrite (replace_go_skip "https://" Str.emp "ttps://");
      apply (replace_https_plain _ Hn). }
  assert (E2 : forall s, no_colon s = true ->
                         Str.replace "http://" Str.emp ("http://" ++ s) = s).
  { intros s Hn. unfold Str.replace.
    change ("http://" ++ s) with (String "h" ("ttp://" ++ s)).
    cbn [Str.replace_go].
    change (Str.startswith "http://" (String "h" ("ttp://" ++ s)))
      with (Str.startswith "" s).
    cbn [Str.startswith]. destruct s; simpl Str.startswith;
      cbn [String.length Nat.sub];
      rewrite (replace_go_skip "http://" Str.emp "ttp://");
      apply (replace_http_plain _ Hn). }
  assert (E3 : forall s, no_colon s = true ->
                         Str.replace "https://" Str.emp ("http://" ++ s)
                         = "http://" ++ s).
  { intros s Hn. unfold Str.replace.
    change ("http://" ++ s)
      with (String "h" (String "t" (String "t" (String "p"
              (String ":" (String "/" (String "/" s))))))).
    cbn [Str.replace_go Str.startswith Ascii.eqb Bool.eqb andb].
    do 7 f_equal. apply (replace_https_plain _ Hn). }
  unfold clean_host. repeat split.
  - rewrite (replace_https_plain _ Hc), (replace_http_plain _ Hc).
    now apply rstrip_char_plain.
  - rewrite (E1 _ Hc), (replace_http_plain _ Hc). now apply rstrip_char_plain.
  - rewrite (E3 _ Hc), (E2 _ Hc). now apply rstrip_char_plain.
  - rewrite (E1 _ Hs), (replace_http_plain _ Hs).
    change (h ++ "/") with (h ++ Str.str1 "/").
    rewrite rstrip_char_one. now apply rstrip_char_plain.
  - rewrite (E3 _ Hs), (E2 _ Hs).
    change (h ++ "/") with (h ++ Str.str1 "/").
    rewrite rstrip_char_one. now apply rstrip_char_plain.
Qed.

Lemma clean_host_of_url_witness :
  clean_host "https://dbc-1234.cloud.databricks.com/"
  = "dbc-1234.cloud.databricks.com".
Proof.
  destruct (clean_host_of_url "dbc-1234.cloud.databricks.com")
    as (_ & _ & _ & H & _); [reflexivity|reflexivity|].
  exact H.
Defined.

(** ** Describing and planning *)

Section Describe.

Context {W : Type} (svc : Services W).

(** With a handler that returns a text, what is left of the agent is
    what the body left. *)
Lemma try_except_ret_snd {A} (m : M W A) (h : string -> A) (a : Agent W) :
  snd (try_except m (fun e => ret (h e)) a) = snd (m a).
Proof. unfold try_except. destruct (m a) as [[x|e] a']; reflexivity. Qed.

Lemma describe_known_remembers (table schema : string) (a : Agent W) :
  last_mentioned_table (snd (describe_known svc table schema a))
  = Some (table, schema)
  /\ exists text, fst (describe_known svc table schema a) = Ok text.
Proof.
  split.
  - unfold describe_known. rewrite try_except_ret_snd.
    unfold bind at 1. cbn [set_last_mentioned_table].
    match goal with
    | |- last_mentioned_table (snd (?rest ?a1)) = _ =>
        cut (preserves keeps_last_mentioned rest);
          [intros HP; exact (HP a1)|]
    end.
    pose proof (@keeps_last_mentioned_attributes W) as Ra.
    pose proof (@keeps_last_mentioned_trans W) as Rt.
    pose proof (frame_get_table_schema svc _ Ra).
    pose proof (frame_get_sample_data svc _ Ra).
    frame.
  - unfold describe_known, try_except.
    match goal with
    | |- exists text, fst (match ?b with _ => _ end) = _ =>
        destruct b as [[x|e] a']
    end; eexists; reflexivity.
Qed.

Lemma literal_is_no_describe (word : string) :
  Str.startswith "describe " word || Str.startswith "desc " word = true ->
  literal_command word = false.
Proof.
  intros H. destruct (literal_command word) eqn:E; [|reflexivity].
  rewrite (describe_is_no_literal _ E) in H. discriminate.
Qed.

(** X15. describe with a dotted reference. Outside the confirmation,
    "describe x" or "desc x" where x (stripped, without backticks)
    has the form schema.table always gets an answer and makes
    (table, schema) the remembered table, whether or not the warehouse
    has such a table: a failing lookup is answered by an error text
    and the reference is remembered all the same. *)
Theorem describe_remembers_reference (m rest schema table : string)
        (a : Agent W) :
  state a <> AWAITING_CONFIRMATION ->
  Str.startswith "describe " (Str.lower (Str.strip m))
  || Str.startswith "desc " (Str.lower (Str.strip m)) = true ->
  Str.after_first_space (Str.strip m) = Some rest ->
  Str.split_char "." (Str.replace "`" Str.emp (Str.strip rest))
  = [schema; table] ->
  last_mentioned_table (after svc m a) = Some (table, schema)
  /\ exists text, response svc m a = Ok text.
Proof.
  intros Hn Hd Hr Hp. unfold after, response, chat.
  rewrite bind_get, (not_awaiting _ Hn).
  pose proof (literal_is_no_describe _ Hd) as Hl. unfold literal_command in Hl.
  apply orb_false_iff in Hl as [Hl _]. apply orb_false_iff in Hl as [Hh Ht].
  rewrite Hh, Ht, Hd, Hr. unfold _describe_table. rewrite Hp.
  apply describe_known_remembers.
Qed.

End Describe.

(** ** Where a remembered table comes from *)

Lemma named_some (r : option (string * string)) (p : string * string) :
  named r = Some p -> r = Some p.
Proof.
  destruct r as [[t s]|]; simpl; [|discriminate].
  destruct (String.eqb t EmptyString); [discriminate|auto].
Qed.

Lemma or_last_named (found last : option (string * string)) (refers : bool)
      (p : string * string) :
  named (or_last_mentioned found last refers) = Some p ->
  found = Some p \/ last = Some p.
Proof.
  unfold or_last_mentioned. destruct (named found) as [p0|] eqn:E.
  - intros H. left. now apply named_some.
  - destruct last as [lm|]; [destruct refers|]; intros H.
    + right. now apply named_some.
    + congruence.
    + congruence.
Qed.

Lemma split_char_nonempty (sep : ascii) (s : string) :
  Str.split_char sep s <> [].
Proof.
  induction s as [|c r IH]; simpl; [discriminate|].
  destruct (Ascii.eqb c sep); [discriminate|].
  destruct (Str.split_char sep r); discriminate.
Qed.

Lemma split_char_two (sep : ascii) (x y : string) :
  exists p q rest, Str.split_char sep (x ++ String sep y) = p :: q :: rest.
Proof.
  induction x as [|c x IH]; simpl.
  - rewrite Ascii.eqb_refl.
    destruct (Str.split_char sep y) as [|q rest] eqn:E.
    + now apply split_char_nonempty in E.
    + eauto.
  - destruct IH as (p & q & rest & ->). destruct (Ascii.eqb c sep); eauto.
Qed.

Lemma replace_tick_app (s t : string) :
  Str.replace "`" Str.emp (s ++ t)
  = Str.replace "`" Str.emp s ++ Str.replace "`" Str.emp t.
Proof.
  unfold Str.replace. induction s as [|c s IH]; [reflexivity|].
  change (String c s ++ t) with (String c (s ++ t)).
  change (Str.replace_go "`" Str.emp 0 (String c (s ++ t)))
    with (if Ascii.eqb "`" c && true
          then Str.replace_go "`" Str.emp 0 (s ++ t)
          else String c (Str.replace_go "`" Str.emp 0 (s ++ t))).
  change (Str.replace_go "`" Str.emp 0 (String c s))
    with (if Ascii.eqb "`" c && true
          then Str.replace_go "`" Str.emp 0 s
          else String c (Str.replace_go "`" Str.emp 0 s)).
  rewrite IH. destruct (Ascii.eqb "`" c && true); reflexivity.
Qed.

(** A reference made as schema.table has two parts at least. *)
Lemma reference_has_two_parts (schema table : string) :
  exists p q rest,
    Str.split_char "." (Str.replace "`" Str.emp (schema ++ "." ++ table))
    = p :: q :: rest.
Proof.
  rewrite replace_tick_app.
  change (Str.replace "`" Str.emp ("." ++ table))
    with (String "." (Str.replace "`" Str.emp table)).
  apply split_char_two.
Qed.

Lemma replace_tick_free (s : string) :
  no_tick s = true -> Str.replace "`" Str.emp s = s.
Proof.
  unfold Str.replace, no_tick. induction s as [|c s IH]; [reflexivity|].
  cbn [Str.all_str]. intros H. apply andb_true_iff in H as [Hc Hs].
  change (Str.replace_go "`" Str.emp 0 (String c s))
    with (if Ascii.eqb "`" c && true
          then Str.replace_go "`" Str.emp 0 s
          else String c (Str.replace_go "`" Str.emp 0 s)).
  apply negb_true_iff in Hc. rewrite Ascii.eqb_sym, Hc, (IH Hs).
  reflexivity.
Qed.

Lemma split_dot_free (s : string) :
  no_dot s = true -> Str.split_char "." s = [s].
Proof.
  unfold no_dot. induction s as [|c s IH]; [reflexivity|].
  cbn [Str.all_str Str.split_char]. intros H.
  apply andb_true_iff in H as [Hc Hs]. apply negb_true_iff in Hc.
  now rewrite Hc, (IH Hs).
Qed.

Lemma split_dot_app (x y : string) :
  no_dot x = true ->
  Str.split_char "." (x ++ String "." y) = x :: Str.split_char "." y.
Proof.
  unfold no_dot. induction x as [|c x IH]; [reflexivity|].
  cbn [Str.all_str]. intros H.
  apply andb_true_iff in H as [Hc Hx]. apply negb_true_iff in Hc.
  change (String c x ++ String "." y) with (String c (x ++ String "." y)).
  cbn [Str.split_char]. now rewrite Hc, (IH Hx).
Qed.

(** For names without dot and backtick, schema.table reads as the pair
    it was made of. *)
Lemma reference_read_back (schema table : string) :
  no_dot schema = true -> no_tick schema = true ->
  no_dot table = true -> no_tick table = true ->
  Str.split_char "." (Str.replace "`" Str.emp (schema ++ "." ++ table))
  = [schema; table].
Proof.
  intros Hds Hts Hdt Htt. rewrite replace_tick_app.
  change (Str.replace "`" Str.emp ("." ++ table))
    with (String "." (Str.replace "`" Str.emp table)).
  rewrite (replace_tick_free _ Hts), (replace_tick_free _ Htt).
  now rewrite (split_dot_app _ _ Hds), (split_dot_free _ Hdt).
Qed.

Section Remembered.

Context {W : Type} (svc : Services W).

Section Among.

Context (P : string * string -> Prop).

Lemma names_among_attributes (a a' : Agent W) :
  same_attributes a a' -> names_among P a a'.
Proof. intros (_ & _ & _ & H). left. exact H. Qed.

Lemma names_among_trans (a b c : Agent W) :
  names_among P a b -> names_among P b c -> names_among P a c.
Proof.
  intros H1 [H2|(q & Hq & H2)].
  - destruct H1 as [H1|(q & Hq & H1)].
    + left. congruence.
    + right. exists q. split; [exact Hq|congruence].
  - right. exists q. auto.
Qed.

Lemma names_among_set (q : string * string) :
  P q -> preserves (@names_among W P) (set_last_mentioned_table q).
Proof. intros Hq a. right. exists q. split; [exact Hq|reflexivity]. Qed.

Lemma names_among_pending (p : option PendingTransform) :
  preserves (@names_among W P) (set_pending_transform p).
Proof. intros a. left. reflexivity. Qed.

Lemma names_among_state (s : AgentState) :
  preserves (@names_among W P) (set_state s).
Proof. intros a. left. reflexivity. Qed.

(** [describe_known] remembers the pair it is given. *)
Lemma names_among_describe_known (table schema : string) :
  P (table, schema) ->
  preserves (@names_among W P) (describe_known svc table schema).
Proof.
  intros Hp.
  pose proof names_among_attributes as R_attributes.
  pose proof names_among_trans as R_trans.
  pose proof (names_among_set _ Hp).
  pose proof (frame_get_table_schema svc _ R_attributes).
  pose proof (frame_get_sample_data svc _ R_attributes).
  unfold describe_known. frame.
Qed.

End Among.

(** A method that starts with the resolution of the message. *)
Lemma bind_found {A} (m : M W (option (string * string)))
      (K : option (string * string) -> M W A) (b : Agent W) :
  keeps_last_mentioned b (snd (m b)) ->
  (forall found b1,
      names_among (resolved_pair (Ok found) (last_mentioned_table b1))
                  b1 (snd (K found b1))) ->
  names_among (resolved_pair (fst (m b)) (last_mentioned_table b))
              b (snd (bind m K b)).
Proof.
  intros H1 H2. unfold bind.
  destruct (m b) as [[found|e] b1]; cbn [fst snd] in *.
  - unfold keeps_last_mentioned in H1.
    destruct (H2 found b1) as [H|(q & Hq & H)].
    + left. congruence.
    + right. exists q. split; [|exact H]. now rewrite <- H1.
  - left. exact H1.
Qed.

Lemma resolved_pair_itself (found : result (option (string * string)))
      (last : option (string * string)) (p : string * string) :
  found = Ok (Some p) \/ last = Some p -> resolved_pair found last p.
Proof. intros H. exists p. split; [exact H|left; reflexivity]. Qed.

Lemma unclear_remembers (u : string) (b : Agent W) :
  names_among
    (resolved_pair (fst (_identify_table svc u b)) (last_mentioned_table b))
    b (snd (_handle_unclear_intent svc u b)).
Proof.
  unfold _handle_unclear_intent. apply bind_found.
  - apply (frame_identify_table svc _ (@keeps_last_mentioned_attributes W)
             (@keeps_last_mentioned_trans W)).
  - intros found b1. destruct (named found) as [[t s]|] eqn:En.
    + right. exists (t, s). split; [|reflexivity].
      apply resolved_pair_itself. left. f_equal. now apply named_some.
    + left. reflexivity.
Qed.

Lemma transform_remembers (u : string) (b : Agent W) :
  names_among
    (resolved_pair (fst (_identify_table svc u b)) (last_mentioned_table b))
    b (snd (_handle_transform_request svc u b)).
Proof.
  unfold _handle_transform_request. rewrite try_except_ret_snd.
  apply bind_found.
  - apply (frame_identify_table svc _ (@keeps_last_mentioned_attributes W)
             (@keeps_last_mentioned_trans W)).
  - intros found b1. rewrite bind_get. cbv zeta.
    set (P := resolved_pair (Ok found) (last_mentioned_table b1)).
    pose proof (names_among_attributes P) as R_attributes.
    pose proof (names_among_trans P) as R_trans.
    pose proof (names_among_pending P) as R_pending.
    pose proof (names_among_state P) as R_state.
    destruct (named (or_last_mentioned found (last_mentioned_table b1) _))
      as [[t s]|] eqn:En.
    + assert (Hp : P (t, s)).
      { apply resolved_pair_itself.
        destruct (or_last_named _ _ _ _ En) as [Hsome|Hsome];
          [left|right]; congruence. }
      pose proof (names_among_set P _ Hp).
      pose proof (frame_get_table_schema svc _ R_attributes).
      pose proof (frame_get_sample_data svc _ R_attributes).
      pose proof (frame_generate svc _ R_attributes R_trans).
      as_preserves. frame.
    + apply (frame_ask_for_table_clarification svc _ R_attributes R_trans).
Qed.

Lemma question_remembers (u : string) (b : Agent W) :
  names_among
    (resolved_pair (fst (_identify_table svc u b)) (last_mentioned_table b))
    b (snd (_handle_question svc u b)).
Proof.
  unfold _handle_question. cbv zeta. apply bind_found.
  - apply (frame_identify_table svc _ (@keeps_last_mentioned_attributes W)
             (@keeps_last_mentioned_trans W)).
  - intros found b1. rewrite bind_get.
    set (P := resolved_pair (Ok found) (last_mentioned_table b1)).
    pose proof (names_among_attributes P) as R_attributes.
    pose proof (names_among_trans P) as R_trans.
    pose proof (frame_describe_table_columns svc _ R_attributes R_trans).
    pose proof (frame_show_table_preview svc _ R_attributes R_trans).
    pose proof (frame_ask_which_table svc _ R_attributes R_trans).
    pose proof (frame_list_all svc _ R_attributes R_trans).
    destruct (named (or_last_mentioned found (last_mentioned_table b1) _))
      as [[t s]|] eqn:En.
    + assert (Hsrc : Ok found = Ok (Some (t, s))
                     \/ last_mentioned_table b1 = Some (t, s)).
      { destruct (or_last_named _ _ _ _ En) as [Hsome|Hsome];
          [left|right]; congruence. }
      assert (Hp : P (t, s)) by now apply resolved_pair_itself.
      pose proof (names_among_set P _ Hp).
      assert (Hd : preserves (@names_among W P)
                     (_describe_table svc (s ++ "." ++ t))).
      { unfold _describe_table.
        destruct (reference_has_two_parts s t) as (p0 & p1 & rest & E).
        destruct (Str.split_char "." (Str.replace "`" Str.emp (s ++ "." ++ t)))
          as [|x0 [|x1 [|x2 more]]] eqn:Es; try discriminate.
        - apply names_among_describe_known.
          exists (t, s). split; [exact Hsrc|]. right. exact Es.
        - apply preserves_ret. exact R_attributes. }
      as_preserves. frame.
    + as_preserves. frame.
Qed.

(** [probe_schema] on one schema, and on the three. *)
Lemma probe_schema_step (schema : string) (rest : list string)
      (table : string) (a : Agent W) (listing : result (list string))
      (w : W) :
  list_tables svc schema (world a) = (listing, w) ->
  fst (probe_schema svc (schema :: rest) table a)
  = match listing with
    | Raise e => Raise e
    | Ok tables =>
        if Str.mem table tables then Ok (Some schema)
        else fst (probe_schema svc rest table
                    {| state := state a;
                       pending_transform := pending_transform a;
                       last_result := last_result a;
                       last_mentioned_table := last_mentioned_table a;
                       world := w; calls := CallListTables schema :: calls a |})
    end.
Proof.
  intros Hl. simpl.
  unfold bind at 1. unfold db_table_exists, bind, db_list_tables, service, ret.
  rewrite Hl. destruct listing as [tables|e]; [|reflexivity].
  destruct (Str.mem table tables); reflexivity.
Qed.

Lemma probe_three (table : string) (a : Agent W)
      (bronze silver gold : result (list string)) (w1 w2 w3 : W) :
  list_tables svc "bronze" (world a) = (bronze, w1) ->
  list_tables svc "silver" w1 = (silver, w2) ->
  list_tables svc "gold" w2 = (gold, w3) ->
  fst (probe_schema svc bronze_silver_gold table a)
  = match bronze with
    | Raise e => Raise e
    | Ok l1 =>
        if Str.mem table l1 then Ok (Some "bronze")
        else
          match silver with
          | Raise e => Raise e
          | Ok l2 =>
              if Str.mem table l2 then Ok (Some "silver")
              else
                match gold with
                | Raise e => Raise e
                | Ok l3 =>
                    if Str.mem table l3 then Ok (Some "gold") else Ok None
                end
          end
    end.
Proof.
  intros Hb Hs Hg. unfold bronze_silver_gold.
  rewrite (probe_schema_step _ _ _ _ _ _ Hb).
  destruct bronze as [l1|e]; [|reflexivity].
  destruct (Str.mem table l1); [reflexivity|].
  match goal with
  | |- context [probe_schema svc _ _ ?b] =>
      rewrite (probe_schema_step "silver" _ table b silver w2 Hs)
  end.
  destruct silver as [l2|e]; [|reflexivity].
  destruct (Str.mem table l2); [reflexivity|].
  match goal with
  | |- context [probe_schema svc _ _ ?b] =>
      rewrite (probe_schema_step "gold" _ table b gold w3 Hg)
  end.
  destruct gold as [l3|e]; [|reflexivity].
  destruct (Str.mem table l3); reflexivity.
Qed.

Lemma describe_turn (m : string) (a : Agent W) :
  state a <> AWAITING_CONFIRMATION ->
  Str.startswith "describe " (Str.lower (Str.strip m))
  || Str.startswith "desc " (Str.lower (Str.strip m)) = true ->
  match Str.after_first_space (Str.strip m) with
  | Some rest =>
      match Str.split_char "." (Str.replace "`" Str.emp (Str.strip rest)) with
      | [schema; table] =>
          last_mentioned_table (after svc m a) = Some (table, schema)
      | [table] =>
          match fst (probe_schema svc bronze_silver_gold table a) with
          | Ok (Some schema) =>
              last_mentioned_table (after svc m a) = Some (table, schema)
          | _ => last_mentioned_table (after svc m a) = last_mentioned_table a
          end
      | _ => last_mentioned_table (after svc m a) = last_mentioned_table a
      end
  | None => last_mentioned_table (after svc m a) = last_mentioned_table a
  end.
Proof.
  intros Hn Hd. unfold after, chat.
  rewrite bind_get, (not_awaiting _ Hn).
  pose proof (literal_is_no_describe _ Hd) as Hl. unfold literal_command in Hl.
  apply orb_false_iff in Hl as [Hl _]. apply orb_false_iff in Hl as [Hh Ht].
  rewrite Hh, Ht, Hd.
  destruct (Str.after_first_space (Str.strip m)) as [rest|]; [|reflexivity].
  unfold _describe_table.
  destruct (Str.split_char "." (Str.replace "`" Str.emp (Str.strip rest)))
    as [|x0 [|x1 [|x2 more]]]; try reflexivity.
  - unfold bind.
    pose proof (frame_probe_schema svc _ (@keeps_last_mentioned_attributes W)
                  (@keeps_last_mentioned_trans W) bronze_silver_gold x0 a)
      as Hk.
    destruct (probe_schema svc bronze_silver_gold x0 a) as [[[s|]|e] a1];
      cbn [fst snd] in *.
    + apply describe_known_remembers.
    + exact Hk.
    + exact Hk.
  - apply describe_known_remembers.
Qed.

Lemma resolving_turn (m : string) (a : Agent W) :
  state a <> AWAITING_CONFIRMATION ->
  literal_command (Str.lower (Str.strip m)) = false ->
  Str.startswith "describe " (Str.lower (Str.strip m))
  || Str.startswith "desc " (Str.lower (Str.strip m)) = false ->
  names_among
    (resolved_pair
       (fst (_identify_table svc (Str.strip m)
               (snd (_detect_intent svc (Str.strip m) a))))
       (last_mentioned_table a))
    a (after svc m a).
Proof.
  intros Hn Hl Hd. unfold literal_command in Hl.
  apply orb_false_iff in Hl as [Hl Hst].
  apply orb_false_iff in Hl as [Hh Ht].
  unfold after, chat. rewrite bind_get, (not_awaiting _ Hn).
  rewrite Hh, Ht, Hd, Hst. unfold bind at 1.
  pose proof (frame_detect_intent svc _ (@keeps_last_mentioned_attributes W)
                (@keeps_last_mentioned_trans W) (Str.strip m) a) as Hb.
  revert Hb.
  destruct (_detect_intent svc (Str.strip m) a) as [[intent|e] b];
    cbn [fst snd]; unfold keeps_last_mentioned; intros Hb.
  - assert (H : names_among
                  (resolved_pair (fst (_identify_table svc (Str.strip m) b))
                     (last_mentioned_table b))
                  b (snd (match intent with
                          | QUESTION => _handle_question svc (Str.strip m)
                          | TRANSFORM =>
                              _handle_transform_request svc (Str.strip m)
                          | _ => _handle_unclear_intent svc (Str.strip m)
                          end b))).
    { destruct intent;
        [apply question_remembers | apply transform_remembers
         | apply unclear_remembers | apply unclear_remembers]. }
    unfold names_among in *. rewrite Hb in H. exact H.
  - left. exact Hb.
Qed.

(** C9, as the code has it. A turn leaves the remembered table as it
    is or overwrites it with a pair, and never resets it to none. A
    turn that starts while the agent awaits the confirmation
    (confirmed execution that succeeds or fails, cancel, show sql, any
    other message) leaves it as it is, and so do help, show tables and
    status. A describe turn with a reference schema.table remembers
    (table, schema) as typed, before any lookup; with a bare name it
    remembers the name with the first of bronze, silver and gold that
    lists it, and leaves the remembered table alone when none does or
    when a listing fails before the name is found.
    Every other turn leaves the remembered table as it is or
    remembers the pair that the resolver finds for the message, or
    what [_describe_table] reads in schema.table made of that pair or
    of the pair remembered before, which is the pair itself when its
    names have neither dot nor backtick. *)
Theorem last_mentioned_table_never_cleared (m : string) (a : Agent W) :
  let word := Str.lower (Str.strip m) in
  let a' := after svc m a in
  keeps_or_names a a'
  /\ (last_mentioned_table a <> None -> last_mentioned_table a' <> None)
  /\ (state a = AWAITING_CONFIRMATION ->
      last_mentioned_table a' = last_mentioned_table a)
  /\ (state a <> AWAITING_CONFIRMATION ->
      literal_command word = true ->
      last_mentioned_table a' = last_mentioned_table a)
  /\ (state a <> AWAITING_CONFIRMATION ->
      Str.startswith "describe " word || Str.startswith "desc " word = true ->
      match Str.after_first_space (Str.strip m) with
      | Some rest =>
          match Str.split_char "."
                  (Str.replace "`" Str.emp (Str.strip rest)) with
          | [schema; table] => last_mentioned_table a' = Some (table, schema)
          | [table] =>
              match fst (probe_schema svc bronze_silver_gold table a) with
              | Ok (Some schema) =>
                  last_mentioned_table a' = Some (table, schema)
              | _ => last_mentioned_table a' = last_mentioned_table a
              end
          | _ => last_mentioned_table a' = last_mentioned_table a
          end
      | None => last_mentioned_table a' = last_mentioned_table a
      end)
  /\ (forall table bronze w1 silver w2 gold w3,
         list_tables svc "bronze" (world a) = (bronze, w1) ->
         list_tables svc "silver" w1 = (silver, w2) ->
         list_tables svc "gold" w2 = (gold, w3) ->
         fst (probe_schema svc bronze_silver_gold table a)
         = match bronze with
           | Raise e => Raise e
           | Ok l1 =>
               if Str.mem table l1 then Ok (Some "bronze")
               else
                 match silver with
                 | Raise e => Raise e
                 | Ok l2 =>
                     if Str.mem table l2 then Ok (Some "silver")
                     else
                       match gold with
                       | Raise e => Raise e
                       | Ok l3 =>
                           if Str.mem table l3 then Ok (Some "gold")
                           else Ok None
                       end
                 end
           end)
  /\ (state a <> AWAITING_CONFIRMATION ->
      literal_command word = false ->
      Str.startswith "describe " word || Str.startswith "desc " word = false ->
      let b := snd (_detect_intent svc (Str.strip m) a) in
      let found := fst (_identify_table svc (Str.strip m) b) in
      last_mentioned_table a' = last_mentioned_table a
      \/ exists p q,
           (found = Ok (Some p) \/ last_mentioned_table a = Some p)
           /\ (q = p
               \/ Str.split_char "."
                    (Str.replace "`" Str.emp (snd p ++ "." ++ fst p))
                  = [snd q; fst q])
           /\ last_mentioned_table a' = Some q)
  /\ (forall schema table,
         no_dot schema = true -> no_tick schema = true ->
         no_dot table = true -> no_tick table = true ->
         Str.split_char "."
           (Str.replace "`" Str.emp (schema ++ "." ++ table))
         = [schema; table]).
Proof.
  cbv zeta.
  assert (Haw : state a = AWAITING_CONFIRMATION ->
                last_mentioned_table (after svc m a) = last_mentioned_table a).
  { intros Hs. unfold after.
    destruct (chat_awaiting_cases svc m a Hs) as [(_ & _ & H)|H].
    - exact H.
    - now rewrite H. }
  assert (Hk : keeps_or_names a (after svc m a)).
  { destruct (AgentState_eqb (state a) AWAITING_CONFIRMATION) eqn:E.
    - left. apply Haw. now apply awaiting_eqb.
    - apply chat_elsewhere_names. intros Hc. rewrite Hc in E. discriminate. }
  split; [exact Hk|].
  split; [|split; [exact Haw|split; [|split; [|split; [|split]]]]];
    [| | |intros table bronze w1 silver w2 gold w3; apply probe_three
     | |apply reference_read_back].
  - intros Hsome. destruct Hk as [Hk|(t & s & Hk)]; rewrite Hk.
    + exact Hsome.
    + discriminate.
  - intros Hn Hc. unfold after, chat. rewrite bind_get, (not_awaiting _ Hn).
    pose proof (@keeps_last_mentioned_attributes W) as Ra.
    pose proof (@keeps_last_mentioned_trans W) as Rt.
    rewrite (describe_is_no_literal _ Hc).
    unfold literal_command in Hc.
    destruct (Str.mem _ help_words); [reflexivity|].
    destruct (Str.mem _ tables_words).
    + apply (frame_list_all svc _ Ra Rt).
    + cbn [orb] in Hc. rewrite Hc. apply (frame_show_status svc _ Ra Rt).
  - intros Hn Hd. now apply describe_turn.
  - intros Hn Hl Hd.
    destruct (resolving_turn m a Hn Hl Hd) as [H|(q & (p & Hp & Hq) & H)].
    + left. exact H.
    + right. exists p, q. auto.
Qed.

End Remembered.

Lemma last_mentioned_table_never_cleared_witness :
  last_mentioned_table Sim.awaiting = Some ("raw_customers", "bronze")
  /\ last_mentioned_table (after Sim.svc "confirm" Sim.awaiting)
     = Some ("raw_customers", "bronze")
  /\ last_mentioned_table (after Sim.svc "cancel" Sim.awaiting_failure)
     <> None
  /\ last_mentioned_table
       (after Sim.svc "status"
          (after Sim.svc "what is raw_customers"
             (init (Sim.warehouse Sim.good_reply))))
     = Some ("raw_customers", "bronze")
  /\ last_mentioned_table
       (after Sim.svc "describe silver.raw_customers"
          (init (Sim.warehouse Sim.good_reply)))
     = Some ("raw_customers", "silver")
  /\ last_mentioned_table
       (after Sim.svc "desc raw_customers"
          (init (Sim.warehouse Sim.good_reply)))
     = Some ("raw_customers", "bronze").
Proof.
  assert (H0 : last_mentioned_table Sim.awaiting = Some ("raw_customers", "bronze"))
    by (vm_compute; reflexivity).
  split; [exact H0|]. split; [|split; [|split; [|split]]].
  - destruct (last_mentioned_table_never_cleared Sim.svc "confirm" Sim.awaiting)
      as (_ & _ & H & _).
    rewrite H; [exact H0|vm_compute; reflexivity].
  - destruct (last_mentioned_table_never_cleared Sim.svc "cancel" Sim.awaiting_failure)
      as (_ & H & _).
    apply H. vm_compute. discriminate.
  - destruct (last_mentioned_table_never_cleared Sim.svc "status"
                (after Sim.svc "what is raw_customers"
                   (init (Sim.warehouse Sim.good_reply))))
      as (_ & _ & _ & H & _).
    rewrite H; vm_compute; [reflexivity|discriminate|reflexivity].
  - destruct (last_mentioned_table_never_cleared Sim.svc
                "describe silver.raw_customers"
                (init (Sim.warehouse Sim.good_reply)))
      as (_ & _ & _ & _ & H & _).
    apply H; vm_compute; [discriminate|reflexivity].
  - destruct (last_mentioned_table_never_cleared Sim.svc
                "desc raw_customers" (init (Sim.warehouse Sim.good_reply)))
      as (_ & _ & _ & _ & H & _).
    apply H; vm_compute; [discriminate|reflexivity].
Defined.

(** C9, as stated, fails: the pair that a turn remembers need not be
    an identified table. describe with a reference schema.table
    stores the reference as typed before it looks the table up, so a
    schema and a table that the warehouse does not have, and that the
    resolver does not find in the message, are remembered all the
    same, with the error of the lookup as the answer. *)
Lemma describe_remembers_unknown_table :
  last_mentioned_table
    (after Sim.svc "describe nosuch.thing"
       (init (Sim.warehouse Sim.good_reply)))
  = Some ("thing", "nosuch")
  /\ Sim.has_table "thing" "nosuch" (Sim.warehouse Sim.good_reply) = false
  /\ fst (Sim.sim_list_tables "nosuch" (Sim.warehouse Sim.good_reply))
     = Raise "SCHEMA_NOT_FOUND: nosuch"
  /\ (forall found,
         fst (_identify_table Sim.svc "describe nosuch.thing"
                (init (Sim.warehouse Sim.good_reply)))
         <> Ok (Some found))
  /\ response Sim.svc "describe nosuch.thing"
       (init (Sim.warehouse Sim.good_reply))
     = Ok "❌ Error describing table: TABLE_OR_VIEW_NOT_FOUND: nosuch.thing".
Proof.
  split; [vm_compute; reflexivity|]. split; [vm_compute; reflexivity|].
  split; [vm_compute; reflexivity|]. split; [|vm_compute; reflexivity].
  intros found. vm_compute. discriminate.
Qed.

Lemma describe_remembers_reference_witness :
  last_mentioned_table
    (after Sim.svc "Describe archive.orders"
           (init (Sim.warehouse Sim.good_reply)))
  = Some ("orders", "archive")
  /\ exists text,
       response Sim.svc "Describe archive.orders"
                (init (Sim.warehouse Sim.good_reply)) = Ok text.
Proof.
  apply (describe_remembers_reference Sim.svc "Describe archive.orders"
           "archive.orders" "archive" "orders").
  - vm_compute. discriminate.
  - vm_compute. reflexivity.
  - vm_compute. reflexivity.
  - vm_compute. reflexivity.
Defined.

Section Planning.

Context {W : Type} (svc : Services W).

(** What [_handle_transform_request] leaves: the gate as it was, or a
    plan for the table it resolved, decoded from what the model
    answered to the prompt made of the schema and the sample that the
    warehouse gave for that table. *)
Lemma transform_request_outcome (u : string) (a : Agent W) :
  let a' := snd (_handle_transform_request svc u a) in
  keeps_gate a a'
  \/ exists p t s ts sample w2 w3 reply data,
       state a' = AWAITING_CONFIRMATION
       /\ pending_transform a'
          = Some {| plan := p; source_table := s ++ "." ++ t;
                    source_schema := ts; user_request := u |}
       /\ last_mentioned_table a' = Some (t, s)
       /\ (fst (_identify_table svc u a) = Ok (Some (t, s))
           \/ last_mentioned_table a = Some (t, s))
       /\ get_table_schema svc t s (world (snd (_identify_table svc u a)))
          = (Ok ts, w2)
       /\ get_sample_data svc t s 5 w2 = (Ok sample, w3)
       /\ call_claude svc
            (build_transform_prompt svc u ts sample
               (_determine_target_layer u s) (settings_catalog svc)) w3
          = (Ok reply, world a')
       /\ _parse_json_response svc reply = Ok data
       /\ plan_of_data data = Ok p
       /\ hd_error (calls a')
          = Some (CallClaude
                    (build_transform_prompt svc u ts sample
                       (_determine_target_layer u s) (settings_catalog svc))).
Proof.
  intros a'.
  assert (E : a' = snd (_handle_transform_request svc u a)) by reflexivity.
  clearbody a'. revert E. unfold _handle_transform_request.
  rewrite (try_except_ret_snd _ error_processing).
  pose proof (frame_identify_table svc _ (@keeps_gate_attributes W)
                (@keeps_gate_trans W) u a) as Hid.
  pose proof (frame_identify_table svc _ (@keeps_last_mentioned_attributes W)
                (@keeps_last_mentioned_trans W) u a) as Hlm.
  unfold keeps_last_mentioned in Hlm.
  unfold bind at 1.
  destruct (_identify_table svc u a) as [[found|e] a1]; cbn [fst snd] in *;
    [|intros ->; left; exact Hid].
  rewrite bind_get.
  destruct (named (or_last_mentioned found (last_mentioned_table a1) _))
    as [[t s]|] eqn:En.
  2:{ intros ->. left. eapply keeps_gate_trans; [exact Hid|].
      apply (frame_ask_for_table_clarification svc _
               (@keeps_gate_attributes W) (@keeps_gate_trans W)). }
  apply or_last_named in En.
  destruct Hid as [Hs Hp].
  unfold bind at 1. cbn [set_last_mentioned_table].
  unfold bind at 1. unfold db_get_table_schema at 1. unfold service at 1.
  cbn [world].
  destruct (get_table_schema svc t s (world a1)) as [[ts|e] w2] eqn:Ets;
    [|intros ->; left; split; cbn; assumption].
  unfold bind at 1. unfold db_get_sample_data at 1. unfold service at 1.
  cbn [world].
  destruct (get_sample_data svc t s 5 w2) as [[sample|e] w3] eqn:Esa;
    [|intros ->; left; split; cbn; assumption].
  unfold bind at 1. unfold generate_transform_sql.
  unfold bind at 1. unfold llm_call_claude, service. cbn [world].
  destruct (call_claude svc _ w3) as [[reply|e] w4] eqn:Ecl;
    [|intros ->; left; split; cbn; assumption].
  unfold bind at 1. unfold lift at 1.
  destruct (_parse_json_response svc reply) as [data|e] eqn:Epa;
    [|intros ->; left; split; cbn; assumption].
  unfold lift at 1.
  destruct (plan_of_data data) as [p|e] eqn:Ep;
    [|intros ->; left; split; cbn; assumption].
  intros ->. right. exists p, t, s, ts, sample, w2, w3, reply, data.
  unfold bind, set_pending_transform, set_state, lift. cbn.
  split; [reflexivity|]. split; [reflexivity|]. split; [reflexivity|].
  split; [destruct En as [->|En]; [left; reflexivity|right; congruence]|].
  repeat split; first [assumption | reflexivity].
Qed.

(** Only a transform request takes the session to the confirmation. *)
Lemma planning_turn_is_transform (m : string) (a : Agent W) :
  state a <> AWAITING_CONFIRMATION ->
  state (after svc m a) = AWAITING_CONFIRMATION ->
  after svc m a
  = snd (_handle_transform_request svc (Str.strip m)
           (snd (_detect_intent svc (Str.strip m) a))).
Proof.
  intros Hn. set (a' := after svc m a).
  assert (E : a' = snd (chat svc m a)) by reflexivity.
  clearbody a'. revert E. unfold chat.
  rewrite bind_get, (not_awaiting _ Hn).
  pose proof (@keeps_gate_attributes W) as Ra.
  pose proof (@keeps_gate_trans W) as Rt.
  pose proof (@keeps_gate_names W) as Rn.
  assert (Hkeep : forall (X : M W string) (b : Agent W) (Q : Prop),
             state b <> AWAITING_CONFIRMATION ->
             preserves keeps_gate X ->
             a' = snd (X b) ->
             state a' = AWAITING_CONFIRMATION -> Q).
  { intros X b Q Hb HX -> HA. destruct (HX b) as [Hs _]. rewrite Hs in HA.
    contradiction. }
  destruct (Str.mem _ help_words).
  { apply Hkeep; [exact Hn|]. apply preserves_ret, Ra. }
  destruct (Str.mem _ tables_words).
  { apply Hkeep; [exact Hn|]. apply (frame_list_all svc _ Ra Rt). }
  destruct (Str.startswith "describe " _ || Str.startswith "desc " _).
  { apply Hkeep; [exact Hn|].
    pose proof (frame_describe_table svc _ Ra Rt Rn). frame. }
  destruct (Str.mem _ status_words).
  { apply Hkeep; [exact Hn|]. apply (frame_show_status svc _ Ra Rt). }
  unfold bind at 1.
  pose proof (frame_detect_intent svc _ Ra Rt (Str.strip m) a) as Hd.
  destruct (_detect_intent svc (Str.strip m) a) as [[intent|e] a1];
    cbn [snd] in *.
  2:{ intros -> Ha. destruct Hd as [Hs _]. rewrite Hs in Ha. contradiction. }
  destruct Hd as [Hs Hp].
  assert (Hn1 : state a1 <> AWAITING_CONFIRMATION) by (now rewrite Hs).
  destruct intent.
  - apply Hkeep; [exact Hn1|]. apply (frame_handle_question svc _ Ra Rt Rn).
  - intros -> _. reflexivity.
  - apply Hkeep; [exact Hn1|].
    apply (frame_handle_unclear_intent svc _ Ra Rt Rn).
  - apply Hkeep; [exact Hn1|].
    apply (frame_handle_unclear_intent svc _ Ra Rt Rn).
Qed.

(** X16. What a planning turn stores. When a turn takes the session
    from another state to AWAITING_CONFIRMATION, the table (t, s) is
    the one the resolver found for the stripped message, or the one
    remembered before; the warehouse gave the schema and five sample
    rows of that table; the model was asked, last of all calls, with
    the prompt made of the message, that schema and sample, and the
    target layer that [_determine_target_layer] gives for the message
    and s; and the pending transform holds the plan that
    [_parse_json_response] and then the reading of the keys give for
    the reply of the model to that prompt, the stripped message as
    the request, and "s.t" as the source; (t, s) is the table
    remembered after the turn. *)
Theorem planning_turn_stores_request (m : string) (a : Agent W) :
  state a <> AWAITING_CONFIRMATION ->
  state (after svc m a) = AWAITING_CONFIRMATION ->
  let u := Str.strip m in
  let b := snd (_detect_intent svc u a) in
  exists p t s ts sample w2 w3 reply data,
    pending_transform (after svc m a)
    = Some {| plan := p; source_table := s ++ "." ++ t;
              source_schema := ts; user_request := u |}
    /\ last_mentioned_table (after svc m a) = Some (t, s)
    /\ (fst (_identify_table svc u b) = Ok (Some (t, s))
        \/ last_mentioned_table a = Some (t, s))
    /\ get_table_schema svc t s (world (snd (_identify_table svc u b)))
       = (Ok ts, w2)
    /\ get_sample_data svc t s 5 w2 = (Ok sample, w3)
    /\ call_claude svc
         (build_transform_prompt svc u ts sample
            (_determine_target_layer u s) (settings_catalog svc)) w3
       = (Ok reply, world (after svc m a))
    /\ _parse_json_response svc reply = Ok data
    /\ plan_of_data data = Ok p
    /\ hd_error (calls (after svc m a))
       = Some (CallClaude
                 (build_transform_prompt svc u ts sample
                    (_determine_target_layer u s) (settings_catalog svc))).
Proof.
  intros Hn Ha. cbv zeta.
  pose proof (planning_turn_is_transform m a Hn Ha) as E.
  rewrite E in Ha |- *. clear E.
  pose proof (frame_detect_intent svc _ (@keeps_gate_attributes W)
                (@keeps_gate_trans W) (Str.strip m) a) as [Hs _].
  pose proof (frame_detect_intent svc _ (@keeps_last_mentioned_attributes W)
                (@keeps_last_mentioned_trans W) (Str.strip m) a) as Hl.
  unfold keeps_last_mentioned in Hl.
  destruct (transform_request_outcome (Str.strip m)
              (snd (_detect_intent svc (Str.strip m) a)))
    as [[H _]|(p & t & s & ts & sample & w2 & w3 & reply & data
               & _ & H2 & H3 & H4 & H5 & H6 & H7 & H8 & H9 & H10)].
  - rewrite H, Hs in Ha. contradiction.
  - exists p, t, s, ts, sample, w2, w3, reply, data.
    rewrite <- Hl. repeat split; assumption.
Qed.

End Planning.

Lemma planning_turn_stores_request_witness :
  exists p t s ts sample w2 w3 reply data,
    pending_transform Sim.awaiting
    = Some {| plan := p; source_table := s ++ "." ++ t;
              source_schema := ts; user_request := Sim.clean_request |}
    /\ last_mentioned_table Sim.awaiting = Some (t, s)
    /\ (fst (_identify_table Sim.svc Sim.clean_request
               (init (Sim.warehouse Sim.good_reply)))
        = Ok (Some (t, s))
        \/ None = Some (t, s))
    /\ Sim.sim_get_table_schema t s (Sim.warehouse Sim.good_reply)
       = (Ok ts, w2)
    /\ Sim.sim_get_sample_data t s 5 w2 = (Ok sample, w3)
    /\ Sim.sim_call_claude
         (Sim.sim_prompt Sim.clean_request ts sample
            (_determine_target_layer Sim.clean_request s) "main") w3
       = (Ok reply, world Sim.awaiting)
    /\ _parse_json_response Sim.svc reply = Ok data
    /\ plan_of_data data = Ok p
    /\ hd_error (calls Sim.awaiting)
       = Some (CallClaude
                 (Sim.sim_prompt Sim.clean_request ts sample
                    (_determine_target_layer Sim.clean_request s) "main")).
Proof.
  apply (planning_turn_stores_request Sim.svc Sim.clean_request
           (init (Sim.warehouse Sim.good_reply))).
  - vm_compute. discriminate.
  - vm_compute. reflexivity.
Defined.

(** ** Finding the object in a reply *)

Lemma startswith_drop_prefix (p s : string) :
  Str.startswith p s = true -> exists r, Re.drop_prefix p s = Some r.
Proof.
  revert s. induction p as [|a p IH]; intros s H; simpl.
  - exists s. reflexivity.
  - destruct s as [|b s]; [discriminate|]. simpl in H.
    apply andb_true_iff in H as [Hab Hp]. rewrite Hab. now apply IH.
Qed.

Lemma split_at_unfold (sep s : string) :
  Cut.split_at sep s
  = match Re.drop_prefix sep s with
    | Some rest => Some (EmptyString, rest)
    | None =>
        match s with
        | EmptyString => None
        | String c r =>
            match Cut.split_at sep r with
            | Some (b, a) => Some (String c b, a)
            | None => None
            end
        end
    end.
Proof. destruct s; reflexivity. Qed.

Lemma contains_split_at (sep s : string) :
  Str.contains sep s = true -> exists b a, Cut.split_at sep s = Some (b, a).
Proof.
  induction s as [|c s IH]; intros H; rewrite split_at_unfold.
  - simpl in H. rewrite orb_false_r in H.
    destruct (startswith_drop_prefix _ _ H) as (r & ->). eauto.
  - cbn [Str.contains] in H. apply orb_true_iff in H as [H|H].
    + destruct (startswith_drop_prefix _ _ H) as (r & ->). eauto.
    + destruct (Re.drop_prefix sep (String c s)); [eauto|].
      destruct (IH H) as (b & a & ->). eauto.
Qed.

Lemma take_length (n : nat) (s : string) : String.length (Str.take n s) <= n.
Proof.
  revert s. induction n as [|n IH]; intros s; simpl; [lia|].
  destruct s as [|c s]; simpl; [lia|]. specialize (IH s). lia.
Qed.

(** X17. How parsing a reply fails. The text steps of
    [_parse_json_response] never raise: its outcome is that of the
    decoder on one text cut out of the reply. A decoded value is
    returned; a JSONDecodeError is reported as "Failed to parse JSON
    response: ", the message of the decoder, a newline, "Response
    was: " and the reply cut to its first 500 characters; any other
    exception of the decoder (a RecursionError on a text nested too
    deep) passes as it is, without the reply. *)
Theorem parse_reports_decoder_errors {W : Type} (svc : Services W)
        (response : string) :
  (exists text,
      _parse_json_response svc response
      = match json_loads svc text with
        | Decoded data => Ok data
        | JSONDecodeError e =>
            Raise ("Failed to parse JSON response: " ++ e ++ Str.nl
                   ++ "Response was: " ++ Str.take 500 response)
        | DecoderRaised e => Raise e
        end)
  /\ String.length (Str.take 500 response) <= 500.
Proof.
  split; [|apply take_length].
  unfold _parse_json_response. cbv zeta.
  destruct (Str.contains fence_json (Str.strip response)) eqn:E1.
  - destruct (contains_split_at _ _ E1) as (b & a & Hs).
    unfold Cut.part1. rewrite Hs. eexists. reflexivity.
  - destruct (Str.contains fence (Str.strip response)) eqn:E2.
    + destruct (contains_split_at _ _ E2) as (b & a & Hs).
      unfold Cut.part1. rewrite Hs. eexists. reflexivity.
    + eexists. reflexivity.
Qed.

Lemma startswith_tick (sep : string) :
  Str.startswith "`" sep = true -> exists rest, sep = String "`"%char rest.
Proof.
  destruct sep as [|a sep]; [discriminate|].
  change (Ascii.eqb "`" a && true = true -> exists rest,
            String a sep = String "`"%char rest).
  rewrite andb_true_r. intros H. apply Ascii.eqb_eq in H. subst a.
  exists sep. reflexivity.
Qed.

Lemma tick_prefix_none (sep y : string) (c : ascii) :
  Str.startswith "`" sep = true ->
  Ascii.eqb c "`" = false ->
  Re.drop_prefix sep (String c y) = None.
Proof.
  intros Hsep Hc. destruct (startswith_tick _ Hsep) as (rest & ->).
  cbn [Re.drop_prefix]. rewrite Ascii.eqb_sym, Hc. reflexivity.
Qed.

Lemma drop_prefix_app (sep z : string) : Re.drop_prefix sep (sep ++ z) = Some z.
Proof.
  induction sep as [|a sep IH]; simpl; [reflexivity|].
  now rewrite Ascii.eqb_refl.
Qed.

(** In a text without backtick before it, the first fence is found
    where it stands. *)
Lemma split_at_tick_free (sep y z : string) :
  Str.startswith "`" sep = true -> no_tick y = true ->
  Cut.split_at sep (y ++ sep ++ z) = Some (y, z).
Proof.
  intros Hsep. unfold no_tick. induction y as [|c y IH]; intros Hy.
  - simpl append. rewrite split_at_unfold, drop_prefix_app. reflexivity.
  - simpl in Hy. apply andb_true_iff in Hy as [Hc Hy].
    apply negb_true_iff in Hc.
    change (String c y ++ sep ++ z) with (String c (y ++ sep ++ z)).
    rewrite split_at_unfold, (tick_prefix_none _ _ _ Hsep Hc), (IH Hy).
    reflexivity.
Qed.

Lemma split_at_none_after (sep y tail : string) :
  Str.startswith "`" sep = true -> no_tick y = true ->
  Cut.split_at sep tail = None ->
  Cut.split_at sep (y ++ tail) = None.
Proof.
  intros Hsep. unfold no_tick. induction y as [|c y IH]; intros Hy Ht.
  - exact Ht.
  - simpl in Hy. apply andb_true_iff in Hy as [Hc Hy].
    apply negb_true_iff in Hc.
    change (String c y ++ tail) with (String c (y ++ tail)).
    rewrite split_at_unfold, (tick_prefix_none _ _ _ Hsep Hc), (IH Hy Ht).
    reflexivity.
Qed.

Lemma contains_tick_free (sep y : string) :
  Str.startswith "`" sep = true -> no_tick y = true ->
  Str.contains sep y = false.
Proof.
  intros Hsep. unfold no_tick. induction y as [|c y IH]; intros Hy.
  - destruct sep; [discriminate|reflexivity].
  - simpl in Hy. apply andb_true_iff in Hy as [Hc Hy].
    apply negb_true_iff in Hc. cbn [Str.contains]. rewrite (IH Hy).
    destruct (startswith_tick _ Hsep) as (rest & ->).
    cbn [Str.startswith]. rewrite Ascii.eqb_sym, Hc. reflexivity.
Qed.

Lemma no_tick_app (s t : string) : no_tick (s ++ t) = no_tick s && no_tick t.
Proof.
  unfold no_tick. induction s as [|c s IH]; simpl; [reflexivity|].
  now rewrite IH, andb_assoc.
Qed.

Lemma ends_solid_app (s t : string) (c : ascii) :
  ends_solid (s ++ String c t) = ends_solid (String c t).
Proof.
  induction s as [|x s IH]; [reflexivity|].
  change (String x s ++ String c t) with (String x (s ++ String c t)).
  cbn [ends_solid]. destruct (s ++ String c t) eqn:E.
  - destruct s; discriminate.
  - exact IH.
Qed.

Lemma endswith_ends_solid (s : string) :
  Str.endswith_char "}" s = true -> ends_solid s = true.
Proof.
  induction s as [|c s IH]; [discriminate|].
  destruct s as [|d s].
  - simpl. intros H. apply Ascii.eqb_eq in H. subst c. reflexivity.
  - intros H. apply IH. exact H.
Qed.

Lemma startswith_open_solid (s : string) :
  Str.startswith "{" s = true -> Str.endswith_char "}" s = true ->
  solid s = true.
Proof.
  intros Hs He. destruct s as [|c s]; [discriminate|].
  unfold solid. rewrite (endswith_ends_solid _ He).
  change (Ascii.eqb "{" c && true = true) in Hs.
  rewrite andb_true_r in Hs. apply Ascii.eqb_eq in Hs.
  subst c. reflexivity.
Qed.

Lemma rstrip_app_spaces (s r : string) :
  Str.all_str Str.is_space r = true -> Str.rstrip (s ++ r) = Str.rstrip s.
Proof.
  intros Hr. induction s as [|c s IH].
  - simpl. now apply rstrip_spaces.
  - change (String c s ++ r) with (String c (s ++ r)).
    now rewrite !rstrip_cons, IH.
Qed.

(** The text between the fences of a block, stripped. *)
Lemma strip_between (x : string) :
  solid x = true -> Str.strip (Str.nl ++ x ++ Str.nl) = x.
Proof. intros H. now apply strip_padded. Qed.

Lemma append_assoc3 (s t u : string) : (s ++ t) ++ u = s ++ t ++ u.
Proof. induction s as [|c s IH]; simpl; [reflexivity|now rewrite IH]. Qed.

Lemma startswith_app (p z : string) : Str.startswith p (p ++ z) = true.
Proof.
  induction p as [|a p IH]; simpl; [reflexivity|].
  now rewrite Ascii.eqb_refl.
Qed.

Lemma contains_prefix (p z : string) : Str.contains p (p ++ z) = true.
Proof.
  destruct (p ++ z) eqn:E; cbn [Str.contains]; rewrite <- E;
    now rewrite startswith_app.
Qed.

Lemma contains_none_after (sep y tail : string) :
  Str.startswith "`" sep = true -> no_tick y = true ->
  Str.contains sep tail = false ->
  Str.contains sep (y ++ tail) = false.
Proof.
  intros Hsep. unfold no_tick. induction y as [|c y IH]; intros Hy Ht.
  - exact Ht.
  - simpl in Hy. apply andb_true_iff in Hy as [Hc Hy].
    apply negb_true_iff in Hc.
    change (String c y ++ tail) with (String c (y ++ tail)).
    cbn [Str.contains]. rewrite (IH Hy Ht).
    destruct (startswith_tick _ Hsep) as (rest & ->).
    cbn [Str.startswith]. rewrite Ascii.eqb_sym, Hc. reflexivity.
Qed.

Lemma lstrip_idem (s : string) : Str.lstrip (Str.lstrip s) = Str.lstrip s.
Proof.
  induction s as [|c s IH]; [reflexivity|].
  simpl. destruct (Str.is_space c) eqn:E; [exact IH|].
  simpl. now rewrite E.
Qed.

Lemma no_open_app (s t : string) : no_open (s ++ t) = no_open s && no_open t.
Proof.
  unfold no_open. induction s as [|c s IH]; simpl; [reflexivity|].
  now rewrite IH, andb_assoc.
Qed.

Lemma startswith_open (x : string) :
  Str.startswith "{" x = true -> exists rest, x = String "{"%char rest.
Proof.
  destruct x as [|a x]; [discriminate|].
  change (Ascii.eqb "{" a && true = true -> exists rest,
            String a x = String "{"%char rest).
  rewrite andb_true_r. intros H. apply Ascii.eqb_eq in H. subst a.
  exists x. reflexivity.
Qed.

(** Stripping the left of a commentary before an object leaves the
    end of the commentary before the object. *)
Lemma lstrip_commentary (c x : string) :
  Str.startswith "{" x = true -> no_tick c = true -> no_open c = true ->
  exists c1,
    Str.lstrip (c ++ x) = c1 ++ x /\ no_tick c1 = true /\ no_open c1 = true.
Proof.
  intros Hx. destruct (startswith_open _ Hx) as (rest & ->).
  induction c as [|a c IH]; intros Ht Ho.
  - exists EmptyString. repeat split.
  - change (String a c ++ String "{" rest) with (String a (c ++ String "{" rest)).
    cbn [Str.lstrip]. destruct (Str.is_space a).
    + apply IH.
      * unfold no_tick in *. simpl in Ht. now apply andb_true_iff in Ht.
      * unfold no_open in *. simpl in Ho. now apply andb_true_iff in Ho.
    + exists (String a c). repeat split; assumption.
Qed.

Lemma from_first_open_skip (c1 x : string) :
  Str.startswith "{" x = true -> no_open c1 = true ->
  Cut.from_first_open (c1 ++ x) = Some x.
Proof.
  intros Hx. destruct (startswith_open _ Hx) as (rest & ->).
  unfold no_open. induction c1 as [|a c1 IH]; intros Ho.
  - reflexivity.
  - simpl in Ho. apply andb_true_iff in Ho as [Ha Ho].
    apply negb_true_iff in Ha.
    change (String a c1 ++ String "{" rest)
      with (String a (c1 ++ String "{" rest)).
    cbn [Cut.from_first_open]. rewrite Ha. now apply IH.
Qed.

Lemma ends_solid_fence (s : string) : ends_solid (s ++ fence) = true.
Proof. unfold fence. now rewrite ends_solid_app. Qed.

(** A text that starts with a backtick and ends with a fence. *)
Lemma solid_before_fence (sep y : string) :
  Str.startswith "`" sep = true -> solid ((sep ++ y) ++ fence) = true.
Proof.
  intros H. destruct (startswith_tick _ H) as (rest & ->).
  unfold solid.
  change ((String "`" rest ++ y) ++ fence)
    with (String "`" ((rest ++ y) ++ fence)).
  change (String "`" ((rest ++ y) ++ fence))
    with ((String "`" rest ++ y) ++ fence) at 2.
  now rewrite ends_solid_fence.
Qed.

Section Wrappings.

Context {W : Type} (svc : Services W).

(** What parsing gives once the text [x] is what the decoder gets. *)
Lemma parse_finish (response x : string) :
  Str.startswith "{" x = true -> Str.endswith_char "}" x = true ->
  match json_loads svc
          (let text := if Str.startswith "{" x then x
                       else match Cut.from_first_open x with
                            | Some t => t
                            | None => x
                            end in
           if Str.endswith_char "}" text then text
           else match Cut.upto_close text with
                | Some t => t
                | None => text
                end)
  with
  | Decoded data => Ok data
  | JSONDecodeError e =>
      Raise ("Failed to parse JSON response: " ++ e ++ Str.nl
             ++ "Response was: " ++ Str.take 500 response)
  | DecoderRaised e => Raise e
  end
  = match json_loads svc x with
    | Decoded data => Ok data
    | JSONDecodeError e =>
        Raise ("Failed to parse JSON response: " ++ e ++ Str.nl
               ++ "Response was: " ++ Str.take 500 response)
    | DecoderRaised e => Raise e
    end.
Proof. intros Hs He. cbv zeta. now rewrite Hs, He. Qed.

Lemma parse_bare (x : string) :
  Str.startswith "{" x = true -> Str.endswith_char "}" x = true ->
  no_tick x = true ->
  _parse_json_response svc x
  = match json_loads svc x with
    | Decoded data => Ok data
    | JSONDecodeError e =>
        Raise ("Failed to parse JSON response: " ++ e ++ Str.nl
               ++ "Response was: " ++ Str.take 500 x)
    | DecoderRaised e => Raise e
    end.
Proof.
  intros Hs He Ht. unfold _parse_json_response. cbv zeta.
  rewrite (strip_solid _ (startswith_open_solid _ Hs He)).
  rewrite (contains_tick_free fence_json x eq_refl Ht).
  rewrite (contains_tick_free fence x eq_refl Ht).
  rewrite (strip_solid _ (startswith_open_solid _ Hs He)).
  now rewrite Hs, He.
Qed.

Lemma parse_fenced (sep x : string) :
  sep = fence_json \/ sep = fence ->
  Str.startswith "{" x = true -> Str.endswith_char "}" x = true ->
  no_tick x = true ->
  _parse_json_response svc (sep ++ Str.nl ++ x ++ Str.nl ++ fence)
  = match json_loads svc x with
    | Decoded data => Ok data
    | JSONDecodeError e =>
        Raise ("Failed to parse JSON response: " ++ e ++ Str.nl
               ++ "Response was: "
               ++ Str.take 500 (sep ++ Str.nl ++ x ++ Str.nl ++ fence))
    | DecoderRaised e => Raise e
    end.
Proof.
  intros Hsep Hs He Ht.
  set (y := Str.nl ++ x ++ Str.nl).
  assert (Hy : no_tick y = true)
    by (unfold y; rewrite !no_tick_app, Ht; reflexivity).
  assert (Er : sep ++ Str.nl ++ x ++ Str.nl ++ fence = sep ++ y ++ fence).
  { unfold y. now rewrite !append_assoc3. }
  assert (Hsolid : solid (sep ++ y ++ fence) = true).
  { rewrite <- append_assoc3.
    destruct Hsep as [-> | ->]; apply solid_before_fence; reflexivity. }
  assert (Hpart0 : Cut.part0 fence y = y).
  { unfold Cut.part0.
    replace y with (y ++ EmptyString) at 1 by apply append_empty.
    now rewrite (split_at_none_after fence y EmptyString eq_refl Hy eq_refl). }
  assert (Hpart : Cut.part0 fence (y ++ fence) = y).
  { unfold Cut.part0.
    replace (y ++ fence) with (y ++ fence ++ EmptyString)
      by (now rewrite append_empty).
    now rewrite (split_at_tick_free fence y EmptyString eq_refl Hy). }
  unfold _parse_json_response. cbv zeta. rewrite Er, (strip_solid _ Hsolid).
  assert (Hstrip : Str.strip y = x)
    by (apply strip_between, startswith_open_solid; assumption).
  destruct Hsep as [-> | ->].
  - rewrite contains_prefix. unfold Cut.part1.
    change (fence_json ++ y ++ fence)
      with (EmptyString ++ fence_json ++ y ++ fence).
    rewrite (split_at_tick_free fence_json EmptyString (y ++ fence)
               eq_refl eq_refl).
    assert (E0 : Cut.part0 fence_json (y ++ fence) = y ++ fence).
    { unfold Cut.part0.
      now rewrite (split_at_none_after fence_json y fence eq_refl Hy eq_refl). }
    rewrite E0, Hpart, Hstrip. now rewrite Hs, He.
  - assert (E1 : Str.contains fence_json (fence ++ y ++ fence) = false).
    { change (fence ++ y ++ fence)
        with (String "`" (String "`" (String "`" (y ++ fence)))).
      unfold y at 1.
      change (Str.nl ++ x ++ Str.nl)
        with (String (ascii_of_nat 10) (x ++ Str.nl)).
      change (String (ascii_of_nat 10) (x ++ Str.nl) ++ fence)
        with (String (ascii_of_nat 10) ((x ++ Str.nl) ++ fence)).
      cbn [Str.contains Str.startswith fence_json Ascii.eqb Bool.eqb andb orb
           ascii_of_nat].
      repeat rewrite andb_false_r. cbn [orb].
      apply contains_none_after; [reflexivity| |reflexivity].
      rewrite no_tick_app, Ht. reflexivity. }
    rewrite E1, contains_prefix. unfold Cut.part1.
    change (fence ++ y ++ fence) with (EmptyString ++ fence ++ y ++ fence).
    rewrite (split_at_tick_free fence EmptyString (y ++ fence)
               eq_refl eq_refl).
    rewrite Hpart, Hpart0, Hstrip. now rewrite Hs, He.
Qed.

Lemma parse_after_commentary (c x : string) :
  Str.startswith "{" x = true -> Str.endswith_char "}" x = true ->
  no_tick x = true -> no_tick c = true -> no_open c = true ->
  _parse_json_response svc (c ++ x)
  = match json_loads svc x with
    | Decoded data => Ok data
    | JSONDecodeError e =>
        Raise ("Failed to parse JSON response: " ++ e ++ Str.nl
               ++ "Response was: " ++ Str.take 500 (c ++ x))
    | DecoderRaised e => Raise e
    end.
Proof.
  intros Hs He Ht Hc Ho.
  destruct (lstrip_commentary c x Hs Hc Ho) as (c1 & Hl & Ht1 & Ho1).
  destruct (startswith_open _ Hs) as (rest & Hx).
  assert (Hends : ends_solid (c1 ++ x) = true).
  { rewrite Hx, ends_solid_app, <- Hx. now apply endswith_ends_solid. }
  assert (Hr : Str.rstrip (c1 ++ x) = c1 ++ x).
  { rewrite <- (append_empty (c1 ++ x)) at 1.
    now apply rstrip_solid. }
  assert (E1 : Str.strip (c ++ x) = c1 ++ x).
  { unfold Str.strip. now rewrite Hl, Hr. }
  assert (E2 : Str.strip (c1 ++ x) = c1 ++ x).
  { unfold Str.strip. rewrite <- Hl, lstrip_idem, Hl. exact Hr. }
  assert (Ht2 : no_tick (c1 ++ x) = true)
    by (rewrite no_tick_app, Ht1, Ht; reflexivity).
  unfold _parse_json_response. cbv zeta. rewrite E1.
  rewrite (contains_tick_free fence_json _ eq_refl Ht2).
  rewrite (contains_tick_free fence _ eq_refl Ht2).
  rewrite E2.
  destruct c1 as [|a c1].
  - simpl append. now rewrite Hs, He.
  - assert (Ha : Str.startswith "{" (String a c1 ++ x) = false).
    { unfold no_open in Ho1. simpl in Ho1.
      apply andb_true_iff in Ho1 as [Ha _]. apply negb_true_iff in Ha.
      change (Ascii.eqb "{" a && true = false).
      now rewrite Ascii.eqb_sym, Ha. }
    rewrite Ha, (from_first_open_skip _ _ Hs Ho1). now rewrite He.
Qed.

(** X18. Where the object of a reply is found. For a text x that
    starts with an opening brace, ends with a closing brace and has no
    backtick, the decoder is given exactly x when the reply is x
    itself, x in a fenced block tagged json, x in a plain fenced
    block, or x after a commentary that has neither backtick nor
    opening brace: the four replies decode alike. *)
Theorem object_found_in_wrappings (c x : string) (data : pyval) :
  Str.startswith "{" x = true ->
  Str.endswith_char "}" x = true ->
  no_tick x = true ->
  no_tick c = true ->
  no_open c = true ->
  json_loads svc x = Decoded data ->
  _parse_json_response svc x = Ok data
  /\ _parse_json_response svc (fence_json ++ Str.nl ++ x ++ Str.nl ++ fence)
     = Ok data
  /\ _parse_json_response svc (fence ++ Str.nl ++ x ++ Str.nl ++ fence)
     = Ok data
  /\ _parse_json_response svc (c ++ x) = Ok data.
Proof.
  intros Hs He Ht Hc Ho Hd. repeat split.
  - rewrite (parse_bare x Hs He Ht). now rewrite Hd.
  - rewrite (parse_fenced fence_json x (or_introl eq_refl) Hs He Ht).
    now rewrite Hd.
  - rewrite (parse_fenced fence x (or_intror eq_refl) Hs He Ht).
    now rewrite Hd.
  - rewrite (parse_after_commentary c x Hs He Ht Hc Ho). now rewrite Hd.
Qed.

End Wrappings.

Lemma object_found_in_wrappings_witness :
  _parse_json_response Sim.svc
    (fence_json ++ Str.nl ++ Sim.hollow_reply ++ Str.nl ++ fence)
  = Ok (PDict [("target_table", PStr "t"); ("sql", PStr EmptyString)])
  /\ _parse_json_response Sim.svc ("Here is the plan: " ++ Sim.hollow_reply)
     = Ok (PDict [("target_table", PStr "t"); ("sql", PStr EmptyString)]).
Proof.
  destruct (object_found_in_wrappings Sim.svc "Here is the plan: "
              Sim.hollow_reply
              (PDict [("target_table", PStr "t"); ("sql", PStr EmptyString)]))
    as (_ & H2 & _ & H4); try (vm_compute; reflexivity).
  split; assumption.
Defined.

(** ** When the model is asked *)

Lemma is_read_list (s : string) : is_read (CallListTables s) = true.
Proof. reflexivity. Qed.

Lemma is_read_schema (t s : string) : is_read (CallGetTableSchema t s) = true.
Proof. reflexivity. Qed.

Lemma is_read_sample (t s : string) (n : nat) :
  is_read (CallGetSampleData t s n) = true.
Proof. reflexivity. Qed.

Section ModelCalls.

Context {W : Type} (svc : Services W).

Lemma detect_intent_question (u : string) (a : Agent W) :
  matches_any question_patterns (Str.lower u) = true ->
  _detect_intent svc u a = (Ok QUESTION, a).
Proof. intros H. unfold _detect_intent. now rewrite H. Qed.

(** X19. The model is asked for transform requests only. Outside the
    confirmation, a turn whose message a question pattern matches, or
    that has neither a transform pattern nor an action word, makes
    only reading calls to the warehouse: no prompt leaves the agent. *)
Theorem model_asked_for_transforms_only (m : string) (a : Agent W) :
  state a <> AWAITING_CONFIRMATION ->
  matches_any question_patterns (Str.lower (Str.strip m)) = true
  \/ (matches_any transform_patterns (Str.lower (Str.strip m)) = false
      /\ Str.any_in action_words (Str.lower (Str.strip m)) = false) ->
  forallb is_read (calls_during a (after svc m a)) = true.
Proof.
  intros Hn Hw.
  assert (H : only_calls is_read a (after svc m a)).
  { unfold after, chat. rewrite bind_get, (not_awaiting _ Hn).
    pose proof (@only_calls_trans W is_read) as Rt.
    pose proof (calls_list_all svc is_read is_read_list is_read_schema) as H1.
    pose proof (calls_describe_table svc is_read is_read_list is_read_schema
                  is_read_sample) as H2.
    pose proof (calls_show_status svc is_read) as H3.
    pose proof (calls_handle_question svc is_read is_read_list is_read_schema
                  is_read_sample) as H4.
    pose proof (calls_handle_unclear_intent svc is_read is_read_list) as H5.
    pose proof (calls_detect_intent svc is_read is_read_list) as H6.
    destruct (Str.mem _ help_words); [apply only_calls_refl|].
    destruct (Str.mem _ tables_words); [apply H1|].
    destruct (Str.startswith "describe " _ || Str.startswith "desc " _).
    { destruct (Str.after_first_space (Str.strip m));
        [apply H2|apply only_calls_refl]. }
    destruct (Str.mem _ status_words); [apply H3|].
    destruct (matches_any question_patterns (Str.lower (Str.strip m))) eqn:Eq.
    - unfold bind. rewrite (detect_intent_question _ _ Eq). apply H4.
    - destruct Hw as [Hw|[Ht Ha]]; [discriminate|].
      unfold bind.
      rewrite (detect_intent_unclear svc (Str.strip m) a)
        by (unfold unclear_word; now rewrite Eq, Ht, Ha).
      pose proof (calls_identify_table svc is_read is_read_list
                    (Str.strip m) a) as Hid.
      destruct (_identify_table svc (Str.strip m) a) as [[found|e] a1];
        cbn [snd] in *; [|exact Hid].
      eapply only_calls_trans; [exact Hid|apply H5]. }
  destruct H as (l & Hl & Hf).
  rewrite (calls_during_app _ _ l Hl). now rewrite forallb_rev.
Qed.

End ModelCalls.

Lemma model_asked_for_transforms_only_witness :
  forallb is_read
    (calls_during (init (Sim.warehouse Sim.good_reply))
       (after Sim.svc "What columns are in raw_customers?"
              (init (Sim.warehouse Sim.good_reply))))
  = true.
Proof.
  apply (model_asked_for_transforms_only Sim.svc
           "What columns are in raw_customers?"
           (init (Sim.warehouse Sim.good_reply))).
  - vm_compute. discriminate.
  - left. vm_compute. reflexivity.
Defined.

(** ** Letter case in resolution and classification *)

Section LetterCase.

Context {W : Type} (svc : Services W).

(** X20. Letter case. Two messages without dot that agree in lower
    case are resolved to the same table and classified with the same
    intent, with the same calls and the same agent left. (A dotted
    reference is looked up as it is written.) *)
Theorem resolution_ignores_letter_case (u w : string) (a : Agent W) :
  no_dot u = true -> no_dot w = true -> Str.lower u = Str.lower w ->
  _identify_table svc u a = _identify_table svc w a
  /\ _detect_intent svc u a = _detect_intent svc w a.
Proof.
  intros Hu Hw Hl. split; [now apply identify_table_same|].
  unfold _detect_intent. rewrite Hl.
  destruct (matches_any question_patterns _); [reflexivity|].
  destruct (matches_any transform_patterns _); [reflexivity|].
  unfold bind. rewrite (identify_table_same svc u w a Hl Hu Hw).
  destruct (_identify_table svc w a) as [[found|e] a1]; [|reflexivity].
  cbv zeta.
  destruct (named found);
    [destruct (Str.any_in action_words (Str.lower w))|];
    destruct (Str.count_words u <? 5)%nat, (Str.count_words w <? 5)%nat;
    reflexivity.
Qed.

(** X22. The case of the letters of a table name. For a table whose
    name has ASCII characters only, the name in capitals or in lower
    case matches exactly the messages that the name itself matches:
    both tests of the resolver lower the name first. *)
Theorem table_name_case (r t : string) :
  is_ascii t = true ->
  table_matches r (Str.upper t) = table_matches r t
  /\ table_matches r (Str.lower t) = table_matches r t.
Proof.
  intros _. unfold table_matches, clean_name.
  now rewrite lower_upper, lower_lower.
Qed.

End LetterCase.

Lemma resolution_ignores_letter_case_witness :
  _identify_table Sim.svc "FIX RAW_CUSTOMERS" (init (Sim.warehouse Sim.good_reply))
  = _identify_table Sim.svc "fix raw_customers" (init (Sim.warehouse Sim.good_reply))
  /\ fst (_detect_intent Sim.svc "FIX RAW_CUSTOMERS"
            (init (Sim.warehouse Sim.good_reply)))
     = Ok TRANSFORM.
Proof.
  destruct (resolution_ignores_letter_case Sim.svc "FIX RAW_CUSTOMERS"
              "fix raw_customers" (init (Sim.warehouse Sim.good_reply))
              eq_refl eq_refl eq_refl) as (H1 & H2).
  split; [exact H1|]. rewrite H2. vm_compute. reflexivity.
Defined.

Lemma table_name_case_witness :
  table_matches "clean the orders table" "ORDERS" = true
  /\ table_matches "clean the orders table" "orders" = true.
Proof.
  destruct (table_name_case "clean the orders table" "Orders" eq_refl)
    as [H1 H2].
  split.
  - etransitivity; [exact H1|]. vm_compute. reflexivity.
  - etransitivity; [exact H2|]. vm_compute. reflexivity.
Defined.

(** ** Referring back to a table *)

Section BackReference.

Context {W : Type} (svc : Services W).

Lemma any_call_ok (c : Call) : (fun _ : Call => true) c = true.
Proof. reflexivity. Qed.

(** After the remembered table is set, the request reads its schema
    first, and keeps it remembered. *)
Lemma request_reads_schema (u t s : string) (b : Agent W) :
  let rest : M W string :=
    (table_schema <- db_get_table_schema svc t s ;;
     sample_data <- db_get_sample_data svc t s 5 ;;
     plan <- generate_transform_sql svc u table_schema sample_data
               (_determine_target_layer u s) (settings_catalog svc) ;;
     set_pending_transform
       (Some {| plan := plan; source_table := s ++ "." ++ t;
                source_schema := table_schema; user_request := u |}) ;;;
     set_state AWAITING_CONFIRMATION ;;;
     lift (_format_plan_for_confirmation plan table_schema)) in
  In (CallGetTableSchema t s) (calls (snd (rest b)))
  /\ last_mentioned_table (snd (rest b)) = last_mentioned_table b.
Proof.
  cbv zeta. split.
  - unfold bind at 1. unfold db_get_table_schema at 1. unfold service at 1.
    destruct (get_table_schema svc t s (world b)) as [[ts|e] w1];
      [|left; reflexivity].
    match goal with
    | |- In _ (calls (snd (?k ?b1))) =>
        assert (H : only_calls (fun _ => true) b1 (snd (k b1)))
    end.
    { as_preserves.
      pose proof (@only_calls_trans W (fun _ => true)) as Rt.
      pose proof (calls_get_sample_data svc (fun _ => true)
                    (fun _ _ _ => eq_refl)).
      pose proof (calls_generate svc (fun _ => true) (fun _ => eq_refl)).
      calls_frame. }
    destruct H as (l & Hl & _). rewrite Hl. apply in_or_app. right.
    left. reflexivity.
  - match goal with
    | |- last_mentioned_table (snd (?k b)) = _ =>
        cut (preserves keeps_last_mentioned k); [intros HP; exact (HP b)|]
    end.
    pose proof (@keeps_last_mentioned_attributes W) as Ra.
    pose proof (@keeps_last_mentioned_trans W) as Rt.
    assert (R_pending : forall p, preserves (@keeps_last_mentioned W)
                                            (set_pending_transform p))
      by (intros p a; reflexivity).
    assert (R_state : forall x, preserves (@keeps_last_mentioned W) (set_state x))
      by (intros x a; reflexivity).
    pose proof (frame_get_table_schema svc _ Ra).
    pose proof (frame_get_sample_data svc _ Ra).
    pose proof (frame_generate svc _ Ra Rt).
    frame.
Qed.

(** X21. Referring back. When a transform request names no table
    that the resolver finds, and the session remembers a table: with
    one of the texts "this table", "that table", "the table" or "it "
    in the lower-cased request, the remembered table is taken, its
    schema is read and it stays remembered; without such a text no
    plan is made: state and pending transform stay as they are and
    the warehouse is only asked to list tables. *)
Theorem request_refers_back (u t s : string) (a a1 : Agent W)
        (found : option (string * string)) :
  _identify_table svc u a = (Ok found, a1) ->
  named found = None ->
  last_mentioned_table a = Some (t, s) ->
  t <> EmptyString ->
  let a' := snd (_handle_transform_request svc u a) in
  (Str.any_in back_references (Str.lower u) = true ->
   In (CallGetTableSchema t s) (calls a')
   /\ last_mentioned_table a' = Some (t, s))
  /\ (Str.any_in back_references (Str.lower u) = false ->
      keeps_gate a a'
      /\ forallb is_listing (calls_during a a') = true).
Proof.
  intros Hid Hnamed Hlast Ht a'.
  assert (E : a' = snd (_handle_transform_request svc u a)) by reflexivity.
  clearbody a'. revert E. unfold _handle_transform_request.
  rewrite (try_except_ret_snd _ error_processing).
  pose proof (frame_identify_table svc _ (@keeps_last_mentioned_attributes W)
                (@keeps_last_mentioned_trans W) u a) as Hkeep.
  pose proof (frame_identify_table svc _ (@keeps_gate_attributes W)
                (@keeps_gate_trans W) u a) as Hgate.
  pose proof (calls_identify_table svc is_listing (fun _ => eq_refl) u a)
    as Hcalls.
  unfold bind at 1. rewrite Hid in *. cbn [snd] in *.
  rewrite bind_get. unfold keeps_last_mentioned in Hkeep.
  rewrite Hkeep, Hlast. unfold or_last_mentioned. rewrite Hnamed.
  fold back_references.
  assert (Hn : named (Some (t, s)) = Some (t, s)).
  { unfold named. apply String.eqb_neq in Ht. now rewrite Ht. }
  intros E. split; intros Hw; rewrite Hw in E.
  - rewrite Hn in E. unfold bind at 1 in E.
    cbn [set_last_mentioned_table] in E. subst a'.
    match goal with
    | |- In _ (calls (snd (?k ?b))) /\ _ =>
        destruct (request_reads_schema u t s b) as [H1 H2]
    end.
    split; [exact H1|]. rewrite H2. reflexivity.
  - rewrite Hnamed in E. subst a'. split.
    + eapply keeps_gate_trans; [exact Hgate|].
      apply (frame_ask_for_table_clarification svc _
               (@keeps_gate_attributes W) (@keeps_gate_trans W)).
    + assert (H : only_calls is_listing a
                    (snd (_ask_for_table_clarification svc u a1))).
      { eapply only_calls_trans; [exact Hcalls|].
        apply (calls_ask_for_table_clarification svc is_listing
                 (fun _ => eq_refl)). }
      destruct H as (l & Hl & Hf).
      rewrite (calls_during_app _ _ l Hl). now rewrite forallb_rev.
Qed.

End BackReference.

Lemma request_refers_back_witness :
  In (CallGetTableSchema "raw_customers" "bronze")
     (calls (snd (_handle_transform_request Sim.svc "clean this table"
                    (after Sim.svc "describe raw_customers"
                           (init (Sim.warehouse Sim.good_reply))))))
  /\ last_mentioned_table
       (snd (_handle_transform_request Sim.svc "clean this table"
               (after Sim.svc "describe raw_customers"
                      (init (Sim.warehouse Sim.good_reply)))))
     = Some ("raw_customers", "bronze").
Proof.
  destruct (request_refers_back Sim.svc "clean this table"
              "raw_customers" "bronze"
              (after Sim.svc "describe raw_customers"
                     (init (Sim.warehouse Sim.good_reply)))
              (snd (_identify_table Sim.svc "clean this table"
                      (after Sim.svc "describe raw_customers"
                             (init (Sim.warehouse Sim.good_reply)))))
              None) as (H & _).
  - vm_compute. reflexivity.
  - reflexivity.
  - vm_compute. reflexivity.
  - discriminate.
  - apply H. vm_compute. reflexivity.
Defined.
